(** * TPU embedding layers of lingvo: a shallow embedding and its properties

    The development follows [lingvo/core/tpu_embedding_layers.py] and
    [lingvo/tasks/car/input_preprocessors_test.py].  Python code that builds
    objects and registers graph nodes is written as functions in an
    error monad ([Res]) or a state-and-error monad ([M]); Python integers are
    [Z], Python floats are IEEE binary64 values ([spec_float] at precision 53),
    dictionaries are [gmap]s. *)

From Stdlib Require Import ZArith QArith Floats.SpecFloat.
From stdpp Require Import base option list gmap strings pretty.

Open Scope Z_scope.

(** ** Python exceptions and results *)

Inductive PyExc :=
| AssertionError
| ValueError (msg : string)
| KeyError (key : string)
| AttributeError (attr : string)
| TypeError (msg : string)
| IndexError
| OverflowError
| ZeroDivisionError
| NotImplementedError
| InvalidArgumentError (msg : string).

Inductive Res (A : Type) :=
| Ok (a : A)
| Raise (e : PyExc).
Arguments Ok {A} a.
Arguments Raise {A} e.

#[global] Instance Res_ret : MRet Res := @Ok.
#[global] Instance Res_bind : MBind Res :=
  λ A B f m, match m with Ok a => f a | Raise e => Raise e end.
#[global] Instance Res_fmap : FMap Res :=
  λ A B f m, match m with Ok a => Ok (f a) | Raise e => Raise e end.

Definition is_Ok {A} (r : Res A) : Prop := ∃ a, r = Ok a.

(** [assert b] *)
Definition py_assert (b : bool) : Res unit :=
  if b then Ok () else Raise AssertionError.

(** [for x in l: body], threading an accumulator and stopping at the first
    exception. *)
Fixpoint for_each {A S} (body : S → A → Res S) (l : list A) (s : S) : Res S :=
  match l with
  | [] => Ok s
  | x :: l' => s' ← body s x; for_each body l' s'
  end.

Fixpoint mapM_res {A B} (f : A → Res B) (l : list A) : Res (list B) :=
  match l with
  | [] => Ok []
  | x :: l' => y ← f x; ys ← mapM_res f l'; Ok (y :: ys)
  end.

(** Code that also updates the graph or an object: the state survives an
    exception, as the mutation of a Python object does. *)
Definition M (S A : Type) : Type := S → Res A * S.

#[global] Instance M_ret {S} : MRet (M S) := λ A a s, (Ok a, s).
#[global] Instance M_bind {S} : MBind (M S) :=
  λ A B f m s, match m s with
               | (Ok a, s') => f a s'
               | (Raise e, s') => (Raise e, s')
               end.

Definition lift_res {S A} (r : Res A) : M S A := λ s, (r, s).
Definition get_state {S} : M S S := λ s, (Ok s, s).
Definition modify_state {S} (f : S → S) : M S unit := λ s, (Ok (), f s).

(** [for x in l: body] with the loop's local variables as accumulator. *)
Fixpoint foldM {A B S} (body : B → A → M S B) (l : list A) (b : B) : M S B :=
  match l with
  | [] => mret b
  | x :: l' => body b x ≫= foldM body l'
  end.

(** Truth value of the objects the code tests with [if x], [assert x] and
    [not x]. *)
Definition truthy_str (s : string) : bool := negb (String.eqb s "").
Definition truthy_list {A} (l : list A) : bool :=
  match l with [] => false | _ => true end.
Definition truthy_opt {A} (t : A → bool) (o : option A) : bool :=
  match o with None => false | Some a => t a end.
Definition truthy_int (z : Z) : bool := negb (Z.eqb z 0).

(** ** Python floats: IEEE 754 binary64 *)

Definition prec : Z := 53.
Definition emax : Z := 1024.
Definition pyfloat := spec_float.

(** [float(z)] for an integer [z]: round to nearest even, [OverflowError]
    beyond the largest double. *)
Definition float_of_int (z : Z) : Res pyfloat :=
  match binary_normalize prec emax z 0 false with
  | S754_infinity _ => Raise OverflowError
  | f => Ok f
  end.

(** [x / y] on floats. *)
Definition float_truediv (x y : pyfloat) : Res pyfloat :=
  match y with
  | S754_zero _ => Raise ZeroDivisionError
  | _ => Ok (SFdiv prec emax x y)
  end.

(** [x / n] with a float on the left and an integer on the right: the
    integer is converted first. *)
Definition float_div_int (x : pyfloat) (n : Z) : Res pyfloat :=
  y ← float_of_int n; float_truediv x y.

(** [math.ceil(x)], an integer. *)
Definition math_ceil (x : pyfloat) : Res Z :=
  match x with
  | S754_zero _ => Ok 0
  | S754_finite s m e =>
      let v := if s then Z.neg m else Z.pos m in
      Ok (match e with
          | Z.neg p => - ((- v) / 2 ^ Z.pos p)
          | _ => v * 2 ^ e
          end)
  | S754_infinity _ => Raise OverflowError
  | S754_nan => Raise (ValueError "cannot convert float NaN to integer")
  end.

(** The exact value of a finite float, as a rational. *)
Definition float_value (x : pyfloat) : option Q :=
  match x with
  | S754_zero _ => Some 0%Q
  | S754_finite s m e =>
      let v := if s then Z.neg m else Z.pos m in
      Some (match e with
            | Z.neg p => (v # (2 ^ p))%Q
            | _ => inject_Z (v * 2 ^ e)
            end)
  | _ => None
  end.

(** ** The sharding arithmetic of [TPUEmbeddingTable.__init__]

    [int(math.ceil(float(p.vocab_size) / p.num_tpu_hosts))] and
    [self._ids_per_shard * p.num_tpu_hosts]. *)
Definition ids_per_shard_of (vocab_size num_tpu_hosts : Z) : Res Z :=
  x ← float_of_int vocab_size;
  q ← float_div_int x num_tpu_hosts;
  math_ceil q.

Definition padded_vocab_size_of (ids_per_shard num_tpu_hosts : Z) : Z :=
  ids_per_shard * num_tpu_hosts.

(** The ceiling division the sharding is meant to compute. *)
Definition ceil_div (a b : Z) : Z := - ((- a) / b).

(** ** The graph: variables, devices and the load and retrieve operations *)

Inductive DType := tf_float32 | tf_float64 | tf_int32 | tf_int64 | tf_other_dtype.

(** [py_utils.WeightInit]: only [Constant] is built by this file, the other
    initialisers come from the layer parameters. *)
Inductive WeightInit :=
| WeightInit_Constant (scale : pyfloat)
| WeightInit_Params (method : string).

(** [py_utils.WeightParams(shape, init, dtype, collections)]. *)
Record WeightParams := {
  wp_shape : list Z;
  wp_init : WeightInit;
  wp_dtype : DType;
  wp_collections : list string
}.

(** A variable made by [CreateVariable(name, params, trainable)] under
    [tf.device(device)]. *)
Record Var := {
  var_name : string;
  var_params : WeightParams;
  var_trainable : bool;
  var_device : option string
}.

(** What a layer's [vars] and [theta] hold under a key: one variable, or the
    list of shards stored under ['wm']. *)
Inductive VarEntry :=
| OneVar (v : Var)
| VarList (vs : list Var).

(** Tensors produced by the retrieve operations of the accelerator runtime. *)
Inductive RetrievedTensor :=
| retrieve_sgd_parameters (table_name : string) (num_shards shard_id : Z)
| retrieve_adagrad_parameters (table_name : string) (num_shards shard_id : Z)
| retrieve_adagrad_accumulators (table_name : string) (num_shards shard_id : Z).

Inductive Assign :=
| tf_assign (ref : VarEntry) (value : RetrievedTensor).

Inductive Op :=
| load_tpu_embedding_stochastic_gradient_descent_parameters
    (parameters : VarEntry) (table_name : string) (num_shards shard_id : Z)
| load_tpu_embedding_adagrad_parameters
    (parameters accumulators : VarEntry) (table_name : string)
    (num_shards shard_id : Z)
| control_flow_ops_group (inputs : list Assign).

(** The cluster the layers are built for: [py_utils.use_tpu()],
    [self.do_eval] and the [self.cluster] fields the code reads. *)
Record Cluster := {
  use_tpu : bool;
  do_eval : bool;
  worker_name : string;
  tpus_per_replica : Z;
  num_splits_per_client : Z
}.

(** ** Optimizer parameters and the objects of [tpu_embedding_lib] *)

Inductive OptimizerClass :=
| cls_TPUEmbeddingOptimizer
| cls_TPUEmbeddingSGDOptimizer
| cls_TPUEmbeddingAdagradOptimizer.

Record OptimizerParams := {
  opt_cls : OptimizerClass;
  opt_name : string;
  opt_dtype : DType;
  opt_learning_rate : option pyfloat;
  opt_clip_weight_min : option pyfloat;
  opt_clip_weight_max : option pyfloat;
  opt_weight_decay_factor : option pyfloat;
  opt_multiply_weight_decay_factor_by_learning_rate : option bool;
  opt_initial_accumulator : pyfloat;
  opt_use_gradient_accumulation : bool
}.

(** The double nearest to [0.1]. *)
Definition float_0_1 : pyfloat := S754_finite false 3602879701896397 (-55).

(** [cls.Params()] of the three optimizer classes: the base class defines
    the first five parameters with default [None], Adagrad adds
    [initial_accumulator = 0.1] and [use_gradient_accumulation = True]. *)
Definition Optimizer_Params (cls : OptimizerClass) : OptimizerParams := {|
  opt_cls := cls;
  opt_name := "";
  opt_dtype := tf_float32;
  opt_learning_rate := None;
  opt_clip_weight_min := None;
  opt_clip_weight_max := None;
  opt_weight_decay_factor := None;
  opt_multiply_weight_decay_factor_by_learning_rate := None;
  opt_initial_accumulator := float_0_1;
  opt_use_gradient_accumulation := true
|}.

(** [p.Copy()] of a parameter object: a new object with the same fields. *)
Definition Params_Copy {A} (p : A) : A := p.

Inductive OptimizationParameters :=
| StochasticGradientDescentParameters
    (learning_rate clip_weight_min clip_weight_max weight_decay_factor
       : option pyfloat)
    (multiply_weight_decay_factor_by_learning_rate : option bool)
| AdagradParameters
    (learning_rate : option pyfloat) (initial_accumulator : pyfloat)
    (clip_weight_min clip_weight_max weight_decay_factor : option pyfloat)
    (multiply_weight_decay_factor_by_learning_rate : option bool).

Record ScheduleParams := { schedule_name : string }.

(** The arguments of [tpu_embedding_lib.TableConfig]; the learning rate
    function is the closure over the table's schedule. *)
Record TableConfig := {
  tc_vocabulary_size : Z;
  tc_dimension : Z;
  tc_combiner : option string;
  tc_learning_rate : option pyfloat;
  tc_learning_rate_fn : option ScheduleParams;
  tc_optimization_parameters : OptimizationParameters
}.

Record FeatureConfig := {
  fc_table_id : string;
  fc_max_sequence_length : Z
}.

Record DeviceConfig := {
  dc_num_cores : Z;
  dc_num_hosts : Z;
  dc_job_name : string
}.

(** The arguments of the [tpu_embedding_lib.TPUEmbedding] constructor; the
    mode is always [TRAINING] and the master always [None]. *)
Record TPUEmbedding := {
  te_table_to_config_dict : gmap string TableConfig;
  te_feature_to_config_dict : gmap string FeatureConfig;
  te_batch_size : Z;
  te_pipeline_execution_with_tensor_core : bool;
  te_device_config : DeviceConfig
}.

(** The constructors of [tpu_embedding_lib] and of the schedule library
    validate their arguments outside this file: whether they accept them is
    left to the library. *)
Class TpuEmbeddingLib := {
  check_optimization_parameters : OptimizationParameters → Res unit;
  check_schedule : ScheduleParams → Res unit;
  check_table_config : TableConfig → Res unit;
  check_feature_config : FeatureConfig → Res unit;
  check_device_config : DeviceConfig → Res unit;
  check_tpu_embedding : TPUEmbedding → Res unit
}.

(** An optimizer layer: its parameters and, for the two concrete classes,
    the attribute [_tpu_embedding_optimizer_parameters]. *)
Record Optimizer := {
  optimizer_params : OptimizerParams;
  _tpu_embedding_optimizer_parameters : option OptimizationParameters
}.

(** [__init__] of the optimizer classes. *)
Definition Optimizer_init `{TpuEmbeddingLib} (p : OptimizerParams)
  : Res Optimizer :=
  _ ← py_assert (truthy_str (opt_name p));
  match opt_cls p with
  | cls_TPUEmbeddingOptimizer =>
      Ok {| optimizer_params := p;
            _tpu_embedding_optimizer_parameters := None |}
  | cls_TPUEmbeddingSGDOptimizer =>
      let op := StochasticGradientDescentParameters
                  (opt_learning_rate p) (opt_clip_weight_min p)
                  (opt_clip_weight_max p) (opt_weight_decay_factor p)
                  (opt_multiply_weight_decay_factor_by_learning_rate p) in
      _ ← check_optimization_parameters op;
      Ok {| optimizer_params := p;
            _tpu_embedding_optimizer_parameters := Some op |}
  | cls_TPUEmbeddingAdagradOptimizer =>
      let op := AdagradParameters
                  (opt_learning_rate p) (opt_initial_accumulator p)
                  (opt_clip_weight_min p) (opt_clip_weight_max p)
                  (opt_weight_decay_factor p)
                  (opt_multiply_weight_decay_factor_by_learning_rate p) in
      _ ← check_optimization_parameters op;
      Ok {| optimizer_params := p;
            _tpu_embedding_optimizer_parameters := Some op |}
  end.

(** The property [tpu_embedding_optimizer_parameters]. *)
Definition tpu_embedding_optimizer_parameters (o : Optimizer)
  : Res OptimizationParameters :=
  match _tpu_embedding_optimizer_parameters o with
  | Some op => Ok op
  | None => Raise (AttributeError "_tpu_embedding_optimizer_parameters")
  end.

(** ** [TPUEmbeddingTable] *)

Record TableParams := {
  tbl_name : string;
  tbl_dtype : DType;
  params_init : WeightInit;
  vocab_size : Z;
  embedding_dim : Z;
  input_keys : option (list string);
  combiner : option string;
  max_sequence_length : option Z;
  num_tpu_hosts : Z;
  optimizer : option OptimizerParams;
  learning_rate : option pyfloat;
  lr_schedule : option ScheduleParams
}.

(** [TPUEmbeddingTable.Params()]. *)
Definition TPUEmbeddingTable_Params : TableParams := {|
  tbl_name := "";
  tbl_dtype := tf_float32;
  params_init := WeightInit_Params "xavier";
  vocab_size := 0;
  embedding_dim := 0;
  input_keys := None;
  combiner := Some "mean";
  max_sequence_length := None;
  num_tpu_hosts := 0;
  optimizer := None;
  learning_rate := None;
  lr_schedule := None
|}.

Record TPUEmbeddingTable := {
  params : TableParams;
  self_optimizer : Optimizer;
  self_schedule : option ScheduleParams;
  _ids_per_shard : Z;
  _padded_vocab_size : Z;
  _input_keys : list string;
  _max_sequence_length : Z;
  _table_name : string;
  _table_config : TableConfig;
  _load_op_list : list Op;
  _retrieve_op_list : list Op;
  _private_vars : gmap string VarEntry;
  _private_theta : gmap string VarEntry
}.

Definition set_private (vars theta : gmap string VarEntry)
  (t : TPUEmbeddingTable) : TPUEmbeddingTable := {|
  params := params t;
  self_optimizer := self_optimizer t;
  self_schedule := self_schedule t;
  _ids_per_shard := _ids_per_shard t;
  _padded_vocab_size := _padded_vocab_size t;
  _input_keys := _input_keys t;
  _max_sequence_length := _max_sequence_length t;
  _table_name := _table_name t;
  _table_config := _table_config t;
  _load_op_list := _load_op_list t;
  _retrieve_op_list := _retrieve_op_list t;
  _private_vars := vars;
  _private_theta := theta
|}.

Definition set_op_lists (load retrieve : list Op)
  (t : TPUEmbeddingTable) : TPUEmbeddingTable := {|
  params := params t;
  self_optimizer := self_optimizer t;
  self_schedule := self_schedule t;
  _ids_per_shard := _ids_per_shard t;
  _padded_vocab_size := _padded_vocab_size t;
  _input_keys := _input_keys t;
  _max_sequence_length := _max_sequence_length t;
  _table_name := _table_name t;
  _table_config := _table_config t;
  _load_op_list := load;
  _retrieve_op_list := retrieve;
  _private_vars := _private_vars t;
  _private_theta := _private_theta t
|}.

(** [self.CreateChild('optimizer', p.optimizer)] of the layer base class,
    which is outside this file: it copies the parameters, names a child
    without a name after its attribute, and instantiates it. *)
Definition CreateChild_optimizer `{TpuEmbeddingLib}
  (po : option OptimizerParams) : Res Optimizer :=
  match po with
  | None => Raise (AttributeError "Copy")
  | Some op =>
      let op' := Params_Copy op in
      Optimizer_init
        (if truthy_str (opt_name op') then op' else
           {| opt_cls := opt_cls op';
              opt_name := "optimizer";
              opt_dtype := opt_dtype op';
              opt_learning_rate := opt_learning_rate op';
              opt_clip_weight_min := opt_clip_weight_min op';
              opt_clip_weight_max := opt_clip_weight_max op';
              opt_weight_decay_factor := opt_weight_decay_factor op';
              opt_multiply_weight_decay_factor_by_learning_rate :=
                opt_multiply_weight_decay_factor_by_learning_rate op';
              opt_initial_accumulator := opt_initial_accumulator op';
              opt_use_gradient_accumulation :=
                opt_use_gradient_accumulation op' |})
  end.

(** The local function [GetLearningRateFn] of [__init__]: [None] without a
    schedule, otherwise the schedule child is created and the closure over
    it returned. *)
Definition GetLearningRateFn `{TpuEmbeddingLib} (p : TableParams)
  : Res (option ScheduleParams) :=
  match lr_schedule p with
  | None => Ok None
  | Some sch => _ ← check_schedule sch; Ok (Some sch)
  end.

(** The assertions of [__init__] on the combiner and the sequence length
    (lines 259 to 262). *)
Definition assert_combiner (p : TableParams) : Res unit :=
  _ ← match combiner p with
      | None => py_assert (truthy_opt truthy_int (max_sequence_length p))
      | Some _ => Ok ()
      end;
  match max_sequence_length p with
  | Some n =>
      if Z.ltb 0 n
      then py_assert (match combiner p with None => true | Some _ => false end)
      else Ok ()
  | None => Ok ()
  end.

(** [TPUEmbeddingTable.__init__]. *)
Definition TPUEmbeddingTable_init `{TpuEmbeddingLib} (p : TableParams)
  : Res TPUEmbeddingTable :=
  _ ← py_assert (Z.ltb 0 (vocab_size p));
  _ ← py_assert (Z.ltb 0 (embedding_dim p));
  _ ← py_assert (truthy_opt truthy_list (input_keys p));
  _ ← py_assert (truthy_str (tbl_name p));
  _ ← py_assert (Z.ltb 0 (num_tpu_hosts p));
  _ ← assert_combiner p;
  ids_per_shard ← ids_per_shard_of (vocab_size p) (num_tpu_hosts p);
  let padded_vocab_size := padded_vocab_size_of ids_per_shard (num_tpu_hosts p) in
  let max_seq :=
    match max_sequence_length p with
    | Some n => if truthy_int n then n else 0
    | None => 0
    end in
  opt ← CreateChild_optimizer (optimizer p);
  lr_fn ← GetLearningRateFn p;
  opt_parameters ← tpu_embedding_optimizer_parameters opt;
  let config := {|
    tc_vocabulary_size := padded_vocab_size;
    tc_dimension := embedding_dim p;
    tc_combiner := combiner p;
    tc_learning_rate := learning_rate p;
    tc_learning_rate_fn := lr_fn;
    tc_optimization_parameters := opt_parameters |} in
  _ ← check_table_config config;
  Ok {|
    params := p;
    self_optimizer := opt;
    self_schedule := lr_fn;
    _ids_per_shard := ids_per_shard;
    _padded_vocab_size := padded_vocab_size;
    _input_keys := default [] (input_keys p);
    _max_sequence_length := max_seq;
    _table_name := tbl_name p +:+ "_table";
    _table_config := config;
    _load_op_list := [];
    _retrieve_op_list := [];
    _private_vars := ∅;
    _private_theta := ∅ |}.

(** [GetDeviceName] and [GetVariableName]. *)
Definition GetDeviceName (c : Cluster) (host_id : Z) : option string :=
  if do_eval c then None
  else Some (worker_name c +:+ "/replica:0/task:" +:+ pretty host_id
             +:+ "/device:CPU:0").

Definition GetVariableName (host_id : Z) : string := "var_" +:+ pretty host_id.

(** [self.CreateVariable(name, params, trainable)] inside
    [with tf.device(device)]: the variable is entered in the layer's
    [_private_vars] and [_private_theta].  The method belongs to the layer
    base class, outside this file; the checks it makes on the name are not
    part of this model, in which creating a variable always succeeds. *)
Definition CreateVariable (name : string) (w : WeightParams)
  (trainable : bool) (device : option string) : M TPUEmbeddingTable unit :=
  modify_state (λ t,
    let v := OneVar {| var_name := name; var_params := w;
                       var_trainable := trainable; var_device := device |} in
    set_private (<[name := v]> (_private_vars t))
                (<[name := v]> (_private_theta t)) t).

(** [self.vars[name]]. *)
Definition vars_get (name : string) : M TPUEmbeddingTable VarEntry :=
  λ t, (match _private_vars t !! name with
        | Some e => Ok e
        | None => Raise (KeyError name)
        end, t).

(** [range(n)]. *)
Definition py_range (n : Z) : list Z := seqZ 0 n.

(** ** [CreateSlotVariablesAndOps] of the optimizers *)

(** What the method hands back: the pair of op lists, or, in the base
    class, an exception object. *)
Inductive SlotOpsResult :=
| OpLists (load_op_list retrieve_op_list : list Op)
| ExceptionObject (e : PyExc).

Definition entry_shape (e : VarEntry) : list Z :=
  match e with
  | OneVar v => wp_shape (var_params v)
  | VarList _ => []
  end.

Definition Base_CreateSlotVariablesAndOps (c : Cluster)
  (table_vars : list VarEntry) : M TPUEmbeddingTable SlotOpsResult :=
  mret (ExceptionObject NotImplementedError).

(** The body of the loop over [zip(range(num_tpu_hosts), table_vars)] in
    the SGD optimizer (lines 99 to 125). *)
Definition SGD_loop_body (c : Cluster) (table_name : string) (num_tpu_hosts : Z)
  : list Op * list Op → Z * VarEntry → M TPUEmbeddingTable (list Op * list Op) :=
  λ '(load_op_list, retrieve_op_list) '(host_id, table_var),
    let device_name := GetDeviceName c host_id in
    if use_tpu c then
      let load_parameters_op :=
        load_tpu_embedding_stochastic_gradient_descent_parameters
          table_var table_name num_tpu_hosts host_id in
      let retrieved_table :=
        retrieve_sgd_parameters table_name num_tpu_hosts host_id in
      let retrieve_parameters_op :=
        control_flow_ops_group [tf_assign table_var retrieved_table] in
      mret (load_op_list ++ [load_parameters_op],
            retrieve_op_list ++ [retrieve_parameters_op])
    else mret (load_op_list, retrieve_op_list).

Definition SGD_CreateSlotVariablesAndOps (c : Cluster)
  (table_vars : list VarEntry) : M TPUEmbeddingTable SlotOpsResult :=
  tpu_embedding_table ← get_state;
  let num_tpu_hosts := num_tpu_hosts (params tpu_embedding_table) in
  let table_name := _table_name tpu_embedding_table in
  lists ← foldM (SGD_loop_body c table_name num_tpu_hosts)
    (zip (py_range num_tpu_hosts) table_vars) ([], []);
  mret (OpLists lists.1 lists.2).

(** The body of the loop in the Adagrad optimizer (lines 167 to 204). *)
Definition Adagrad_loop_body (c : Cluster) (p : OptimizerParams)
  (table_name : string) (num_tpu_hosts : Z)
  : list Op * list Op → Z * VarEntry → M TPUEmbeddingTable (list Op * list Op) :=
  λ '(load_op_list, retrieve_op_list) '(host_id, table_var),
    let slot_var_collections := ["TPUEmbeddingTable" +:+ "_vars"] in
    let device_name := GetDeviceName c host_id in
    let w_ada := {|
      wp_shape := entry_shape table_var;
      wp_init := WeightInit_Constant (opt_initial_accumulator p);
      wp_dtype := opt_dtype p;
      wp_collections := slot_var_collections |} in
    let var_name := GetVariableName host_id in
    _ ← CreateVariable (var_name +:+ "/Adagrad") w_ada false device_name;
    accumulator_var ← vars_get (var_name +:+ "/Adagrad");
    if use_tpu c then
      let load_parameters_op :=
        load_tpu_embedding_adagrad_parameters
          table_var accumulator_var table_name num_tpu_hosts host_id in
      let retrieved_table :=
        retrieve_adagrad_parameters table_name num_tpu_hosts host_id in
      let retrieved_accumulator :=
        retrieve_adagrad_accumulators table_name num_tpu_hosts host_id in
      let retrieve_parameters_op :=
        control_flow_ops_group
          [tf_assign table_var retrieved_table;
           tf_assign accumulator_var retrieved_accumulator] in
      mret (load_op_list ++ [load_parameters_op],
            retrieve_op_list ++ [retrieve_parameters_op])
    else mret (load_op_list, retrieve_op_list).

Definition Adagrad_CreateSlotVariablesAndOps (c : Cluster)
  (p : OptimizerParams) (table_vars : list VarEntry)
  : M TPUEmbeddingTable SlotOpsResult :=
  tpu_embedding_table ← get_state;
  let num_tpu_hosts := num_tpu_hosts (params tpu_embedding_table) in
  let table_name := _table_name tpu_embedding_table in
  lists ← foldM (Adagrad_loop_body c p table_name num_tpu_hosts)
    (zip (py_range num_tpu_hosts) table_vars) ([], []);
  mret (OpLists lists.1 lists.2).

(** Method dispatch on the optimizer's class. *)
Definition CreateSlotVariablesAndOps (c : Cluster) (self : Optimizer)
  (table_vars : list VarEntry) : M TPUEmbeddingTable SlotOpsResult :=
  match opt_cls (optimizer_params self) with
  | cls_TPUEmbeddingOptimizer => Base_CreateSlotVariablesAndOps c table_vars
  | cls_TPUEmbeddingSGDOptimizer => SGD_CreateSlotVariablesAndOps c table_vars
  | cls_TPUEmbeddingAdagradOptimizer =>
      Adagrad_CreateSlotVariablesAndOps c (optimizer_params self) table_vars
  end.

(** The body of the loop over [range(p.num_tpu_hosts)] in
    [TPUEmbeddingTable._CreateLayerVariables] (lines 310 to 319). *)
Definition shard_loop_body (c : Cluster) (w_pc : WeightParams)
  : list VarEntry → Z → M TPUEmbeddingTable (list VarEntry) :=
  λ embedding_table_vars i,
    let device_name := GetDeviceName c i in
    let var_name := GetVariableName i in
    _ ← CreateVariable var_name w_pc true device_name;
    embedding_var ← vars_get var_name;
    _ ← modify_state (λ t, set_private (delete var_name (_private_vars t))
                                       (delete var_name (_private_theta t)) t);
    mret (embedding_table_vars ++ [embedding_var]).

(** [self._private_vars['wm'] = embedding_table_vars] and the same for
    [_private_theta], where the elements are wrapped in [tf.identity]. *)
Definition store_wm (embedding_table_vars : list VarEntry)
  : M TPUEmbeddingTable unit :=
  match mapM_res (λ e, match e with
                       | OneVar v => Ok v
                       | VarList _ => Raise (TypeError "variable expected")
                       end) embedding_table_vars with
  | Ok vs =>
      modify_state (λ t,
        set_private (<["wm" := VarList vs]> (_private_vars t))
                    (<["wm" := VarList vs]> (_private_theta t)) t)
  | Raise e => lift_res (Raise e)
  end.

(** [TPUEmbeddingTable._CreateLayerVariables]. *)
Definition Table_CreateLayerVariables (c : Cluster) : M TPUEmbeddingTable unit :=
  self ← get_state;
  let p := params self in
  let w_pc := {|
    wp_shape := [_ids_per_shard self; embedding_dim p];
    wp_init := params_init p;
    wp_dtype := tbl_dtype p;
    wp_collections := ["TPUEmbeddingTable" +:+ "_vars"] |} in
  embedding_table_vars ← foldM (shard_loop_body c w_pc)
                                (py_range (num_tpu_hosts p)) [];
  _ ← (if negb (use_tpu c) then store_wm embedding_table_vars else mret ());
  if negb (do_eval c) then
    r ← CreateSlotVariablesAndOps c (self_optimizer self) embedding_table_vars;
    match r with
    | OpLists load retrieve => modify_state (set_op_lists load retrieve)
    | ExceptionObject _ =>
        lift_res (Raise (TypeError "cannot unpack non-iterable object"))
    end
  else mret ().

(** ** [TPUEmbeddingLayer]: parameters and construction *)

(** [p.tables] is [None] by default; [None] and the empty list are both
    falsy and both written [[]] here. *)
Record LayerParams := {
  layer_name : string;
  tables : list TableParams;
  pipeline_execution_with_tensor_core : bool;
  batch_size : Z;
  layer_optimizer : option OptimizerParams
}.

(** [TPUEmbeddingLayer.Params()]. *)
Definition TPUEmbeddingLayer_Params : LayerParams := {|
  layer_name := "";
  tables := [];
  pipeline_execution_with_tensor_core := false;
  batch_size := 0;
  layer_optimizer := Some (Optimizer_Params cls_TPUEmbeddingAdagradOptimizer)
|}.

Definition set_optimizer (o : option OptimizerParams) (t : TableParams)
  : TableParams := {|
  tbl_name := tbl_name t;
  tbl_dtype := tbl_dtype t;
  params_init := params_init t;
  vocab_size := vocab_size t;
  embedding_dim := embedding_dim t;
  input_keys := input_keys t;
  combiner := combiner t;
  max_sequence_length := max_sequence_length t;
  num_tpu_hosts := num_tpu_hosts t;
  optimizer := o;
  learning_rate := learning_rate t;
  lr_schedule := lr_schedule t
|}.

Definition set_tbl_name (n : string) (t : TableParams) : TableParams := {|
  tbl_name := n;
  tbl_dtype := tbl_dtype t;
  params_init := params_init t;
  vocab_size := vocab_size t;
  embedding_dim := embedding_dim t;
  input_keys := input_keys t;
  combiner := combiner t;
  max_sequence_length := max_sequence_length t;
  num_tpu_hosts := num_tpu_hosts t;
  optimizer := optimizer t;
  learning_rate := learning_rate t;
  lr_schedule := lr_schedule t
|}.

Definition is_None {A} (o : option A) : bool :=
  match o with None => true | Some _ => false end.

Definition missing_optimizer_message : string :=
  "A table is missing optimizer parameters, and no layer-level optimizer parameters were given.".

(** Lines 456 to 467 of [TPUEmbeddingLayer.__init__]: the check of the
    optimizer parameters and the update of [p.tables]; the result is the
    table list after the update. *)
Definition resolve_table_optimizers (p : LayerParams) : Res (list TableParams) :=
  let table_optimizer_missing :=
    existsb (λ table_params, is_None (optimizer table_params)) (tables p) in
  if negb (truthy_opt (λ _, true) (layer_optimizer p)) && table_optimizer_missing
  then Raise (ValueError missing_optimizer_message)
  else if table_optimizer_missing then
    mapM_res (λ table_params,
        if is_None (optimizer table_params) then
          match layer_optimizer p with
          | Some o => Ok (set_optimizer (Some (Params_Copy o)) table_params)
          | None => Raise (AttributeError "Copy")
          end
        else Ok table_params)
      (tables p)
  else Ok (tables p).

(** [self.CreateChildren('tables', p.tables)] of the layer base class, which
    is outside this file: every parameter object is copied, named after the
    attribute and its position when it has no name, and instantiated. *)
Definition CreateChildren_tables `{TpuEmbeddingLib} (ps : list TableParams)
  : Res (list TPUEmbeddingTable) :=
  mapM_res (λ '(i, tp),
      TPUEmbeddingTable_init
        (if truthy_str (tbl_name tp) then Params_Copy tp
         else set_tbl_name ("tables_" +:+ pretty i) tp))
    (zip (py_range (Z.of_nat (length ps))) ps).

(** Elements of the graph collections this file uses. *)
Inductive CollectionKey :=
| TPU_EMBEDDING_LOAD_OPS
| TPU_EMBEDDING_RETRIEVE_OPS
| TPU_EMBEDDING
| TPU_EMBEDDING_ACTIVATIONS
| TPU_EMBEDDING_SUMMARY_TENSORS.

#[global] Instance CollectionKey_eq_dec : EqDecision CollectionKey.
Proof. solve_decision. Defined.

#[global] Instance DType_eq_dec : EqDecision DType.
Proof. solve_decision. Defined.

(** A tensor value: its shape and its elements in row-major order. *)
Record Tensor (A : Type) := {
  shape : list nat;
  data : list A
}.
Arguments shape {A} t.
Arguments data {A} t.

Definition numel (sh : list nat) : nat := foldr Nat.mul 1%nat sh.

Definition wf_tensor {A} (t : Tensor A) : Prop :=
  length (data t) = numel (shape t).

Inductive CollectionItem :=
| item_ops (ops : list Op)
| item_tpu_embedding (api : TPUEmbedding)
| item_activations (activations : gmap string (Tensor pyfloat)).

(** The collections of the default graph. *)
Definition Graph := (CollectionKey → list CollectionItem).

Definition tf_add_to_collection (k : CollectionKey) (x : CollectionItem)
  : M Graph unit :=
  modify_state (λ g k', if decide (k' = k) then g k ++ [x] else g k').

Definition tf_get_collection (k : CollectionKey) : M Graph (list CollectionItem) :=
  λ g, (Ok (g k), g).

Record TPUEmbeddingLayer := {
  layer_params : LayerParams;
  self_tables : list TPUEmbeddingTable;
  _sequence_features : gmap string bool;
  _tpu_embedding : option CollectionItem
}.

(** [TPUEmbeddingLayer.__init__]. *)
Definition TPUEmbeddingLayer_init `{TpuEmbeddingLib} (p : LayerParams)
  : Res TPUEmbeddingLayer :=
  _ ← py_assert (truthy_list (tables p));
  _ ← py_assert (Z.ltb 0 (batch_size p));
  _ ← py_assert (truthy_str (layer_name p));
  num_tpu_hosts0 ← match tables p with
                   | t :: _ => Ok (num_tpu_hosts t)
                   | [] => Raise IndexError
                   end;
  _ ← py_assert (forallb (λ t, Z.eqb (num_tpu_hosts t) num_tpu_hosts0) (tables p));
  tables' ← resolve_table_optimizers p;
  children ← CreateChildren_tables tables';
  Ok {| layer_params := {|
          layer_name := layer_name p;
          tables := tables';
          pipeline_execution_with_tensor_core :=
            pipeline_execution_with_tensor_core p;
          batch_size := batch_size p;
          layer_optimizer := layer_optimizer p |};
        self_tables := children;
        _sequence_features := ∅;
        _tpu_embedding := None |}.

(** The local dictionaries and lists of the loop over [self.tables] in
    [TPUEmbeddingLayer._CreateLayerVariables]. *)
Record LayerLoop := {
  table_to_config_dict : gmap string TableConfig;
  feature_to_config_dict : gmap string FeatureConfig;
  load_op_list : list Op;
  retrieve_op_list : list Op;
  sequence_features : gmap string bool
}.

Definition layer_loop_feature `{TpuEmbeddingLib} (table : TPUEmbeddingTable)
  (acc : LayerLoop) (feature : string) : Res LayerLoop :=
  let seq := if Z.ltb 0 (_max_sequence_length table)
             then <[feature := true]> (sequence_features acc)
             else sequence_features acc in
  let fc := {| fc_table_id := _table_name table;
               fc_max_sequence_length := _max_sequence_length table |} in
  _ ← check_feature_config fc;
  Ok {| table_to_config_dict := table_to_config_dict acc;
        feature_to_config_dict := <[feature := fc]> (feature_to_config_dict acc);
        load_op_list := load_op_list acc;
        retrieve_op_list := retrieve_op_list acc;
        sequence_features := seq |}.

Definition layer_loop_table `{TpuEmbeddingLib} (acc : LayerLoop)
  (table : TPUEmbeddingTable) : Res LayerLoop :=
  for_each (layer_loop_feature table) (_input_keys table)
    {| table_to_config_dict :=
         <[_table_name table := _table_config table]> (table_to_config_dict acc);
       feature_to_config_dict := feature_to_config_dict acc;
       load_op_list := load_op_list acc ++ _load_op_list table;
       retrieve_op_list := retrieve_op_list acc ++ _retrieve_op_list table;
       sequence_features := sequence_features acc |}.

Definition set_tpu_embedding (seq : gmap string bool)
  (api : option CollectionItem) (self : TPUEmbeddingLayer) : TPUEmbeddingLayer := {|
  layer_params := layer_params self;
  self_tables := self_tables self;
  _sequence_features := seq;
  _tpu_embedding := api
|}.

(** [TPUEmbeddingLayer._CreateLayerVariables]: the graph collections are the
    state, the updated layer is the result. *)
Definition Layer_CreateLayerVariables `{TpuEmbeddingLib} (c : Cluster)
  (self : TPUEmbeddingLayer) : M Graph TPUEmbeddingLayer :=
  if use_tpu c then
    let num_cores := tpus_per_replica c in
    let global_batch_size :=
      batch_size (layer_params self) * num_splits_per_client c in
    acc ← lift_res (for_each layer_loop_table (self_tables self)
                      {| table_to_config_dict := ∅;
                         feature_to_config_dict := ∅;
                         load_op_list := [];
                         retrieve_op_list := [];
                         sequence_features := ∅ |});
    _ ← tf_add_to_collection TPU_EMBEDDING_LOAD_OPS (item_ops (load_op_list acc));
    _ ← tf_add_to_collection TPU_EMBEDDING_RETRIEVE_OPS
          (item_ops (retrieve_op_list acc));
    tpu_embedding_collection ← tf_get_collection TPU_EMBEDDING;
    _ ← lift_res (py_assert (Nat.leb (length tpu_embedding_collection) 1));
    if Nat.eqb (length tpu_embedding_collection) 1 then
      match tpu_embedding_collection !! 0%nat with
      | Some api =>
          mret (set_tpu_embedding (sequence_features acc) (Some api) self)
      | None => lift_res (Raise IndexError)
      end
    else
      num_hosts ← lift_res match tables (layer_params self) with
                           | t :: _ => Ok (num_tpu_hosts t)
                           | [] => Raise IndexError
                           end;
      let device_config := {| dc_num_cores := num_cores;
                              dc_num_hosts := num_hosts;
                              dc_job_name := worker_name c |} in
      _ ← lift_res (check_device_config device_config);
      let api := {|
        te_table_to_config_dict := table_to_config_dict acc;
        te_feature_to_config_dict := feature_to_config_dict acc;
        te_batch_size := global_batch_size;
        te_pipeline_execution_with_tensor_core :=
          pipeline_execution_with_tensor_core (layer_params self);
        te_device_config := device_config |} in
      _ ← lift_res (check_tpu_embedding api);
      _ ← tf_add_to_collection TPU_EMBEDDING (item_tpu_embedding api);
      mret (set_tpu_embedding (sequence_features acc)
              (Some (item_tpu_embedding api)) self)
  else mret (set_tpu_embedding ∅ (_tpu_embedding self) self).

(** ** Tensor values and the lookups *)

(** [d.items()] mapped through a function that may raise.  A dictionary is
    a [gmap]; when several entries raise, which exception comes first is
    not kept. *)
Definition map_mapM_res {A B} (f : string → A → Res B) (m : gmap string A)
  : Res (gmap string B) :=
  list_to_map <$> mapM_res (λ kv, v ← f kv.1 kv.2; Ok (kv.1, v)) (map_to_list m).

(** [tf.expand_dims(t, axis)]. *)
Definition tf_expand_dims {A} (t : Tensor A) (axis : nat) : Res (Tensor A) :=
  if Nat.leb axis (length (shape t)) then
    Ok {| shape := take axis (shape t) ++ 1%nat :: drop axis (shape t);
          data := data t |}
  else Raise (InvalidArgumentError "expand_dims: axis out of range").

(** [tf.reshape(t, new_shape)] with a fully given shape, and with [[-1]]. *)
Definition tf_reshape {A} (t : Tensor A) (new_shape : list nat) : Res (Tensor A) :=
  if Nat.eqb (numel new_shape) (length (data t)) then
    Ok {| shape := new_shape; data := data t |}
  else Raise (InvalidArgumentError "reshape: number of elements differs").

Definition tf_reshape_flat {A} (t : Tensor A) : Tensor A :=
  {| shape := [length (data t)]; data := data t |}.

(** Position in row-major order and back. *)
Fixpoint unravel (sh : list nat) (i : nat) : list nat :=
  match sh with
  | [] => []
  | _ :: sh' => (i / numel sh')%nat :: unravel sh' (i mod numel sh')%nat
  end.

Fixpoint ravel (sh : list nat) (idx : list nat) : nat :=
  match sh, idx with
  | _ :: sh', x :: idx' => (x * numel sh' + ravel sh' idx')%nat
  | _, _ => 0%nat
  end.

(** [tf.where(tf.not_equal(ids, pad))]: the indices of the elements that
    differ from [pad], in row-major order. *)
Definition tf_where_not_equal (ids : Tensor Z) (pad : Z) : list (list nat) :=
  map (unravel (shape ids))
      (filter (λ i, data ids !! i ≠ Some pad) (seq 0 (length (data ids)))).

(** [tf.gather_nd(ids, indices)]. *)
Definition tf_gather_nd (ids : Tensor Z) (indices : list (list nat)) : Res (list Z) :=
  mapM_res (λ idx,
      match data ids !! ravel (shape ids) idx with
      | Some v => Ok v
      | None => Raise (InvalidArgumentError "gather_nd: index out of range")
      end) indices.

Record SparseTensor := {
  sp_indices : list (list nat);
  sp_values : list Z;
  sp_dense_shape : list nat
}.

(** The rows [0 .. row_span - 1] are the smallest span from row 0 that
    covers every index of the sparse tensor. *)
Definition row_span (sp : SparseTensor) : nat :=
  foldr (λ idx n, Nat.max (S (hd 0%nat idx)) n) 0%nat (sp_indices sp).

(** [tf.pad(t, [[0, padlen], [0, 0]])] on a matrix, with zeros. *)
Definition tf_pad_dim0 (t : Tensor pyfloat) (padlen : Z) : Res (Tensor pyfloat) :=
  match shape t with
  | [n; d] =>
      if Z.ltb padlen 0
      then Raise (InvalidArgumentError "pad: paddings must be non-negative")
      else Ok {| shape := [(n + Z.to_nat padlen)%nat; d];
                 data := data t
                         ++ replicate (Z.to_nat padlen * d) (S754_zero false) |}
  | _ => Raise (InvalidArgumentError "pad: paddings do not match the rank")
  end.

(** [py_utils.HasShape(t, [n], ndims=1)]: the tensor, checked to have [n] as
    its first dimension. *)
Definition HasShape_dim0 {A} (t : Tensor A) (n : nat) : Res (Tensor A) :=
  if bool_decide (take 1 (shape t) = [n]) then Ok t
  else Raise (InvalidArgumentError "HasShape: shape mismatch").

(** The embedding operations of the tensor library and of the accelerator
    runtime, and the value a session gives to a variable. *)
Class TfEmbeddingOps := {
  read_variable : Var → Tensor pyfloat;
  get_activations : CollectionItem → Res (gmap string (Tensor pyfloat));
  tf_nn_embedding_lookup : list (Tensor pyfloat) → Tensor Z → Res (Tensor pyfloat);
  tf_nn_embedding_lookup_sparse :
    list (Tensor pyfloat) → SparseTensor → option string → Res (Tensor pyfloat)
}.

(** [self.theta.wm]. *)
Definition theta_wm `{TfEmbeddingOps} (self : TPUEmbeddingTable)
  : Res (list (Tensor pyfloat)) :=
  match _private_theta self !! "wm" with
  | Some (VarList vs) => Ok (map read_variable vs)
  | Some (OneVar v) => Ok [read_variable v]
  | None => Raise (AttributeError "wm")
  end.

(** The dense to sparse conversion of lines 394 to 400. *)
Definition dense_to_sparse (ids : Tensor Z) : Res SparseTensor :=
  let dense_shape := shape ids in
  let sample_indices := tf_where_not_equal ids (-1) in
  embedding_indices ← tf_gather_nd ids sample_indices;
  Ok {| sp_indices := sample_indices;
        sp_values := embedding_indices;
        sp_dense_shape := dense_shape |}.

(** One turn of the loop of the combiner case of
    [TPUEmbeddingTable.CpuEmbLookup] (lines 392 to 417). *)
Definition cpu_lookup_combined `{TfEmbeddingOps} (self : TPUEmbeddingTable)
  (ids : Tensor Z) : Res (Tensor pyfloat) :=
  sparse_ids ← dense_to_sparse ids;
  wm ← theta_wm self;
  embs ← tf_nn_embedding_lookup_sparse wm sparse_ids (combiner (params self));
  batch_size ← match sp_dense_shape sparse_ids with
               | b :: _ => Ok b
               | [] => Raise (InvalidArgumentError "slice index 0 of dimension 0 out of bounds")
               end;
  dim0 ← match shape embs with
         | n :: _ => Ok n
         | [] => Raise (InvalidArgumentError "slice index 0 of dimension 0 out of bounds")
         end;
  let dim0_padlen := Z.of_nat batch_size - Z.of_nat dim0 in
  embs ← tf_pad_dim0 embs dim0_padlen;
  embs ← HasShape_dim0 embs batch_size;
  tf_expand_dims embs 1.

(** One turn of the loop of the sequence case (lines 386 to 389). *)
Definition cpu_lookup_sequence `{TfEmbeddingOps} (self : TPUEmbeddingTable)
  (ids : Tensor Z) : Res (Tensor pyfloat) :=
  wm ← theta_wm self;
  embs ← tf_nn_embedding_lookup wm (tf_reshape_flat ids);
  let out_shape := shape ids ++ [Z.to_nat (embedding_dim (params self))] in
  tf_reshape embs out_shape.

(** [TPUEmbeddingTable.CpuEmbLookup]. *)
Definition Table_CpuEmbLookup `{TfEmbeddingOps} (self : TPUEmbeddingTable)
  (ids_map : gmap string (Tensor Z)) : Res (gmap string (Tensor pyfloat)) :=
  if Z.ltb 0 (_max_sequence_length self) then
    map_mapM_res (λ k ids, cpu_lookup_sequence self ids) ids_map
  else
    map_mapM_res (λ k ids, cpu_lookup_combined self ids) ids_map.

(** The local function [CpuEmbLookup] of [TPUEmbeddingLayer.EmbLookup]. *)
Definition Layer_CpuEmbLookup `{TfEmbeddingOps} (self : TPUEmbeddingLayer)
  (ids_map : gmap string (Tensor Z)) : Res (gmap string (Tensor pyfloat)) :=
  for_each (λ rets table,
      table_id_map ← for_each (λ table_id_map key,
          match ids_map !! key with
          | Some ids => Ok (<[key := ids]> table_id_map)
          | None => Raise (KeyError key)
          end) (_input_keys table) ∅;
      table_rets ← Table_CpuEmbLookup table table_id_map;
      Ok (table_rets ∪ rets))
    (self_tables self) ∅.

(** The local function [TpuEmbLookup] of [TPUEmbeddingLayer.EmbLookup]; the
    argument [ids_map] is deleted on entry. *)
Definition Layer_TpuEmbLookup `{TfEmbeddingOps} (self : TPUEmbeddingLayer)
  (ids_map : gmap string (Tensor Z)) : M Graph (gmap string (Tensor pyfloat)) :=
  api ← lift_res match _tpu_embedding self with
                 | Some api => Ok api
                 | None => Raise (AttributeError "_tpu_embedding")
                 end;
  activations ← lift_res (get_activations api);
  _ ← tf_add_to_collection TPU_EMBEDDING_ACTIVATIONS (item_activations activations);
  lift_res (map_mapM_res (λ k v,
      if bool_decide (is_Some (_sequence_features self !! k)) then Ok v
      else tf_expand_dims v 1) activations).

(** [TPUEmbeddingLayer.EmbLookup]. *)
Definition EmbLookup `{TfEmbeddingOps} (c : Cluster) (self : TPUEmbeddingLayer)
  (ids_map : gmap string (Tensor Z)) : M Graph (gmap string (Tensor pyfloat)) :=
  if negb (use_tpu c) then lift_res (Layer_CpuEmbLookup self ids_map)
  else Layer_TpuEmbLookup self ids_map.

(** ** The preprocessors of [input_preprocessors_test.py] *)

Inductive PyScalar :=
| py_int (z : Z)
| py_float (f : pyfloat).

(** The values given as [constant_value]: a number or a flat list. *)
Inductive PyConst :=
| const_scalar (s : PyScalar)
| const_list (l : list PyScalar).

Definition is_py_int (s : PyScalar) : bool :=
  match s with py_int _ => true | py_float _ => false end.

Definition in_int64 (s : PyScalar) : bool :=
  match s with
  | py_int z => Z.leb (- 2 ^ 63) z && Z.ltb z (2 ^ 63)
  | py_float _ => true
  end.

(** [np.array(v).shape]. *)
Definition np_shape (v : PyConst) : list Z :=
  match v with
  | const_scalar _ => []
  | const_list l => [Z.of_nat (length l)]
  end.

(** [tf.as_dtype(np.array(v).dtype)]: integers that fit 64 bits give
    [int64], a float anywhere gives [float64], as does the empty list. *)
Definition np_dtype (v : PyConst) : DType :=
  let elements := match v with const_scalar s => [s] | const_list l => l end in
  if negb (forallb in_int64 elements) then tf_other_dtype
  else if forallb is_py_int elements && truthy_list elements then tf_int64
  else tf_float64.

(** The interface [input_preprocessors.Preprocessor]. *)
Record Preprocessor := {
  TransformFeatures : gmap string PyConst → Res (gmap string PyConst);
  TransformShapes : gmap string (list Z) → Res (gmap string (list Z));
  TransformDTypes : gmap string DType → Res (gmap string DType)
}.

Record ConstantPreprocessorParams := {
  constant_value : PyConst;
  key_name : string
}.

(** [ConstantPreprocessor.Params()]. *)
Definition ConstantPreprocessor_Params : ConstantPreprocessorParams := {|
  constant_value := const_scalar (py_int 0);
  key_name := "value"
|}.

(** [ConstantPreprocessor]. *)
Definition ConstantPreprocessor (p : ConstantPreprocessorParams) : Preprocessor := {|
  TransformFeatures features := Ok (<[key_name p := constant_value p]> features);
  TransformShapes shapes := Ok (<[key_name p := np_shape (constant_value p)]> shapes);
  TransformDTypes dtypes := Ok (<[key_name p := np_dtype (constant_value p)]> dtypes)
|}.

Record RandomChoicePreprocessorParams := {
  weight_tensor_key : string;
  subprocessors : list Preprocessor
}.

(** Modelled from the spec: [RandomChoicePreprocessor.TransformShapes] of
    [lingvo/tasks/car/input_preprocessors.py], which is not among the
    sources.  Every subprocessor transforms the given shapes; the results
    must all be the same dictionary, which is returned, and [ValueError] is
    raised when two of them differ in a shape or in their keys.  The spec
    leaves the empty list of subprocessors open; [ValueError] is raised
    there. *)
Definition RandomChoice_transform {A} `{EqDecision A}
  (transform : Preprocessor → gmap string A → Res (gmap string A))
  (p : RandomChoicePreprocessorParams) (x : gmap string A) : Res (gmap string A) :=
  transformed ← mapM_res (λ sub, transform sub x) (subprocessors p);
  match transformed with
  | [] => Raise (ValueError "no subprocessors")
  | first :: rest =>
      if forallb (λ curr, bool_decide (curr = first)) rest then Ok first
      else Raise (ValueError "subprocessors must agree")
  end.

Definition RandomChoice_TransformShapes :=
  RandomChoice_transform TransformShapes.

(** Modelled from the spec: [RandomChoicePreprocessor.TransformDTypes], not
    among the sources; as [TransformShapes], on the dtypes. *)
Definition RandomChoice_TransformDTypes :=
  RandomChoice_transform TransformDTypes.

(** The weights read from the feature under [weight_tensor_key]: a list of
    finite non-negative floats, as rationals. *)
Definition weights_of (v : PyConst) : option (list Q) :=
  match v with
  | const_list l =>
      mapM (λ s, match s with
                 | py_float f => float_value f
                 | py_int z => Some (inject_Z z)
                 end) l
  | const_scalar _ => None
  end.

Definition Qsum (l : list Q) : Q := foldr Qplus 0%Q l.

(** Modelled from the spec: [RandomChoicePreprocessor.TransformFeatures],
    not among the sources.  One subprocessor is drawn at random, number [i]
    with probability [weights[i] / sum(weights)], and applied to the
    features.  The random draw is written as the finite distribution of the
    results: one pair of a probability and an outcome per subprocessor. *)
Definition RandomChoice_TransformFeatures (p : RandomChoicePreprocessorParams)
  (features : gmap string PyConst)
  : Res (list (Q * Res (gmap string PyConst))) :=
  match features !! weight_tensor_key p with
  | None => Raise (KeyError (weight_tensor_key p))
  | Some w =>
      match weights_of w with
      | None => Raise (ValueError "weights must be a vector of numbers")
      | Some weights =>
          if negb (Nat.eqb (length weights) (length (subprocessors p)))
          then Raise (ValueError "one weight per subprocessor is needed")
          else Ok (zip_with (λ wi sub,
                               ((wi / Qsum weights)%Q, TransformFeatures sub features))
                            weights (subprocessors p))
      end
  end.

(** The configurations of [testRandomChoicePreprocessor] and
    [testRandomChoicePreprocessorErrors]. *)
Definition constant_int (v : Z) (key : string) : Preprocessor :=
  ConstantPreprocessor {| constant_value := const_scalar (py_int v); key_name := key |}.

Definition float_of_Z (z : Z) : pyfloat := binary_normalize prec emax z 0 false.

Definition test_choice : RandomChoicePreprocessorParams := {|
  weight_tensor_key := "weights";
  subprocessors := [constant_int 1 "value"; constant_int 2 "value";
                    constant_int 3 "value"; constant_int 4 "value"]
|}.

Definition test_features : gmap string PyConst :=
  {[ "weights" := const_list [py_float (float_of_Z 1); py_float (float_of_Z 2);
                              py_float (float_of_Z 3); py_float (float_of_Z 4)] ]}.

Definition test_different_shapes : RandomChoicePreprocessorParams := {|
  weight_tensor_key := "weights";
  subprocessors :=
    [constant_int 1 "value";
     ConstantPreprocessor {| constant_value := const_list [py_int 2; py_int 3];
                             key_name := "value" |}]
|}.

Definition test_different_keys : RandomChoicePreprocessorParams := {|
  weight_tensor_key := "weights";
  subprocessors := [constant_int 1 "foo"; constant_int 2 "value"]
|}.

Definition test_different_dtypes : RandomChoicePreprocessorParams := {|
  weight_tensor_key := "weights";
  subprocessors :=
    [constant_int 1 "value";
     ConstantPreprocessor {| constant_value := const_scalar (py_float (float_of_Z 2));
                             key_name := "value" |}]
|}.

(** ** Reference instances of the libraries

    The checks below are the ones the accelerator library documents for its
    constructors; the lookups are the plain row lookups with the default
    partition of the rows over the shards.  They serve to run the definitions
    above on examples. *)

Definition valid_combiner (o : option string) : bool :=
  match o with
  | None => true
  | Some s => String.eqb s "mean" || String.eqb s "sum" || String.eqb s "sqrtn"
  end.

Definition reference_check_table_config (cfg : TableConfig) : Res unit :=
  if negb (Z.leb 1 (tc_vocabulary_size cfg))
  then Raise (ValueError "Invalid vocabulary_size")
  else if negb (Z.leb 1 (tc_dimension cfg))
  then Raise (ValueError "Invalid dimension")
  else if negb (valid_combiner (tc_combiner cfg))
  then Raise (ValueError "Invalid combiner")
  else if negb (is_None (tc_learning_rate cfg))
          && negb (is_None (tc_learning_rate_fn cfg))
  then Raise (ValueError "At most one of learning_rate and learning_rate_fn can be given")
  else Ok ().

Definition reference_check_optimization_parameters (op : OptimizationParameters)
  : Res unit :=
  match op with
  | AdagradParameters _ acc _ _ _ _ =>
      if SFltb (S754_zero false) acc then Ok ()
      else Raise (ValueError "Adagrad initial_accumulator must be positive")
  | _ => Ok ()
  end.

Definition reference_lib : TpuEmbeddingLib := {|
  check_optimization_parameters := reference_check_optimization_parameters;
  check_schedule _ := Ok ();
  check_table_config := reference_check_table_config;
  check_feature_config _ := Ok ();
  check_device_config _ := Ok ();
  check_tpu_embedding _ := Ok ()
|}.

Definition zeros (sh : list nat) : Tensor pyfloat :=
  {| shape := sh; data := replicate (numel sh) (S754_zero false) |}.

Definition params_width (wm : list (Tensor pyfloat)) : nat :=
  match wm with
  | t :: _ => nth 1 (shape t) 0%nat
  | [] => 0%nat
  end.

(** Row [id] of a table cut in shards: shard [id mod n], row [id / n]. *)
Definition reference_row (wm : list (Tensor pyfloat)) (id : Z)
  : Res (list pyfloat) :=
  let n := Z.of_nat (length wm) in
  let d := params_width wm in
  if Z.ltb id 0 || Z.eqb n 0
  then Raise (InvalidArgumentError "id out of range")
  else match wm !! Z.to_nat (id mod n) with
       | Some shard =>
           let r := Z.to_nat (id / n) in
           if Nat.ltb r (hd 0%nat (shape shard))
           then Ok (take d (drop (r * d) (data shard)))
           else Raise (InvalidArgumentError "id out of range")
       | None => Raise (InvalidArgumentError "id out of range")
       end.

Definition reference_embedding_lookup (wm : list (Tensor pyfloat))
  (ids : Tensor Z) : Res (Tensor pyfloat) :=
  rows ← mapM_res (reference_row wm) (data ids);
  Ok {| shape := shape ids ++ [params_width wm]; data := concat rows |}.

Definition reference_combine (comb : option string) (d : nat)
  (rows : list (list pyfloat)) : list pyfloat :=
  let total := foldr (zip_with (SFadd prec emax))
                     (replicate d (S754_zero false)) rows in
  let count := float_of_Z (Z.of_nat (length rows)) in
  match comb with
  | Some "sum" => total
  | Some "sqrtn" => map (λ x, SFdiv prec emax x (SFsqrt prec emax count)) total
  | _ => map (λ x, SFdiv prec emax x count) total
  end.

Definition reference_embedding_lookup_sparse (wm : list (Tensor pyfloat))
  (sp : SparseTensor) (comb : option string) : Res (Tensor pyfloat) :=
  if negb (valid_combiner comb) then Raise (ValueError "combiner must be one of 'mean', 'sqrtn' or 'sum'")
  else
    let d := params_width wm in
    rows ← mapM_res (λ r,
        let ids := map snd (filter (λ iv, hd 0%nat iv.1 = r)
                                   (zip (sp_indices sp) (sp_values sp))) in
        looked_up ← mapM_res (reference_row wm) ids;
        Ok (if truthy_list ids then reference_combine comb d looked_up
            else replicate d (S754_zero false)))
      (seq 0 (row_span sp));
    Ok {| shape := [row_span sp; d]; data := concat rows |}.

Definition reference_get_activations (x : CollectionItem)
  : Res (gmap string (Tensor pyfloat)) :=
  match x with
  | item_tpu_embedding api =>
      Ok ((λ fc,
            zeros [Z.to_nat (te_batch_size api);
                   Z.to_nat (from_option tc_dimension 0
                      (te_table_to_config_dict api !! fc_table_id fc))])
          <$> te_feature_to_config_dict api)
  | _ => Raise (AttributeError "get_activations")
  end.

Definition reference_ops : TfEmbeddingOps := {|
  read_variable v := zeros (map Z.to_nat (wp_shape (var_params v)));
  get_activations := reference_get_activations;
  tf_nn_embedding_lookup := reference_embedding_lookup;
  tf_nn_embedding_lookup_sparse := reference_embedding_lookup_sparse
|}.

(** ** The operations and slot variables the optimizers are expected to make *)

Definition sgd_load_op (table_name : string) (num_shards : Z)
  (x : Z * VarEntry) : Op :=
  load_tpu_embedding_stochastic_gradient_descent_parameters
    x.2 table_name num_shards x.1.

Definition sgd_retrieve_op (table_name : string) (num_shards : Z)
  (x : Z * VarEntry) : Op :=
  control_flow_ops_group
    [tf_assign x.2 (retrieve_sgd_parameters table_name num_shards x.1)].

Definition adagrad_slot_name (host_id : Z) : string :=
  GetVariableName host_id +:+ "/Adagrad".

Definition adagrad_slot_var (c : Cluster) (p : OptimizerParams)
  (x : Z * VarEntry) : Var := {|
  var_name := adagrad_slot_name x.1;
  var_params := {| wp_shape := entry_shape x.2;
                   wp_init := WeightInit_Constant (opt_initial_accumulator p);
                   wp_dtype := opt_dtype p;
                   wp_collections := ["TPUEmbeddingTable_vars"] |};
  var_trainable := false;
  var_device := GetDeviceName c x.1
|}.

Definition adagrad_load_op (c : Cluster) (p : OptimizerParams)
  (table_name : string) (num_shards : Z) (x : Z * VarEntry) : Op :=
  load_tpu_embedding_adagrad_parameters
    x.2 (OneVar (adagrad_slot_var c p x)) table_name num_shards x.1.

Definition adagrad_retrieve_op (c : Cluster) (p : OptimizerParams)
  (table_name : string) (num_shards : Z) (x : Z * VarEntry) : Op :=
  control_flow_ops_group
    [tf_assign x.2 (retrieve_adagrad_parameters table_name num_shards x.1);
     tf_assign (OneVar (adagrad_slot_var c p x))
       (retrieve_adagrad_accumulators table_name num_shards x.1)].

(** The table after the slot variables of the hosts in [l] were created. *)
Definition add_slots (c : Cluster) (p : OptimizerParams)
  (l : list (Z * VarEntry)) (t : TPUEmbeddingTable) : TPUEmbeddingTable :=
  foldl (λ t x,
           set_private
             (<[adagrad_slot_name x.1 := OneVar (adagrad_slot_var c p x)]>
                (_private_vars t))
             (<[adagrad_slot_name x.1 := OneVar (adagrad_slot_var c p x)]>
                (_private_theta t)) t)
        t l.

(** The hosts a table's shards are paired with: [zip(range(n), table_vars)]. *)
Definition hosts_of (t : TPUEmbeddingTable) (table_vars : list VarEntry)
  : list (Z * VarEntry) :=
  zip (py_range (num_tpu_hosts (params t))) table_vars.

(** The shard variable [_CreateLayerVariables] makes for host [i]. *)
Definition shard_var (c : Cluster) (self : TPUEmbeddingTable) (i : Z) : Var := {|
  var_name := GetVariableName i;
  var_params := {| wp_shape := [_ids_per_shard self; embedding_dim (params self)];
                   wp_init := params_init (params self);
                   wp_dtype := tbl_dtype (params self);
                   wp_collections := ["TPUEmbeddingTable_vars"] |};
  var_trainable := true;
  var_device := GetDeviceName c i
|}.

(** The operation a concrete optimizer makes for one host. *)
Definition load_op_for (c : Cluster) (self : Optimizer) (t : TPUEmbeddingTable)
  (x : Z * VarEntry) : Op :=
  match opt_cls (optimizer_params self) with
  | cls_TPUEmbeddingAdagradOptimizer =>
      adagrad_load_op c (optimizer_params self) (_table_name t)
        (num_tpu_hosts (params t)) x
  | _ => sgd_load_op (_table_name t) (num_tpu_hosts (params t)) x
  end.

Definition retrieve_op_for (c : Cluster) (self : Optimizer)
  (t : TPUEmbeddingTable) (x : Z * VarEntry) : Op :=
  match opt_cls (optimizer_params self) with
  | cls_TPUEmbeddingAdagradOptimizer =>
      adagrad_retrieve_op c (optimizer_params self) (_table_name t)
        (num_tpu_hosts (params t)) x
  | _ => sgd_retrieve_op (_table_name t) (num_tpu_hosts (params t)) x
  end.

(** The shard an operation loads or retrieves. *)
Definition op_shard_id (op : Op) : option Z :=
  match op with
  | load_tpu_embedding_stochastic_gradient_descent_parameters _ _ _ i => Some i
  | load_tpu_embedding_adagrad_parameters _ _ _ _ i => Some i
  | control_flow_ops_group
      (tf_assign _ (retrieve_sgd_parameters _ _ i) :: _) => Some i
  | control_flow_ops_group
      (tf_assign _ (retrieve_adagrad_parameters _ _ i) :: _) => Some i
  | control_flow_ops_group
      (tf_assign _ (retrieve_adagrad_accumulators _ _ i) :: _) => Some i
  | control_flow_ops_group [] => None
  end.

(** ** Example objects *)

Definition example_cluster : Cluster := {|
  use_tpu := true;
  do_eval := false;
  worker_name := "/job:trainer_client";
  tpus_per_replica := 8;
  num_splits_per_client := 2
|}.

Definition example_adagrad_params : OptimizerParams := {|
  opt_cls := cls_TPUEmbeddingAdagradOptimizer;
  opt_name := "optimizer";
  opt_dtype := tf_float32;
  opt_learning_rate := Some float_0_1;
  opt_clip_weight_min := None;
  opt_clip_weight_max := None;
  opt_weight_decay_factor := None;
  opt_multiply_weight_decay_factor_by_learning_rate := None;
  opt_initial_accumulator := float_0_1;
  opt_use_gradient_accumulation := true
|}.

Definition example_table_params : TableParams := {|
  tbl_name := "emb";
  tbl_dtype := tf_float32;
  params_init := WeightInit_Params "xavier";
  vocab_size := 10;
  embedding_dim := 4;
  input_keys := Some ["ids"];
  combiner := Some "sum";
  max_sequence_length := None;
  num_tpu_hosts := 3;
  optimizer := Some example_adagrad_params;
  learning_rate := None;
  lr_schedule := None
|}.

Definition example_adagrad : Optimizer := {|
  optimizer_params := example_adagrad_params;
  _tpu_embedding_optimizer_parameters :=
    Some (AdagradParameters (Some float_0_1) float_0_1 None None None None)
|}.

Definition example_table : TPUEmbeddingTable := {|
  params := example_table_params;
  self_optimizer := example_adagrad;
  self_schedule := None;
  _ids_per_shard := 4;
  _padded_vocab_size := 12;
  _input_keys := ["ids"];
  _max_sequence_length := 0;
  _table_name := "emb_table";
  _table_config := {|
    tc_vocabulary_size := 12;
    tc_dimension := 4;
    tc_combiner := Some "sum";
    tc_learning_rate := None;
    tc_learning_rate_fn := None;
    tc_optimization_parameters :=
      AdagradParameters (Some float_0_1) float_0_1 None None None None |};
  _load_op_list := [];
  _retrieve_op_list := [];
  _private_vars := ∅;
  _private_theta := ∅
|}.

Definition example_table_vars : list VarEntry :=
  map (λ i, OneVar (shard_var example_cluster example_table i)) [0; 1; 2].

Definition example_base_optimizer : Optimizer := {|
  optimizer_params := Optimizer_Params cls_TPUEmbeddingOptimizer;
  _tpu_embedding_optimizer_parameters := None
|}.

(** A table whose sizes are beyond the exact range of the doubles. *)
Definition large_table_params : TableParams := {|
  tbl_name := "emb";
  tbl_dtype := tf_float32;
  params_init := WeightInit_Params "xavier";
  vocab_size := 2 ^ 53 + 1;
  embedding_dim := 4;
  input_keys := Some ["ids"];
  combiner := Some "sum";
  max_sequence_length := None;
  num_tpu_hosts := 1;
  optimizer := Some example_adagrad_params;
  learning_rate := None;
  lr_schedule := None
|}.

(** ** Notions used to state the properties of [TPUEmbeddingLayer.__init__] *)

Definition table_optimizer_missing (p : LayerParams) : bool :=
  existsb (λ table_params, is_None (optimizer table_params)) (tables p).

(** The assertions at the head of [TPUEmbeddingLayer.__init__]
    (lines 449 to 454). *)
Definition leading_assertions (p : LayerParams) : Prop :=
  tables p ≠ []
  ∧ 0 < batch_size p
  ∧ layer_name p ≠ ""
  ∧ ∀ t, t ∈ tables p →
         Some (num_tpu_hosts t) = num_tpu_hosts <$> head (tables p).

(** A table's parameters after the layer gave it its optimizer. *)
Definition fill_optimizer (layer_opt : option OptimizerParams)
  (t : TableParams) : TableParams :=
  if is_None (optimizer t) then set_optimizer (Params_Copy <$> layer_opt) t
  else t.

(** The rest of [__init__] once the table parameters are settled. *)
Definition finish_layer_init `{TpuEmbeddingLib} (p : LayerParams)
  (tables' : list TableParams) : Res TPUEmbeddingLayer :=
  children ← CreateChildren_tables tables';
  Ok {| layer_params := {|
          layer_name := layer_name p;
          tables := tables';
          pipeline_execution_with_tensor_core :=
            pipeline_execution_with_tensor_core p;
          batch_size := batch_size p;
          layer_optimizer := layer_optimizer p |};
        self_tables := children;
        _sequence_features := ∅;
        _tpu_embedding := None |}.

(** A layer without optimizer parameters, over a table without optimizer
    parameters, and with the default batch size 0. *)
Definition layer_params_without_optimizers : LayerParams := {|
  layer_name := "tpu_emb";
  tables := [set_optimizer None example_table_params];
  pipeline_execution_with_tensor_core := false;
  batch_size := 0;
  layer_optimizer := None
|}.

Definition example_layer_params : LayerParams := {|
  layer_name := "tpu_emb";
  tables := [set_optimizer None example_table_params];
  pipeline_execution_with_tensor_core := false;
  batch_size := 16;
  layer_optimizer := Some example_adagrad_params
|}.

(** ** Example layer and graphs *)

Definition example_loaded_table : TPUEmbeddingTable :=
  set_op_lists
    (map (load_op_for example_cluster example_adagrad example_table)
         (hosts_of example_table example_table_vars))
    (map (retrieve_op_for example_cluster example_adagrad example_table)
         (hosts_of example_table example_table_vars))
    example_table.

Definition example_layer : TPUEmbeddingLayer := {|
  layer_params := example_layer_params;
  self_tables := [example_loaded_table];
  _sequence_features := ∅;
  _tpu_embedding := None
|}.

Definition empty_graph : Graph := λ _, [].

(** ** Example inputs of the CPU lookup *)

Definition cpu_cluster : Cluster := {|
  use_tpu := false;
  do_eval := true;
  worker_name := "/job:evaler";
  tpus_per_replica := 0;
  num_splits_per_client := 1
|}.

(** The example table after [_CreateLayerVariables] on a CPU evaluator:
    its shards are under ['wm']. *)
Definition example_cpu_table : TPUEmbeddingTable :=
  (Table_CreateLayerVariables cpu_cluster example_table).2.

(** A batch of two rows of two ids; the second row is all padding. *)
Definition example_ids : Tensor Z :=
  {| shape := [2; 2]%nat; data := [3; -1; -1; -1] |}.

Definition example_ids_map : gmap string (Tensor Z) := {[ "ids" := example_ids ]}.

(** What the source says of [tf.nn.embedding_lookup_sparse] (lines 401 to
    405): its result has the rows of the smallest span from row 0 that
    covers every index, and the width of the table. *)
Definition sparse_lookup_shape_law `{TfEmbeddingOps} : Prop :=
  ∀ wm sp comb embs,
    tf_nn_embedding_lookup_sparse wm sp comb = Ok embs →
    shape embs = [row_span sp; params_width wm].

(** The values of the shards have the width the table declares. *)
Definition shards_have_declared_width `{TfEmbeddingOps}
  (self : TPUEmbeddingTable) : Prop :=
  ∀ wm, theta_wm self = Ok wm →
        params_width wm = Z.to_nat (embedding_dim (params self)).

(** Every entry of an [ids_map] is a well-formed [batch, sequence] matrix. *)
Definition ids_are_matrices (ids_map : gmap string (Tensor Z)) : Prop :=
  ∀ key ids, ids_map !! key = Some ids →
             wf_tensor ids ∧ ∃ batch seq, shape ids = [batch; seq].

(** The inputs of the tests: the shapes and dtypes of the weights alone. *)
Definition test_shapes (n : Z) : gmap string (list Z) := {[ "weights" := [n] ]}.
Definition test_dtypes : gmap string DType := {[ "weights" := tf_float32 ]}.

(** What the subprocessors make of an input, when none of them raises. *)
Definition transformed_by {A}
  (transform : Preprocessor → gmap string A → Res (gmap string A))
  (p : RandomChoicePreprocessorParams) (x : gmap string A)
  (results : list (gmap string A)) : Prop :=
  mapM_res (λ sub, transform sub x) (subprocessors p) = Ok results.

(** ** Notions used to state the properties of [TPUEmbeddingTable.__init__] *)

(** The combiners the parameter's description allows. *)
Definition combiner_allowed (o : option string) : Prop :=
  o ∈ [Some "sum"; Some "sqrtn"; Some "mean"; None].

(** A sequence embedding excludes a combiner: without combiner the sequence
    length is set, and a positive sequence length comes without combiner. *)
Definition sequence_preconditions (p : TableParams) : Prop :=
  (combiner p = None → truthy_opt truthy_int (max_sequence_length p) = true)
  ∧ (∀ n, max_sequence_length p = Some n → 0 < n → combiner p = None).

(** ** Notions used to state the rounding of a quotient of doubles *)

(** A location is exact when nothing was cut off. *)
Definition is_exact (l : location) : bool :=
  match l with loc_Exact => true | _ => false end.

(** The mantissa [binary_round_aux] keeps of a quotient [q] of 53 or 54
    digits with the location [loc] of the remainder, scaled to the exponent
    of [q]: [q] rounded to nearest even when it has 53 digits, and twice the
    rounded half of [q] when it has 54. *)
Definition rounded_mantissa (q : positive) (loc : location) : Z :=
  if Z.pos q <? 2 ^ 53 then round_nearest_even (Z.pos q) loc
  else let mrs := shr_1 (shr_record_of_loc (Z.pos q) loc) in
       2 * round_nearest_even (shr_m mrs) (loc_of_shr_record mrs).

(** The example layer on a CPU evaluator, and on the trainer of a TPU job
    after [_CreateLayerVariables] on an empty graph. *)
Definition example_cpu_layer : TPUEmbeddingLayer := {|
  layer_params := example_layer_params;
  self_tables := [example_cpu_table];
  _sequence_features := ∅;
  _tpu_embedding := None
|}.

Definition example_tpu_layer_and_graph : TPUEmbeddingLayer * Graph :=
  match Layer_CreateLayerVariables (H := reference_lib) example_cluster
          example_layer empty_graph with
  | (Ok layer, g) => (layer, g)
  | (Raise _, g) => (example_layer, g)
  end.

(** ** Notions used to state the properties of [TPUEmbeddingTable._CreateLayerVariables] *)

(** The shard variables of a table, one per host of [range(num_tpu_hosts)]. *)
Definition shard_vars (c : Cluster) (t : TPUEmbeddingTable) : list Var :=
  map (shard_var c t) (py_range (num_tpu_hosts (params t))).

(** A dictionary of variables without the keys of the shards. *)
Definition without_shards (n : Z) (m : gmap string VarEntry) : gmap string VarEntry :=
  foldl (λ m i, delete (GetVariableName i) m) m (py_range n).

(** The table after the loop over the hosts and the assignment of ['wm']. *)
Definition with_shards (c : Cluster) (t : TPUEmbeddingTable) : TPUEmbeddingTable :=
  let n := num_tpu_hosts (params t) in
  let vars := without_shards n (_private_vars t) in
  let theta := without_shards n (_private_theta t) in
  if use_tpu c then set_private vars theta t
  else set_private (<["wm" := VarList (shard_vars c t)]> vars)
                   (<["wm" := VarList (shard_vars c t)]> theta) t.

(** A concrete optimizer class: SGD or Adagrad. *)
Definition concrete_optimizer (o : Optimizer) : Prop :=
  opt_cls (optimizer_params o) ≠ cls_TPUEmbeddingOptimizer.

(** The character [/]. *)
Definition slash : Ascii.ascii :=
  Ascii.Ascii true true true true false true false false.

(** Does the character occur in the string? *)
Fixpoint has_char (c : Ascii.ascii) (s : string) : bool :=
  match s with
  | EmptyString => false
  | String a s' => Ascii.eqb a c || has_char c s'
  end.

(** A table without combiner whose sequence length is negative. *)
Definition negative_length_table_params : TableParams := {|
  tbl_name := "emb";
  tbl_dtype := tf_float32;
  params_init := WeightInit_Params "xavier";
  vocab_size := 10;
  embedding_dim := 4;
  input_keys := Some ["ids"];
  combiner := None;
  max_sequence_length := Some (-1);
  num_tpu_hosts := 3;
  optimizer := Some example_adagrad_params;
  learning_rate := None;
  lr_schedule := None
|}.

(** A sequence table: no combiner and sequences of length 2, with its
    variables made on the CPU evaluator, and a batch of two sequences. *)
Definition sequence_table_params : TableParams := {|
  tbl_name := "seq";
  tbl_dtype := tf_float32;
  params_init := WeightInit_Params "xavier";
  vocab_size := 10;
  embedding_dim := 4;
  input_keys := Some ["ids"];
  combiner := None;
  max_sequence_length := Some 2;
  num_tpu_hosts := 3;
  optimizer := Some example_adagrad_params;
  learning_rate := None;
  lr_schedule := None
|}.

Definition example_sequence_table : TPUEmbeddingTable :=
  match TPUEmbeddingTable_init (H := reference_lib) sequence_table_params with
  | Ok t => (Table_CreateLayerVariables cpu_cluster t).2
  | Raise _ => example_cpu_table
  end.

Definition example_sequence_ids : gmap string (Tensor Z) :=
  {[ "ids" := {| shape := [2; 2]%nat; data := [3; 1; 0; 9] |} ]}.

Definition example_sequence_rets : gmap string (Tensor pyfloat) :=
  match Table_CpuEmbLookup (H := reference_ops) example_sequence_table
          example_sequence_ids with
  | Ok rets => rets
  | Raise _ => ∅
  end.

Definition example_cpu_rets : gmap string (Tensor pyfloat) :=
  match Layer_CpuEmbLookup (H := reference_ops) example_cpu_layer
          example_ids_map with
  | Ok rets => rets
  | Raise _ => ∅
  end.

(** ** Notions used to state the properties of [TPUEmbeddingLayer._CreateLayerVariables] *)

(** The feature configuration the layer makes for the input keys of a table. *)
Definition feature_config_of (table : TPUEmbeddingTable) : FeatureConfig :=
  {| fc_table_id := _table_name table;
     fc_max_sequence_length := _max_sequence_length table |}.

(** The local variables of the loop over the tables when it starts. *)
Definition empty_layer_loop : LayerLoop :=
  {| table_to_config_dict := ∅;
     feature_to_config_dict := ∅;
     load_op_list := [];
     retrieve_op_list := [];
     sequence_features := ∅ |}.

(** The TPUEmbedding object the layer makes from the local variables of its
    loop when the collection holds none. *)
Definition new_tpu_embedding (c : Cluster) (self : TPUEmbeddingLayer)
  (acc : LayerLoop) (num_hosts : Z) : TPUEmbedding :=
  {| te_table_to_config_dict := table_to_config_dict acc;
     te_feature_to_config_dict := feature_to_config_dict acc;
     te_batch_size := batch_size (layer_params self) * num_splits_per_client c;
     te_pipeline_execution_with_tensor_core :=
       pipeline_execution_with_tensor_core (layer_params self);
     te_device_config := {| dc_num_cores := tpus_per_replica c;
                            dc_num_hosts := num_hosts;
                            dc_job_name := worker_name c |} |}.

(** A graph whose collection [TPU_EMBEDDING] holds two objects. *)
Definition crowded_graph : Graph :=
  λ k, match k with
       | TPU_EMBEDDING =>
           example_tpu_layer_and_graph.2 TPU_EMBEDDING
           ++ example_tpu_layer_and_graph.2 TPU_EMBEDDING
       | _ => []
       end.

(** ** Notions used to state how the load and the retrieve ops correspond *)

(** A retrieve op mirrors a load op when it assigns to every variable the
    load op loads, in the same order, what the runtime holds for the same
    table and the same shard: the parameters to the table shard and, for
    Adagrad, the accumulators to the slot variable. *)
Inductive mirrors : Op → Op → Prop :=
| mirrors_sgd (parameters : VarEntry) (table_name : string)
    (num_shards shard_id : Z) :
    mirrors
      (load_tpu_embedding_stochastic_gradient_descent_parameters
         parameters table_name num_shards shard_id)
      (control_flow_ops_group
         [tf_assign parameters
            (retrieve_sgd_parameters table_name num_shards shard_id)])
| mirrors_adagrad (parameters accumulators : VarEntry) (table_name : string)
    (num_shards shard_id : Z) :
    mirrors
      (load_tpu_embedding_adagrad_parameters
         parameters accumulators table_name num_shards shard_id)
      (control_flow_ops_group
         [tf_assign parameters
            (retrieve_adagrad_parameters table_name num_shards shard_id);
          tf_assign accumulators
            (retrieve_adagrad_accumulators table_name num_shards shard_id)]).

(** ** [TPUEmbeddingLayer._CreateChildrenVariables] *)

(** The loop [for table in self.tables: table.InstantiateVariables()]
    (lines 474 and 475).  [InstantiateVariables] belongs to the layer base
    class, outside this file: on a table it runs the table's
    [_CreateLayerVariables].  The tables are objects: the ones already
    visited keep their variables when a later one raises. *)
Fixpoint instantiate_tables (c : Cluster) (tables : list TPUEmbeddingTable)
  : Res unit * list TPUEmbeddingTable :=
  match tables with
  | [] => (Ok (), [])
  | table :: rest =>
      match Table_CreateLayerVariables c table with
      | (Ok _, table') =>
          let '(r, rest') := instantiate_tables c rest in (r, table' :: rest')
      | (Raise e, table') => (Raise e, table' :: rest)
      end
  end.

Definition set_tables (ts : list TPUEmbeddingTable) (self : TPUEmbeddingLayer)
  : TPUEmbeddingLayer := {|
  layer_params := layer_params self;
  self_tables := ts;
  _sequence_features := _sequence_features self;
  _tpu_embedding := _tpu_embedding self
|}.

(** [TPUEmbeddingLayer._CreateChildrenVariables]; the call of the base
    class that ends it finds every table instantiated and adds nothing. *)
Definition Layer_CreateChildrenVariables (c : Cluster)
  : M TPUEmbeddingLayer unit :=
  λ self, let '(r, ts) := instantiate_tables c (self_tables self) in
          (r, set_tables ts self).

(** ** Notions used to state what reaches the table configuration *)

(** The optimization parameters an optimizer of a concrete class builds
    from its layer parameters. *)
Definition optimization_parameters_of (po : OptimizerParams)
  : option OptimizationParameters :=
  match opt_cls po with
  | cls_TPUEmbeddingOptimizer => None
  | cls_TPUEmbeddingSGDOptimizer =>
      Some (StochasticGradientDescentParameters
              (opt_learning_rate po) (opt_clip_weight_min po)
              (opt_clip_weight_max po) (opt_weight_decay_factor po)
              (opt_multiply_weight_decay_factor_by_learning_rate po))
  | cls_TPUEmbeddingAdagradOptimizer =>
      Some (AdagradParameters
              (opt_learning_rate po) (opt_initial_accumulator po)
              (opt_clip_weight_min po) (opt_clip_weight_max po)
              (opt_weight_decay_factor po)
              (opt_multiply_weight_decay_factor_by_learning_rate po))
  end.

(** [p.Set(use_gradient_accumulation=b)]. *)
Definition set_use_gradient_accumulation (b : bool) (po : OptimizerParams)
  : OptimizerParams := {|
  opt_cls := opt_cls po;
  opt_name := opt_name po;
  opt_dtype := opt_dtype po;
  opt_learning_rate := opt_learning_rate po;
  opt_clip_weight_min := opt_clip_weight_min po;
  opt_clip_weight_max := opt_clip_weight_max po;
  opt_weight_decay_factor := opt_weight_decay_factor po;
  opt_multiply_weight_decay_factor_by_learning_rate :=
    opt_multiply_weight_decay_factor_by_learning_rate po;
  opt_initial_accumulator := opt_initial_accumulator po;
  opt_use_gradient_accumulation := b
|}.

(** A session gives every variable a value of the shape it was declared
    with. *)
Definition variables_have_declared_shape `{TfEmbeddingOps} : Prop :=
  ∀ v, shape (read_variable v) = map Z.to_nat (wp_shape (var_params v)).

(* ===================================================================== *)
(** * Properties *)
(* ===================================================================== *)

(** ** The loops of the optimizers *)

Section OptimizerLoops.
Context (c : Cluster).

Lemma SGD_loop (table_name : string) (n : Z) (l : list (Z * VarEntry))
  (acc : list Op * list Op) (t : TPUEmbeddingTable) :
  foldM (SGD_loop_body c table_name n) l acc t
  = (Ok (if use_tpu c
         then (acc.1 ++ map (sgd_load_op table_name n) l,
               acc.2 ++ map (sgd_retrieve_op table_name n) l)
         else acc), t).
Proof.
  revert acc. induction l as [|[host_id table_var] l IH]; intros [ld rt]; simpl.
  - destruct (use_tpu c); simpl; by rewrite ?app_nil_r.
  - unfold mbind, M_bind. destruct (use_tpu c) eqn:Hu; simpl.
    + rewrite IH. simpl. by rewrite <- !app_assoc.
    + by rewrite IH.
Qed.

Lemma Adagrad_loop (p : OptimizerParams) (table_name : string) (n : Z)
  (l : list (Z * VarEntry)) (acc : list Op * list Op) (t : TPUEmbeddingTable) :
  foldM (Adagrad_loop_body c p table_name n) l acc t
  = (Ok (if use_tpu c
         then (acc.1 ++ map (adagrad_load_op c p table_name n) l,
               acc.2 ++ map (adagrad_retrieve_op c p table_name n) l)
         else acc), add_slots c p l t).
Proof.
  revert acc t. induction l as [|[host_id table_var] l IH]; intros [ld rt] t; simpl.
  - destruct (use_tpu c); simpl; by rewrite ?app_nil_r.
  - unfold mbind, M_bind, CreateVariable, modify_state, vars_get. simpl.
    rewrite lookup_insert_eq.
    destruct (use_tpu c) eqn:Hu; simpl.
    + rewrite IH. simpl. by rewrite <- !app_assoc.
    + by rewrite IH.
Qed.

End OptimizerLoops.

Lemma add_slots_fields (c : Cluster) (p : OptimizerParams)
  (l : list (Z * VarEntry)) (t : TPUEmbeddingTable) :
  params (add_slots c p l t) = params t
  ∧ _table_name (add_slots c p l t) = _table_name t
  ∧ _private_vars (add_slots c p l t)
    = foldl (λ m x, <[adagrad_slot_name x.1 := OneVar (adagrad_slot_var c p x)]> m)
            (_private_vars t) l.
Proof.
  revert t. induction l as [|x l IH]; intros t; simpl; [done|].
  destruct (IH (set_private
    (<[adagrad_slot_name x.1 := OneVar (adagrad_slot_var c p x)]> (_private_vars t))
    (<[adagrad_slot_name x.1 := OneVar (adagrad_slot_var c p x)]> (_private_theta t))
    t)) as (-> & -> & ->).
  done.
Qed.

Lemma SGD_CreateSlotVariablesAndOps_eq (c : Cluster) (tvs : list VarEntry)
  (t : TPUEmbeddingTable) :
  SGD_CreateSlotVariablesAndOps c tvs t
  = (Ok (if use_tpu c
         then OpLists
                (map (sgd_load_op (_table_name t) (num_tpu_hosts (params t)))
                     (hosts_of t tvs))
                (map (sgd_retrieve_op (_table_name t) (num_tpu_hosts (params t)))
                     (hosts_of t tvs))
         else OpLists [] []), t).
Proof.
  unfold SGD_CreateSlotVariablesAndOps, mbind, M_bind, get_state. simpl.
  rewrite SGD_loop. by destruct (use_tpu c).
Qed.

Lemma Adagrad_CreateSlotVariablesAndOps_eq (c : Cluster) (p : OptimizerParams)
  (tvs : list VarEntry) (t : TPUEmbeddingTable) :
  Adagrad_CreateSlotVariablesAndOps c p tvs t
  = (Ok (if use_tpu c
         then OpLists
                (map (adagrad_load_op c p (_table_name t) (num_tpu_hosts (params t)))
                     (hosts_of t tvs))
                (map (adagrad_retrieve_op c p (_table_name t)
                        (num_tpu_hosts (params t)))
                     (hosts_of t tvs))
         else OpLists [] []), add_slots c p (hosts_of t tvs) t).
Proof.
  unfold Adagrad_CreateSlotVariablesAndOps, mbind, M_bind, get_state. simpl.
  rewrite Adagrad_loop. by destruct (use_tpu c).
Qed.

(** [zip(range(n), l)] pairs position [i] with host [i]. *)
Lemma hosts_of_lookup (t : TPUEmbeddingTable) (tvs : list VarEntry) (i : nat)
  (h : Z) (tv : VarEntry) :
  hosts_of t tvs !! i = Some (h, tv)
  ↔ h = Z.of_nat i ∧ Z.of_nat i < num_tpu_hosts (params t) ∧ tvs !! i = Some tv.
Proof.
  unfold hosts_of, py_range. rewrite lookup_zip_Some, lookup_seqZ.
  split; intros; destruct_and?; repeat split; auto; lia.
Qed.

Lemma hosts_of_length (t : TPUEmbeddingTable) (tvs : list VarEntry) :
  0 ≤ num_tpu_hosts (params t) →
  Z.of_nat (length (hosts_of t tvs))
  = Z.min (num_tpu_hosts (params t)) (Z.of_nat (length tvs)).
Proof.
  intros Hn. unfold hosts_of, py_range. rewrite length_zip, length_seqZ. lia.
Qed.

Lemma hosts_of_NoDup (t : TPUEmbeddingTable) (tvs : list VarEntry) :
  NoDup (hosts_of t tvs).*1.
Proof.
  unfold hosts_of, py_range.
  generalize (NoDup_seqZ 0 (num_tpu_hosts (params t))).
  generalize (seqZ 0 (num_tpu_hosts (params t))). intros l.
  revert tvs. induction l as [|h l IH]; intros tvs Hnd; simpl; [constructor|].
  destruct tvs as [|tv tvs]; simpl; [constructor|].
  apply NoDup_cons in Hnd as [Hh Hl]. constructor; [|by apply IH].
  intros Hin. apply Hh. revert Hin. clear. revert tvs.
  induction l as [|a l IH]; intros [|b tvs]; simpl; try (by inversion 1).
  rewrite !elem_of_cons. intros [->|?]; [by left|right; eauto].
Qed.

(** ** Names of the shard and slot variables *)

Lemma string_app_length (a b : string) :
  String.length (a +:+ b) = (String.length a + String.length b)%nat.
Proof. induction a as [|ch a IH]; simpl; [done|by rewrite IH]. Qed.

Lemma string_app_inj_l (a b s : string) : a +:+ s = b +:+ s → a = b.
Proof.
  intros H.
  assert (String.length a = String.length b) as Hlen.
  { apply (f_equal String.length) in H. rewrite !string_app_length in H. lia. }
  revert b H Hlen. induction a as [|ch a IH]; intros [|ch' b]; simpl;
    intros H Hlen; try done.
  injection H as -> H. f_equal. apply IH; [done|lia].
Qed.

Lemma GetVariableName_inj : Inj (=) (=) GetVariableName.
Proof.
  intros i j H. unfold GetVariableName in H.
  apply (inj (String.append "var_")) in H. by apply (inj pretty) in H.
Qed.

Lemma adagrad_slot_name_inj : Inj (=) (=) adagrad_slot_name.
Proof.
  intros i j H. unfold adagrad_slot_name in H.
  apply string_app_inj_l in H. by apply GetVariableName_inj.
Qed.

Lemma foldl_insert_lookup_ne {A B} (key : A → string) (val : A → B)
  (l : list A) (m : gmap string B) (k : string) :
  k ∉ map key l →
  foldl (λ m x, <[key x := val x]> m) m l !! k = m !! k.
Proof.
  revert m. induction l as [|x l IH]; intros m Hk; simpl; [done|].
  simpl in Hk. apply not_elem_of_cons in Hk as [Hne Hk].
  rewrite IH by done. by rewrite lookup_insert_ne.
Qed.

Lemma foldl_insert_lookup {A B} (key : A → string) (val : A → B)
  (l : list A) (m : gmap string B) (x : A) :
  NoDup (map key l) → x ∈ l →
  foldl (λ m x, <[key x := val x]> m) m l !! key x = Some (val x).
Proof.
  revert m. induction l as [|y l IH]; intros m Hnd Hin; simpl; [by inversion Hin|].
  simpl in Hnd. apply NoDup_cons in Hnd as [Hy Hnd].
  apply elem_of_cons in Hin as [->|Hin].
  - rewrite foldl_insert_lookup_ne by done. apply lookup_insert_eq.
  - by apply IH.
Qed.

Lemma hosts_of_slot_names_NoDup (t : TPUEmbeddingTable) (tvs : list VarEntry) :
  NoDup (map (λ x, adagrad_slot_name x.1) (hosts_of t tvs)).
Proof.
  pose proof (hosts_of_NoDup t tvs) as Hnd.
  change (NoDup ((adagrad_slot_name ∘ fst) <$> hosts_of t tvs)).
  rewrite list_fmap_compose.
  apply (NoDup_fmap_2 _ (Inj0 := adagrad_slot_name_inj)). exact Hnd.
Qed.

(** ** The claims on the optimizers *)

(** C8: the method [CreateSlotVariablesAndOps] of the base class
    [_TPUEmbeddingOptimizer] hands back a [NotImplementedError] object as an
    ordinary value.  On every call it returns normally, leaves the table as
    it was, and the value it returns is not a pair of op lists. *)
Theorem C8_base_class_returns_exception_object (c : Cluster) (self : Optimizer)
  (table_vars : list VarEntry) (tpu_embedding_table : TPUEmbeddingTable) :
  opt_cls (optimizer_params self) = cls_TPUEmbeddingOptimizer →
  CreateSlotVariablesAndOps c self table_vars tpu_embedding_table
  = (Ok (ExceptionObject NotImplementedError), tpu_embedding_table)
  ∧ (∀ e, (CreateSlotVariablesAndOps c self table_vars tpu_embedding_table).1
          ≠ Raise e)
  ∧ (∀ loads retrieves,
       (CreateSlotVariablesAndOps c self table_vars tpu_embedding_table).1
       ≠ Ok (OpLists loads retrieves)).
Proof.
  intros Hcls. unfold CreateSlotVariablesAndOps. rewrite Hcls.
  unfold Base_CreateSlotVariablesAndOps. simpl. repeat split; intros; discriminate.
Qed.

Lemma C8_base_class_witness :
  CreateSlotVariablesAndOps example_cluster example_base_optimizer
    example_table_vars example_table
  = (Ok (ExceptionObject NotImplementedError), example_table).
Proof.
  apply (C8_base_class_returns_exception_object example_cluster
           example_base_optimizer example_table_vars example_table).
  reflexivity.
Defined.

(** C3: for the SGD and the Adagrad optimizer, [CreateSlotVariablesAndOps]
    returns a pair of a load op list and a retrieve op list.  With
    [use_tpu()] true each list holds one op per pair of
    [zip(range(num_tpu_hosts), table_vars)], so
    [min(num_tpu_hosts, len(table_vars))] ops, the op at position [i] being
    the one of host [i] on [table_vars[i]]; with [use_tpu()] false both lists
    are empty. *)
Theorem C3_load_and_retrieve_op_lists (c : Cluster) (self : Optimizer)
  (table_vars : list VarEntry) (t : TPUEmbeddingTable) :
  opt_cls (optimizer_params self) ≠ cls_TPUEmbeddingOptimizer →
  0 < num_tpu_hosts (params t) →
  ∃ loads retrieves t',
    CreateSlotVariablesAndOps c self table_vars t = (Ok (OpLists loads retrieves), t')
    ∧ (use_tpu c = true →
         loads = map (load_op_for c self t) (hosts_of t table_vars)
         ∧ retrieves = map (retrieve_op_for c self t) (hosts_of t table_vars)
         ∧ Z.of_nat (length loads)
           = Z.min (num_tpu_hosts (params t)) (Z.of_nat (length table_vars))
         ∧ Z.of_nat (length retrieves)
           = Z.min (num_tpu_hosts (params t)) (Z.of_nat (length table_vars))
         ∧ (∀ i op, loads !! i = Some op → op_shard_id op = Some (Z.of_nat i))
         ∧ (∀ i op, retrieves !! i = Some op → op_shard_id op = Some (Z.of_nat i)))
    ∧ (use_tpu c = false → loads = [] ∧ retrieves = []).
Proof.
  intros Hcls Hn.
  assert (∀ f : Z * VarEntry → Op,
            (∀ x, op_shard_id (f x) = Some x.1) →
            ∀ i op, map f (hosts_of t table_vars) !! i = Some op →
                    op_shard_id op = Some (Z.of_nat i)) as Hshard.
  { intros f Hf i op Hi. rewrite list_lookup_fmap in Hi.
    destruct (hosts_of t table_vars !! i) as [[h tv]|] eqn:Hx; [|done].
    simpl in Hi. injection Hi as <-. rewrite Hf. simpl.
    apply hosts_of_lookup in Hx. by destruct Hx as (-> & _). }
  unfold CreateSlotVariablesAndOps, load_op_for, retrieve_op_for.
  destruct (opt_cls (optimizer_params self)) eqn:Hc; [done| |].
  - rewrite SGD_CreateSlotVariablesAndOps_eq.
    destruct (use_tpu c) eqn:Hu; do 3 eexists; (split; [reflexivity|]);
      (split; [|done]); intros ?; try done.
    rewrite !length_map, hosts_of_length by lia.
    repeat split; try done; apply Hshard; by intros [].
  - rewrite Adagrad_CreateSlotVariablesAndOps_eq.
    destruct (use_tpu c) eqn:Hu; do 3 eexists; (split; [reflexivity|]);
      (split; [|done]); intros ?; try done.
    rewrite !length_map, hosts_of_length by lia.
    repeat split; try done; apply Hshard; by intros [].
Qed.

Lemma C3_load_and_retrieve_witness :
  ∃ loads retrieves t',
    CreateSlotVariablesAndOps example_cluster example_adagrad
      example_table_vars example_table = (Ok (OpLists loads retrieves), t')
    ∧ length loads = 3%nat ∧ length retrieves = 3%nat.
Proof.
  destruct (C3_load_and_retrieve_op_lists example_cluster example_adagrad
              example_table_vars example_table)
    as (loads & retrieves & t' & Heq & Htpu & _).
  - simpl. discriminate.
  - simpl. lia.
  - exists loads, retrieves, t'. split; [exact Heq|].
    destruct (Htpu eq_refl) as (_ & _ & Hl & Hr & _).
    simpl in Hl, Hr. lia.
Defined.

(** The double [float_0_1] is the one nearest to one tenth: its distance to
    [1/10] is a fifth of the spacing [2^-55] of the doubles around it. *)
Lemma float_0_1_nearest :
  float_value float_0_1 = Some (3602879701896397 # 2 ^ 55)%Q
  ∧ (1 # 10 <= 3602879701896397 # 2 ^ 55)%Q
  ∧ (((3602879701896397 # 2 ^ 55) - (1 # 10)) * 2 <= 1 # 2 ^ 55)%Q.
Proof. split; [reflexivity|]. split; vm_compute; discriminate. Qed.

(** C6: for every host the loop visits, the Adagrad optimizer creates one
    accumulator slot variable for the host's table shard: it is entered in
    the table's variables under the shard's name followed by [/Adagrad], is
    not trainable, has the shard's shape, is initialised to the constant
    [p.initial_accumulator] (0.1 by default) and is placed on the device of
    the host, where the shard is.  The names are pairwise different and no
    other variable of the table changes.  The SGD optimizer leaves the
    table's variables as they are. *)
Theorem C6_adagrad_slot_variables (c : Cluster) (self : Optimizer)
  (table_vars : list VarEntry) (t : TPUEmbeddingTable) :
  let p := optimizer_params self in
  let t' := (CreateSlotVariablesAndOps c self table_vars t).2 in
  (opt_cls p = cls_TPUEmbeddingAdagradOptimizer →
     (∀ i host_id table_var,
        hosts_of t table_vars !! i = Some (host_id, table_var) →
        ∃ slot,
          _private_vars t' !! (GetVariableName host_id +:+ "/Adagrad")
          = Some (OneVar slot)
          ∧ var_trainable slot = false
          ∧ wp_shape (var_params slot) = entry_shape table_var
          ∧ wp_init (var_params slot)
            = WeightInit_Constant (opt_initial_accumulator p)
          ∧ var_device slot = GetDeviceName c host_id
          ∧ (∀ v, table_var = OneVar v →
                  var_device v = GetDeviceName c host_id →
                  var_device slot = var_device v))
     ∧ NoDup (map (λ x, GetVariableName x.1 +:+ "/Adagrad") (hosts_of t table_vars))
     ∧ (∀ k, k ∉ map (λ x, GetVariableName x.1 +:+ "/Adagrad")
                     (hosts_of t table_vars) →
             _private_vars t' !! k = _private_vars t !! k))
  ∧ (opt_cls p = cls_TPUEmbeddingSGDOptimizer → t' = t)
  ∧ opt_initial_accumulator (Optimizer_Params cls_TPUEmbeddingAdagradOptimizer)
    = float_0_1.
Proof.
  intros p t'. subst p t'. unfold CreateSlotVariablesAndOps.
  split; [|split; [|reflexivity]]; intros Hcls; rewrite Hcls.
  - rewrite Adagrad_CreateSlotVariablesAndOps_eq. simpl.
    destruct (add_slots_fields c (optimizer_params self)
                (hosts_of t table_vars) t) as (_ & _ & ->).
    split; [|split].
    + intros i host_id table_var Hi.
      exists (adagrad_slot_var c (optimizer_params self) (host_id, table_var)).
      split; [|repeat split; try done; by intros v _ ->].
      apply (foldl_insert_lookup (λ x, adagrad_slot_name x.1)
               (λ x, OneVar (adagrad_slot_var c (optimizer_params self) x))
               _ _ (host_id, table_var)).
      * apply hosts_of_slot_names_NoDup.
      * by eapply list_elem_of_lookup_2.
    + apply hosts_of_slot_names_NoDup.
    + intros k Hk.
      by apply (foldl_insert_lookup_ne (λ x, adagrad_slot_name x.1)).
  - by rewrite SGD_CreateSlotVariablesAndOps_eq.
Qed.

Lemma C6_adagrad_slot_witness :
  ∃ slot,
    _private_vars
      (CreateSlotVariablesAndOps example_cluster example_adagrad
         example_table_vars example_table).2 !! "var_1/Adagrad"
    = Some (OneVar slot)
    ∧ var_trainable slot = false
    ∧ wp_shape (var_params slot) = [4; 4]
    ∧ wp_init (var_params slot) = WeightInit_Constant float_0_1.
Proof.
  destruct (C6_adagrad_slot_variables example_cluster example_adagrad
              example_table_vars example_table) as (Hada & _ & _).
  destruct (Hada eq_refl) as (Hslot & _ & _).
  destruct (Hslot 1%nat 1 (OneVar (shard_var example_cluster example_table 1))
              eq_refl) as (slot & Hl & Htr & Hsh & Hin & _).
  exists slot. repeat split; assumption.
Defined.

(** ** The table: sharding arithmetic and shard variables *)

Lemma set_private_set_private (a b a' b' : gmap string VarEntry)
  (t : TPUEmbeddingTable) :
  set_private a b (set_private a' b' t) = set_private a b t.
Proof. reflexivity. Qed.

Lemma foldM_cons {A B S} (body : B → A → M S B) (x : A) (l : list A)
  (b : B) (s : S) :
  foldM body (x :: l) b s
  = match body b x s with
    | (Ok a, s') => foldM body l a s'
    | (Raise e, s') => (Raise e, s')
    end.
Proof. reflexivity. Qed.

Lemma shard_loop_body_eq (c : Cluster) (w : WeightParams) (i : Z)
  (acc : list VarEntry) (t : TPUEmbeddingTable) :
  shard_loop_body c w acc i t
  = (Ok (acc ++ [OneVar {| var_name := GetVariableName i;
                           var_params := w;
                           var_trainable := true;
                           var_device := GetDeviceName c i |}]),
     set_private (delete (GetVariableName i) (_private_vars t))
                 (delete (GetVariableName i) (_private_theta t)) t).
Proof.
  unfold shard_loop_body, mbind, M_bind, CreateVariable, modify_state, vars_get.
  cbn [_private_vars _private_theta set_private].
  rewrite lookup_insert_eq. cbn [mret M_ret].
  by rewrite !delete_insert_eq.
Qed.

Lemma shard_loop (c : Cluster) (w : WeightParams) (l : list Z)
  (acc : list VarEntry) (t : TPUEmbeddingTable) :
  foldM (shard_loop_body c w) l acc t
  = (Ok (acc ++ map (λ i, OneVar {| var_name := GetVariableName i;
                                    var_params := w;
                                    var_trainable := true;
                                    var_device := GetDeviceName c i |}) l),
     match l with
     | [] => t
     | _ => set_private
              (foldl (λ m i, delete (GetVariableName i) m) (_private_vars t) l)
              (foldl (λ m i, delete (GetVariableName i) m) (_private_theta t) l)
              t
     end).
Proof.
  revert acc t. induction l as [|i l IH]; intros acc t.
  - simpl. by rewrite app_nil_r.
  - rewrite foldM_cons, shard_loop_body_eq, IH, <- app_assoc. simpl.
    f_equal. destruct l; reflexivity.
Qed.

(** The shard variables of [_CreateLayerVariables]: one per host, in host
    order, each of shape [[_ids_per_shard, embedding_dim]] and on the device
    of its host. *)
Lemma Table_shard_variables (c : Cluster) (t : TPUEmbeddingTable) :
  ∃ t',
    foldM (shard_loop_body c
             {| wp_shape := [_ids_per_shard t; embedding_dim (params t)];
                wp_init := params_init (params t);
                wp_dtype := tbl_dtype (params t);
                wp_collections := ["TPUEmbeddingTable_vars"] |})
          (py_range (num_tpu_hosts (params t))) [] t
    = (Ok (map (λ i, OneVar (shard_var c t i))
               (py_range (num_tpu_hosts (params t)))), t')
    ∧ length (py_range (num_tpu_hosts (params t)))
      = Z.to_nat (num_tpu_hosts (params t))
    ∧ ∀ i, 0 ≤ i < num_tpu_hosts (params t) →
           py_range (num_tpu_hosts (params t)) !! Z.to_nat i = Some i
           ∧ wp_shape (var_params (shard_var c t i))
             = [_ids_per_shard t; embedding_dim (params t)].
Proof.
  eexists. rewrite shard_loop. split; [reflexivity|].
  unfold py_range. rewrite length_seqZ. split; [done|].
  intros i Hi. split; [|done].
  rewrite lookup_seqZ_lt by lia. f_equal. lia.
Qed.

(** *** Doubles: conversion, division and ceiling below [2^53] *)

Lemma digits2_pos_bounds (p : positive) :
  2 ^ (Z.pos (digits2_pos p) - 1) <= Z.pos p < 2 ^ Z.pos (digits2_pos p).
Proof.
  induction p as [p IH|p IH|]; simpl digits2_pos.
  - rewrite Pos2Z.inj_succ.
    replace (Z.succ (Z.pos (digits2_pos p)) - 1) with (Z.succ (Z.pos (digits2_pos p) - 1)) by lia.
    rewrite !Z.pow_succ_r by lia. lia.
  - rewrite Pos2Z.inj_succ.
    replace (Z.succ (Z.pos (digits2_pos p)) - 1) with (Z.succ (Z.pos (digits2_pos p) - 1)) by lia.
    rewrite !Z.pow_succ_r by lia. lia.
  - simpl. lia.
Qed.

Lemma digits2_pos_unique (p : positive) (d : Z) :
  2 ^ (d - 1) <= Z.pos p < 2 ^ d → Z.pos (digits2_pos p) = d.
Proof.
  intros [Hlo Hhi]. pose proof (digits2_pos_bounds p) as [Hlo' Hhi'].
  assert (0 < d).
  { destruct (Z.le_gt_cases d 0) as [Hd|]; [|done].
    destruct (Z.eq_dec d 0) as [->|]; [simpl in Hhi; lia|].
    rewrite (Z.pow_neg_r 2 d) in Hhi; lia. }
  destruct (Z.lt_trichotomy (Z.pos (digits2_pos p)) d) as [Hlt|[Heq|Hgt]]; [|done|].
  - assert (2 ^ Z.pos (digits2_pos p) <= 2 ^ (d - 1)) by (apply Z.pow_le_mono_r; lia). lia.
  - assert (2 ^ d <= 2 ^ (Z.pos (digits2_pos p) - 1)) by (apply Z.pow_le_mono_r; lia). lia.
Qed.


Lemma iter_xO_mul (k p : positive) :
  Z.pos (Pos.iter xO p k) = Z.pos p * 2 ^ Z.pos k.
Proof.
  revert p. induction k using Pos.peano_ind; intros p.
  - simpl. lia.
  - rewrite Pos.iter_succ, Pos2Z.inj_xO, IHk, Pos2Z.inj_succ, Z.pow_succ_r by lia. lia.
Qed.


Lemma loc_of_shr_record_of_loc (m : Z) (l : location) :
  loc_of_shr_record (shr_record_of_loc m l) = l
  ∧ shr_m (shr_record_of_loc m l) = m.
Proof. by destruct l as [|[]]. Qed.

Lemma shr_fexp_53 (m : positive) (e : Z) (l : location) :
  2 ^ 52 <= Z.pos m < 2 ^ 53 → -1074 <= e →
  shr_fexp prec emax (Z.pos m) e l = (shr_record_of_loc (Z.pos m) l, e).
Proof.
  intros Hm He. unfold shr_fexp, fexp, emin, prec, emax, Zdigits2.
  rewrite (digits2_pos_unique m 53) by (simpl; lia).
  replace (Z.max (53 + e - 53) (3 - 1024 - 53) - e) with 0 by lia.
  reflexivity.
Qed.

Lemma shr_fexp_54 (m : positive) (e : Z) (l : location) :
  2 ^ 53 <= Z.pos m < 2 ^ 54 → -1075 <= e →
  shr_fexp prec emax (Z.pos m) e l = (shr_1 (shr_record_of_loc (Z.pos m) l), e + 1).
Proof.
  intros Hm He. unfold shr_fexp, fexp, emin, prec, emax, Zdigits2.
  rewrite (digits2_pos_unique m 54) by (simpl; lia).
  replace (Z.max (54 + e - 53) (3 - 1024 - 53) - e) with 1 by lia.
  reflexivity.
Qed.

Lemma shr_1_spec (q : positive) (loc : location) :
  2 <= Z.pos q →
  ∃ h, shr_1 (shr_record_of_loc (Z.pos q) loc)
       = Build_shr_record (Z.pos h) (Z.odd (Z.pos q)) (negb (is_exact loc))
       ∧ Z.pos q = 2 * Z.pos h + Z.b2z (Z.odd (Z.pos q)).
Proof.
  intros Hq. destruct q as [q|q|]; [| |lia]; exists q;
    (split; [by destruct loc as [|[]]|]); cbn [Z.odd Z.b2z]; lia.
Qed.

(** Rounding a mantissa of 53 digits or of 54 digits. *)
Lemma binary_round_aux_53_or_54 (q : positive) (e : Z) (loc : location) :
  2 ^ 52 <= Z.pos q < 2 ^ 54 → -1074 <= e <= 900 →
  ∃ m e2,
    binary_round_aux prec emax false (Z.pos q) e loc = S754_finite false m e2
    ∧ e <= e2 <= e + 2
    ∧ Z.pos m * 2 ^ (e2 - e) = rounded_mantissa q loc.
Proof.
  intros Hq He. unfold binary_round_aux, rounded_mantissa.
  destruct (Z.ltb_spec (Z.pos q) (2 ^ 53)) as [Hlt|Hge].
  - rewrite shr_fexp_53 by lia.
    destruct (loc_of_shr_record_of_loc (Z.pos q) loc) as [-> ->].
    assert (round_nearest_even (Z.pos q) loc = Z.pos q
            ∨ round_nearest_even (Z.pos q) loc = Z.pos q + 1) as Hr.
    { destruct loc as [|[]]; unfold round_nearest_even;
        try destruct (Z.even _); auto. }
    destruct (round_nearest_even (Z.pos q) loc) as [|m1|m1] eqn:Hm1; try lia.
    destruct (Z.ltb_spec (Z.pos m1) (2 ^ 53)) as [Hlt1|Hge1].
    + rewrite shr_fexp_53 by lia. simpl shr_m.
      exists m1, e. unfold prec, emax.
      destruct (Z.leb_spec e (1024 - 53)); [|lia].
      split; [done|]. split; [lia|]. rewrite Z.sub_diag. simpl. lia.
    + assert (Z.pos m1 = 2 ^ 53) as Heq by lia.
      rewrite shr_fexp_54 by lia.
      assert (m1 = 4503599627370496~0)%positive as -> by (simpl in Heq; lia).
      simpl shr_m. exists 4503599627370496%positive, (e + 1).
      unfold prec, emax.
      destruct (Z.leb_spec (e + 1) (1024 - 53)); [|lia].
      split; [done|]. split; [lia|].
      replace (e + 1 - e) with 1 by lia. reflexivity.
  - rewrite shr_fexp_54 by lia.
    set (mrs := shr_1 (shr_record_of_loc (Z.pos q) loc)).
    assert (∃ h, shr_m mrs = Z.pos h ∧ 2 ^ 52 <= Z.pos h < 2 ^ 53) as (h & Hh & Hhb).
    { subst mrs. destruct (shr_1_spec q loc) as (h & -> & Hqh); [lia|].
      exists h. split; [done|]. destruct (Z.odd (Z.pos q)); simpl Z.b2z in Hqh; lia. }
    rewrite Hh.
    assert (round_nearest_even (Z.pos h) (loc_of_shr_record mrs) = Z.pos h
            ∨ round_nearest_even (Z.pos h) (loc_of_shr_record mrs) = Z.pos h + 1)
      as Hr.
    { destruct (loc_of_shr_record mrs) as [|[]]; unfold round_nearest_even;
        try destruct (Z.even _); auto. }
    destruct (round_nearest_even (Z.pos h) (loc_of_shr_record mrs))
      as [|m1|m1] eqn:Hm1; try lia.
    destruct (Z.ltb_spec (Z.pos m1) (2 ^ 53)) as [Hlt1|Hge1].
    + rewrite shr_fexp_53 by lia. simpl shr_m.
      exists m1, (e + 1). unfold prec, emax.
      destruct (Z.leb_spec (e + 1) (1024 - 53)); [|lia].
      split; [done|]. split; [lia|].
      replace (e + 1 - e) with 1 by lia. simpl. lia.
    + assert (Z.pos m1 = 2 ^ 53) as Heq by lia.
      rewrite shr_fexp_54 by lia.
      assert (m1 = 4503599627370496~0)%positive as -> by (simpl in Heq; lia).
      simpl shr_m. exists 4503599627370496%positive, (e + 1 + 1).
      unfold prec, emax.
      destruct (Z.leb_spec (e + 1 + 1) (1024 - 53)); [|lia].
      split; [done|]. split; [lia|].
      replace (e + 1 + 1 - e) with 2 by lia. reflexivity.
Qed.

Lemma rounded_mantissa_props (q : positive) (loc : location) :
  2 <= Z.pos q →
  Z.pos q - 1 <= rounded_mantissa q loc <= Z.pos q + 1
  ∧ (is_exact loc = true → Z.even (Z.pos q) = true →
     rounded_mantissa q loc = Z.pos q)
  ∧ (rounded_mantissa q loc = Z.pos q - 1 → is_exact loc = true).
Proof.
  intros Hq. unfold rounded_mantissa.
  destruct (Z.pos q <? 2 ^ 53).
  - destruct loc as [|[]]; unfold round_nearest_even, is_exact;
      try destruct (Z.even (Z.pos q)); repeat split; intros; try done; lia.
  - destruct (shr_1_spec q loc Hq) as (h & -> & Hqh).
    cbn [shr_m]. rewrite <- Z.negb_odd.
    destruct (Z.odd (Z.pos q)), (is_exact loc); cbn [Z.b2z negb] in *;
      unfold loc_of_shr_record, round_nearest_even;
      try destruct (Z.even (Z.pos h)); repeat split; intros; try done; lia.
Qed.

Lemma new_location_exact (d r : Z) :
  is_exact (new_location d r) = (r =? 0).
Proof.
  unfold new_location, new_location_even, new_location_odd.
  destruct (Z.even d), (r =? 0); try done.
Qed.

(** [math.ceil] of a positive float, with the value scaled by a power of two. *)
Lemma math_ceil_scaled (m : positive) (e E : Z) :
  0 <= E → 0 <= e + E →
  math_ceil (S754_finite false m e) = Ok (ceil_div (Z.pos m * 2 ^ (e + E)) (2 ^ E)).
Proof.
  intros HE HeE. unfold math_ceil, ceil_div. f_equal.
  assert (0 < 2 ^ E) by (apply Z.pow_pos_nonneg; lia).
  destruct e as [|e|e].
  - rewrite Z.mul_1_r. simpl (0 + E). rewrite <- Z.mul_opp_l, Z.div_mul by lia. lia.
  - rewrite Z.pow_add_r by lia.
    rewrite Z.mul_assoc, <- Z.mul_opp_l, Z.div_mul by lia. lia.
  - replace E with ((Z.neg e + E) + Z.pos e) at 2 by lia.
    rewrite (Z.pow_add_r 2 (Z.neg e + E)) by lia.
    assert (0 < 2 ^ (Z.neg e + E)) by (apply Z.pow_pos_nonneg; lia).
    assert (0 < 2 ^ Z.pos e) by (apply Z.pow_pos_nonneg; lia).
    rewrite <- Z.mul_opp_l.
    rewrite (Z.mul_comm (2 ^ (Z.neg e + E)) (2 ^ Z.pos e)).
    rewrite Z.div_mul_cancel_r by lia. reflexivity.
Qed.

(** The integer core: a mantissa within one of the quotient [v T / h], equal
    to it when the division is exact and even, and below it only on a tie,
    has the ceiling of [v / h] once scaled back by [T]. *)
Lemma ceil_of_rounded_quotient (v h T M : Z) :
  0 < v → 0 < h < T → Z.even T = true →
  v * T / h - 1 <= M <= v * T / h + 1 →
  ((v * T) mod h = 0 → Z.even (v * T / h) = true → M = v * T / h) →
  (M = v * T / h - 1 → (v * T) mod h = 0) →
  ceil_div M T = ceil_div v h.
Proof.
  intros Hv Hh HT HM Hexact Htie.
  apply Z.even_spec in HT. destruct HT as [T' HT'].
  set (q := v * T / h) in *. set (r := (v * T) mod h) in *.
  assert (v * T = h * q + r ∧ 0 <= r < h) as [Hdiv Hr].
  { subst q r. split; [apply Z.div_mod; lia|apply Z.mod_pos_bound; lia]. }
  set (k := v / h). set (f := v mod h).
  assert (v = h * k + f ∧ 0 <= f < h) as [Hvk Hf].
  { subst k f. split; [apply Z.div_mod; lia|apply Z.mod_pos_bound; lia]. }
  assert (0 <= k) by (subst k; apply Z.div_pos; lia).
  clearbody q r k f. unfold ceil_div.
  destruct (Z.eq_dec f 0) as [Hf0|Hf0].
  - (* h divides v *)
    assert (q = k * T ∧ r = 0) as [Hq Hr0].
    { assert (h * (q - k * T) + r = 0) by nia.
      assert (q - k * T = 0) by nia. split; nia. }
    assert (M = q) as ->.
    { apply Hexact; [done|]. apply Z.even_spec. exists (k * T'). lia. }
    rewrite Hq. rewrite <- Z.mul_opp_l, Z.div_mul by lia.
    assert (- v = (- k) * h) as -> by nia. rewrite Z.div_mul by lia. done.
  - (* v / h is not an integer: the quotient is strictly between *)
    assert (k * T + 1 <= q ∧ q <= (k + 1) * T - 2
            ∧ (r = 0 → k * T + 2 <= q)) as (Hlo & Hhi & Hlo').
    { assert (h * q + r = h * k * T + f * T) as Heq by nia.
      assert (h + 1 <= f * T) by nia.
      assert (f * T <= h * T - h - 1) by nia.
      repeat split; try intros ->; nia. }
    assert (k * T < M <= (k + 1) * T) as HMb.
    { split; [|lia].
      destruct (Z.eq_dec M (q - 1)) as [->|]; [|lia].
      specialize (Htie eq_refl). specialize (Hlo' Htie). lia. }
    assert (- v / h = - (k + 1)) as ->.
    { symmetry. apply (Z.div_unique _ _ _ (h - f)); lia. }
    assert (- M / T = - (k + 1)) as ->; [|lia].
    symmetry. apply (Z.div_unique _ _ _ ((k + 1) * T - M)); lia.
Qed.

Lemma binary_round_aux_exact (m : positive) (e : Z) :
  2 ^ 52 <= Z.pos m < 2 ^ 53 → -1074 <= e <= 971 →
  binary_round_aux prec emax false (Z.pos m) e loc_Exact = S754_finite false m e.
Proof.
  intros Hm He. unfold binary_round_aux.
  rewrite shr_fexp_53 by lia. cbn [shr_record_of_loc shr_m loc_of_shr_record
                                    round_nearest_even].
  rewrite shr_fexp_53 by lia. cbn [shr_record_of_loc shr_m].
  unfold prec, emax. destruct (Z.leb_spec e (1024 - 53)); [done|lia].
Qed.

(** [float(v)] of a positive integer below [2^53] is [v] itself, held with a
    mantissa of 53 digits. *)
Lemma float_of_int_exact (v : Z) :
  0 < v < 2 ^ 53 →
  ∃ m a, float_of_int v = Ok (S754_finite false m (- a))
         ∧ 0 <= a <= 52
         ∧ Z.pos m = v * 2 ^ a
         ∧ 2 ^ 52 <= Z.pos m < 2 ^ 53.
Proof.
  intros [Hpos Hlt]. destruct v as [|p|p]; try lia.
  pose proof (digits2_pos_bounds p) as [Hlo Hhi].
  set (d := Z.pos (digits2_pos p)) in *.
  assert (1 <= d <= 53) as Hd.
  { split; [lia|].
    destruct (Z.le_gt_cases d 53); [done|].
    assert (2 ^ 53 <= 2 ^ (d - 1)) by (apply Z.pow_le_mono_r; lia). lia. }
  unfold float_of_int, binary_normalize, binary_round.
  unfold shl_align, fexp, emin. fold d.
  replace (Z.max (d + 0 - prec) (3 - emax - prec)) with (d - 53)
    by (unfold prec, emax; lia).
  rewrite Z.sub_0_r.
  destruct (d - 53) as [|k|k] eqn:Hk; [|lia|].
  - assert (d = 53) as Hd53 by lia. rewrite Hd53 in Hlo, Hhi.
    rewrite binary_round_aux_exact by (simpl in Hlo |- *; lia).
    exists p, 0. simpl (2 ^ 0). repeat split; try lia; exact Hlo.
  - assert (Z.pos k = 53 - d) as Hkd by lia.
    pose proof (iter_xO_mul k p) as Hmul.
    assert (2 ^ 52 <= Z.pos (Pos.iter xO p k) < 2 ^ 53) as Hm.
    { rewrite Hmul, Hkd.
      assert (2 ^ 52 = 2 ^ (d - 1) * 2 ^ (53 - d)) as ->.
      { rewrite <- Z.pow_add_r by lia. f_equal. lia. }
      assert (2 ^ 53 = 2 ^ d * 2 ^ (53 - d)) as ->.
      { rewrite <- Z.pow_add_r by lia. f_equal. lia. }
      assert (0 < 2 ^ (53 - d)) by (apply Z.pow_pos_nonneg; lia).
      split; [apply Z.mul_le_mono_nonneg_r; lia|apply Z.mul_lt_mono_pos_r; lia]. }
    rewrite binary_round_aux_exact by lia.
    exists (Pos.iter xO p k), (Z.pos k).
    split; [done|]. split; [lia|]. split; [exact Hmul|exact Hm].
Qed.

Lemma div_eucl_div_mod (a b : Z) : Z.div_eucl a b = (a / b, a mod b).
Proof. unfold Z.div, Z.modulo. by destruct (Z.div_eucl a b). Qed.

Lemma SFdiv_core_binary_53 (mx my : positive) (a b : Z) :
  2 ^ 52 <= Z.pos mx < 2 ^ 53 → 2 ^ 52 <= Z.pos my < 2 ^ 53 →
  0 <= a <= 52 → 0 <= b <= 52 →
  SFdiv_core_binary prec emax (Z.pos mx) (- a) (Z.pos my) (- b)
  = (Z.pos mx * 2 ^ 53 / Z.pos my, b - a - 53,
     new_location (Z.pos my) ((Z.pos mx * 2 ^ 53) mod Z.pos my)).
Proof.
  intros Hx Hy Ha Hb. unfold SFdiv_core_binary, fexp, emin, Zdigits2.
  rewrite (digits2_pos_unique mx 53), (digits2_pos_unique my 53)
    by (simpl; lia).
  unfold prec, emax.
  replace (Z.min (Z.max (53 + - a - (53 + - b) - 53) (3 - 1024 - 53)) (- a - - b))
    with (b - a - 53) by lia.
  replace (- a - - b - (b - a - 53)) with 53 by lia.
  cbv beta iota zeta. rewrite Z.shiftl_mul_pow2 by lia.
  by rewrite div_eucl_div_mod.
Qed.

(** Below [2^53] the shard size is the ceiling of the division: the double
    division and [math.ceil] lose nothing there. *)
Theorem ids_per_shard_exact (v h : Z) :
  0 < v < 2 ^ 53 → 0 < h < 2 ^ 53 →
  ids_per_shard_of v h = Ok (ceil_div v h).
Proof.
  intros Hv Hh.
  destruct (float_of_int_exact v Hv) as (mx & a & Hx & Ha & Hmx & Hxb).
  destruct (float_of_int_exact h Hh) as (my & b & Hy & Hb & Hmy & Hyb).
  unfold ids_per_shard_of, float_div_int. rewrite Hx, Hy.
  cbn [mbind Res_bind float_truediv SFdiv xorb].
  rewrite SFdiv_core_binary_53 by done.
  set (T := 2 ^ (53 + a - b)).
  assert (0 < 2 ^ a ∧ 0 < 2 ^ b ∧ 0 < T) as (Hpa & Hpb & HT)
    by (repeat split; apply Z.pow_pos_nonneg; lia).
  assert (T * 2 ^ b = 2 ^ a * 2 ^ 53) as HTb.
  { unfold T. rewrite <- !Z.pow_add_r by lia. f_equal. lia. }
  assert (Z.pos mx * 2 ^ 53 = v * T * 2 ^ b) as Hnum.
  { rewrite Hmx, <- (Z.mul_assoc v T), HTb. ring. }
  rewrite Hnum, Hmy.
  rewrite Z.div_mul_cancel_r, Z.mul_mod_distr_r by lia.
  rewrite <- Hmy.
  assert (h < T) as HhT.
  { assert (h * 2 ^ b < 2 ^ 53) by lia.
    assert (2 ^ 53 <= T * 2 ^ b).
    { rewrite HTb. assert (1 <= 2 ^ a) by lia. nia. }
    nia. }
  assert (2 ^ 52 <= v * T / h < 2 ^ 54) as Hq.
  { assert (v * T * 2 ^ b / (h * 2 ^ b) = v * T / h) as <-
      by (apply Z.div_mul_cancel_r; lia).
    rewrite <- Hnum, <- Hmy. split.
    - apply Z.div_le_lower_bound; [lia|]. nia.
    - apply Z.div_lt_upper_bound; [lia|]. nia. }
  destruct (v * T / h) as [|q|q] eqn:Hqe; try lia.
  destruct (binary_round_aux_53_or_54 q (b - a - 53)
              (new_location (Z.pos my) ((v * T) mod h * 2 ^ b)))
    as (m & e2 & -> & He2 & HM); [lia|lia|].
  cbn [mbind Res_bind].
  rewrite (math_ceil_scaled m e2 (53 + a - b)) by lia.
  f_equal. fold T.
  replace (e2 + (53 + a - b)) with (e2 - (b - a - 53)) by lia. rewrite HM.
  destruct (rounded_mantissa_props q
              (new_location (Z.pos my) ((v * T) mod h * 2 ^ b)))
    as (Hb1 & Hexact & Htie); [lia|].
  rewrite new_location_exact in Hexact, Htie.
  assert (((v * T) mod h * 2 ^ b =? 0) = true ↔ (v * T) mod h = 0) as Hr0.
  { rewrite Z.eqb_eq. split; [|intros ->; lia]. nia. }
  apply ceil_of_rounded_quotient; rewrite ?Hqe; try lia.
  - unfold T. apply Z.even_spec. exists (2 ^ (53 + a - b - 1)).
    rewrite <- Z.pow_succ_r by lia. f_equal. lia.
  - intros Hr Hev. apply Hexact; [by apply Hr0|done].
Qed.

(** Below [2^53] the padded vocabulary covers the vocabulary and exceeds it
    by less than the number of hosts. *)
Corollary padded_vocab_size_exact (v h : Z) :
  0 < v < 2 ^ 53 → 0 < h < 2 ^ 53 →
  ∃ ids, ids_per_shard_of v h = Ok ids
         ∧ ids = ceil_div v h
         ∧ v <= padded_vocab_size_of ids h
         ∧ padded_vocab_size_of ids h - v < h.
Proof.
  intros Hv Hh. exists (ceil_div v h).
  split; [by apply ids_per_shard_exact|]. split; [done|].
  unfold padded_vocab_size_of, ceil_div.
  pose proof (Z.div_mod (- v) h ltac:(lia)) as Hdiv.
  pose proof (Z.mod_pos_bound (- v) h ltac:(lia)) as Hmod.
  nia.
Qed.

(** C1: the shard size [int(math.ceil(float(vocab_size) / num_tpu_hosts))]
    is meant to be the ceiling of [vocab_size / num_tpu_hosts], so that the
    padded vocabulary covers the vocabulary.  The division is done on
    doubles: for [vocab_size = 2^53 + 1] and one host the code computes the
    shard size [2^53], one less than the ceiling, and a padded vocabulary
    smaller than the vocabulary. *)
Theorem C1_shard_size_at_large_vocabulary :
  ids_per_shard_of (2 ^ 53 + 1) 1 = Ok (2 ^ 53)
  ∧ ceil_div (2 ^ 53 + 1) 1 = 2 ^ 53 + 1
  ∧ _ids_per_shard <$> TPUEmbeddingTable_init (H := reference_lib) large_table_params
    = Ok (2 ^ 53)
  ∧ _padded_vocab_size <$> TPUEmbeddingTable_init (H := reference_lib) large_table_params
    = Ok (2 ^ 53)
  ∧ 2 ^ 53 < vocab_size large_table_params.
Proof. repeat split; vm_compute; reflexivity. Qed.

(** On small sizes the arithmetic gives the ceiling. *)
Example ids_per_shard_examples :
  ids_per_shard_of 10 3 = Ok 4 ∧ ids_per_shard_of 9 3 = Ok 3
  ∧ ids_per_shard_of 1 3 = Ok 1 ∧ ids_per_shard_of 1000003 8 = Ok 125001
  ∧ ceil_div 10 3 = 4 ∧ ceil_div 9 3 = 3 ∧ ceil_div 1 3 = 1
  ∧ ceil_div 1000003 8 = 125001.
Proof. repeat split; vm_compute; reflexivity. Qed.

Example example_table_is_constructed :
  TPUEmbeddingTable_init (H := reference_lib) example_table_params
  = Ok example_table.
Proof. vm_compute. reflexivity. Qed.

(** ** Construction of the table: the combiner and the sequence length *)

(** Inversion of [x ← m; k = Ok y]: [m] returned some [a] and [k a = Ok y]. *)
Lemma bind_Ok_inv {A B} (m : Res A) (k : A → Res B) (y : B) :
  m ≫= k = Ok y → ∃ a, m = Ok a ∧ k a = Ok y.
Proof. destruct m as [a|e]; simpl; [eauto|discriminate]. Qed.

Lemma py_assert_Ok (b : bool) : py_assert b = Ok () ↔ b = true.
Proof. destruct b; simpl; split; (done || discriminate). Qed.

Ltac inv_bind H :=
  repeat match type of H with
         | _ ≫= _ = Ok _ =>
             let a := fresh "a" in
             let Ha := fresh "Ha" in
             apply bind_Ok_inv in H as (a & Ha & H)
         end.

Lemma assert_combiner_Ok (p : TableParams) :
  assert_combiner p = Ok () ↔ sequence_preconditions p.
Proof.
  unfold assert_combiner, sequence_preconditions, truthy_int.
  destruct (combiner p) as [s|], (max_sequence_length p) as [n|]; simpl;
    try destruct (Z.eqb_spec n 0); try destruct (Z.ltb_spec 0 n); simpl;
    (split; [intros Hok; try discriminate Hok;
             (split; [intros; congruence|intros ? [= <-] ?; lia || done])
            |intros [H1 H2]; try reflexivity;
             try (by specialize (H1 eq_refl));
             try (by specialize (H2 n eq_refl ltac:(lia)))]).
Qed.

Lemma assert_combiner_result (p : TableParams) :
  assert_combiner p = Ok () ∨ assert_combiner p = Raise AssertionError.
Proof.
  unfold assert_combiner.
  destruct (combiner p), (max_sequence_length p) as [n|]; simpl; auto.
  - destruct (0 <? n); simpl; auto.
  - destruct (truthy_int n); simpl; auto. destruct (0 <? n); simpl; auto.
Qed.

Section TableConstruction.
Context `{lib : TpuEmbeddingLib}.

(** What a successful [__init__] went through. *)
Lemma TPUEmbeddingTable_init_Ok (p : TableParams) (t : TPUEmbeddingTable) :
  TPUEmbeddingTable_init p = Ok t →
  0 < vocab_size p ∧ 0 < embedding_dim p ∧ 0 < num_tpu_hosts p
  ∧ truthy_opt truthy_list (input_keys p) = true
  ∧ truthy_str (tbl_name p) = true
  ∧ assert_combiner p = Ok ()
  ∧ params t = p
  ∧ ids_per_shard_of (vocab_size p) (num_tpu_hosts p) = Ok (_ids_per_shard t)
  ∧ _padded_vocab_size t = _ids_per_shard t * num_tpu_hosts p
  ∧ tc_combiner (_table_config t) = combiner p
  ∧ check_table_config (_table_config t) = Ok ().
Proof.
  unfold TPUEmbeddingTable_init. intros H. inv_bind H.
  injection H as <-. simpl.
  repeat match goal with x : () |- _ => destruct x end.
  repeat match goal with
         | H : py_assert _ = Ok _ |- _ => apply py_assert_Ok in H
         end.
  repeat match goal with
         | H : (0 <? _) = true |- _ => apply Z.ltb_lt in H
         end.
  repeat split; done.
Qed.

(** C4: a table is constructed only with a combiner among ["sum"],
    ["sqrtn"], ["mean"] and [None], the other values being turned down by
    the table configuration of the accelerator library; only with
    [max_sequence_length] set when the combiner is [None]; and only with the
    combiner [None] when [max_sequence_length] is positive.  Under the last
    two conditions neither of the two assertions on them fails, and without
    them the construction stops with an [AssertionError]. *)
Theorem C4_combiner_and_sequence_length (p : TableParams) :
  (∀ cfg, check_table_config cfg = Ok () → combiner_allowed (tc_combiner cfg)) →
  (∀ t, TPUEmbeddingTable_init p = Ok t →
        combiner_allowed (combiner p)
        ∧ (combiner p = None →
           truthy_opt truthy_int (max_sequence_length p) = true)
        ∧ (∀ n, max_sequence_length p = Some n → 0 < n → combiner p = None))
  ∧ (sequence_preconditions p → assert_combiner p = Ok ())
  ∧ (¬ sequence_preconditions p →
     TPUEmbeddingTable_init p = Raise AssertionError).
Proof.
  intros Hcfg. split; [|split].
  - intros t Ht. apply TPUEmbeddingTable_init_Ok in Ht
      as (_ & _ & _ & _ & _ & Hc & _ & _ & _ & Hcomb & Hcheck).
    apply assert_combiner_Ok in Hc as [H1 H2].
    split; [|done]. rewrite <- Hcomb. by apply Hcfg.
  - apply assert_combiner_Ok.
  - intros Hpre. unfold TPUEmbeddingTable_init.
    repeat match goal with
           | |- context [py_assert ?b] =>
               destruct b; simpl; [|reflexivity]
           end.
    destruct (assert_combiner_result p) as [Hok| ->]; [|reflexivity].
    by apply assert_combiner_Ok in Hok.
Qed.

End TableConstruction.

Lemma reference_check_table_config_combiner (cfg : TableConfig) :
  reference_check_table_config cfg = Ok () → combiner_allowed (tc_combiner cfg).
Proof.
  unfold reference_check_table_config, combiner_allowed.
  destruct (negb (1 <=? tc_vocabulary_size cfg)); [discriminate|].
  destruct (negb (1 <=? tc_dimension cfg)); [discriminate|].
  destruct (valid_combiner (tc_combiner cfg)) eqn:Hv; simpl; [|discriminate].
  intros _. unfold valid_combiner in Hv.
  destruct (tc_combiner cfg) as [s|]; [|set_solver].
  apply orb_prop in Hv as [Hv|Hv]; [apply orb_prop in Hv as [Hv|Hv]|];
    apply String.eqb_eq in Hv as ->; set_solver.
Qed.

Lemma C4_combiner_witness :
  combiner_allowed (combiner example_table_params)
  ∧ assert_combiner example_table_params = Ok ().
Proof.
  destruct (C4_combiner_and_sequence_length (lib := reference_lib)
              example_table_params reference_check_table_config_combiner)
    as (Hinit & Hpre & _).
  split.
  - apply (Hinit example_table). vm_compute. reflexivity.
  - apply Hpre. split; [discriminate|discriminate].
Defined.

(** ** Construction of the layer: the optimizer parameters of the tables *)

Lemma mapM_res_Ok_map {A B} (f : A → Res B) (g : A → B) (l : list A) :
  (∀ x, x ∈ l → f x = Ok (g x)) → mapM_res f l = Ok (map g l).
Proof.
  induction l as [|x l IH]; intros Hf; simpl; [done|].
  rewrite Hf by left. simpl. rewrite IH; [done|].
  intros y Hy. apply Hf. by right.
Qed.

Lemma table_optimizer_missing_false (p : LayerParams) :
  table_optimizer_missing p = false ↔ Forall (λ t, optimizer t ≠ None) (tables p).
Proof.
  unfold table_optimizer_missing. induction (tables p) as [|t l IH]; simpl.
  - split; [constructor|done].
  - rewrite orb_false_iff, IH, Forall_cons.
    destruct (optimizer t); simpl; split; intros []; split; done.
Qed.

Lemma fill_optimizer_Some (o : OptimizerParams) (l : list TableParams) :
  Forall (λ t, optimizer t ≠ None) (map (fill_optimizer (Some o)) l).
Proof.
  apply Forall_forall. intros t' Hin. apply list_elem_of_fmap in Hin as (t & -> & _).
  unfold fill_optimizer. destruct (optimizer t) eqn:Ho; simpl; [by rewrite Ho|done].
Qed.

Lemma fill_optimizer_id (lo : option OptimizerParams) (l : list TableParams) :
  Forall (λ t, optimizer t ≠ None) l → map (fill_optimizer lo) l = l.
Proof.
  induction 1 as [|t l Ht _ IH]; simpl; [done|]. rewrite IH. f_equal.
  unfold fill_optimizer. by destruct (optimizer t).
Qed.

(** The check of lines 456 to 467, case by case. *)
Lemma resolve_table_optimizers_eq (p : LayerParams) :
  resolve_table_optimizers p
  = if table_optimizer_missing p && is_None (layer_optimizer p)
    then Raise (ValueError missing_optimizer_message)
    else Ok (map (fill_optimizer (layer_optimizer p)) (tables p)).
Proof.
  unfold resolve_table_optimizers. fold (table_optimizer_missing p).
  destruct (table_optimizer_missing p) eqn:Hm, (layer_optimizer p) as [o|] eqn:Ho;
    simpl; try done.
  - apply mapM_res_Ok_map. intros t _. unfold fill_optimizer.
    by destruct (is_None (optimizer t)).
  - apply table_optimizer_missing_false in Hm. by rewrite fill_optimizer_id.
  - apply table_optimizer_missing_false in Hm. by rewrite fill_optimizer_id.
Qed.

Section LayerConstruction.
Context `{lib : TpuEmbeddingLib}.

Lemma leading_assertions_pass (p : LayerParams) :
  leading_assertions p →
  TPUEmbeddingLayer_init p
  = (tables' ← resolve_table_optimizers p; finish_layer_init p tables').
Proof.
  intros (Ht & Hb & Hn & Hhosts). unfold TPUEmbeddingLayer_init.
  destruct (tables p) as [|t0 l] eqn:Htables; [done|]. simpl.
  apply Z.ltb_lt in Hb. rewrite Hb. simpl.
  assert (truthy_str (layer_name p) = true) as ->.
  { unfold truthy_str. apply negb_true_iff, String.eqb_neq. done. }
  simpl. rewrite Z.eqb_refl. simpl.
  assert (forallb (λ t, num_tpu_hosts t =? num_tpu_hosts t0) l = true) as ->.
  { apply forallb_forall. intros t Hin. apply Z.eqb_eq.
    specialize (Hhosts t). simpl in Hhosts.
    assert (Some (num_tpu_hosts t) = Some (num_tpu_hosts t0)) as [= ->]; [|done].
    apply Hhosts. right. by apply list_elem_of_In. }
  reflexivity.
Qed.

(** C9, as the code has it: when the assertions at the head of [__init__]
    hold (the table list is not empty, the batch size is positive, the
    layer has a name, all tables have the number of hosts of the first),
    the optimizer check raises its [ValueError] if some table has no
    optimizer parameters and the layer has none either; in every other case
    the check passes, every table without optimizer parameters has received
    a copy of the layer's, every table then has optimizer parameters, and
    [__init__] goes on to create the tables from these parameters.  A layer
    that was constructed has optimizer parameters in every table. *)
Theorem C9_layer_optimizer_check (p : LayerParams) :
  leading_assertions p →
  (table_optimizer_missing p = true ∧ layer_optimizer p = None →
   TPUEmbeddingLayer_init p = Raise (ValueError missing_optimizer_message))
  ∧ (¬ (table_optimizer_missing p = true ∧ layer_optimizer p = None) →
     resolve_table_optimizers p
     = Ok (map (fill_optimizer (layer_optimizer p)) (tables p))
     ∧ Forall (λ t, optimizer t ≠ None)
              (map (fill_optimizer (layer_optimizer p)) (tables p))
     ∧ TPUEmbeddingLayer_init p
       = finish_layer_init p (map (fill_optimizer (layer_optimizer p)) (tables p)))
  ∧ (∀ layer, TPUEmbeddingLayer_init p = Ok layer →
       tables (layer_params layer)
       = map (fill_optimizer (layer_optimizer p)) (tables p)
       ∧ Forall (λ t, optimizer t ≠ None) (tables (layer_params layer))).
Proof.
  intros Hlead. rewrite (leading_assertions_pass p Hlead).
  rewrite resolve_table_optimizers_eq.
  assert (¬ (table_optimizer_missing p = true ∧ layer_optimizer p = None) →
          table_optimizer_missing p && is_None (layer_optimizer p) = false
          ∧ Forall (λ t, optimizer t ≠ None)
                   (map (fill_optimizer (layer_optimizer p)) (tables p)))
    as Hpass.
  { intros Hnot.
    destruct (table_optimizer_missing p) eqn:Hm, (layer_optimizer p) as [o|];
      simpl; try (split; [done|]).
    - apply fill_optimizer_Some.
    - by destruct Hnot.
    - apply table_optimizer_missing_false in Hm. by rewrite fill_optimizer_id.
    - apply table_optimizer_missing_false in Hm. by rewrite fill_optimizer_id. }
  split; [|split].
  - intros [-> ->]. reflexivity.
  - intros Hnot. destruct (Hpass Hnot) as [-> Hall]. done.
  - intros layer Hlayer.
    destruct (table_optimizer_missing p && is_None (layer_optimizer p)) eqn:Hc;
      [discriminate|].
    simpl in Hlayer. unfold finish_layer_init in Hlayer. inv_bind Hlayer.
    injection Hlayer as <-. simpl. split; [done|].
    apply Hpass. intros [Hm Ho]. rewrite Hm, Ho in Hc. discriminate.
Qed.

End LayerConstruction.

(** C9, as stated, fails: with a table and a layer both without optimizer
    parameters but with the batch size 0, [__init__] stops at the assertion
    on the batch size with an [AssertionError], not with a [ValueError]. *)
Lemma C9_counterexample :
  ¬ (∀ (lib : TpuEmbeddingLib) (p : LayerParams),
       (∃ msg, TPUEmbeddingLayer_init p = Raise (ValueError msg))
       ↔ (table_optimizer_missing p = true
          ∧ truthy_opt (λ _, true) (layer_optimizer p) = false)).
Proof.
  intros H.
  destruct (proj2 (H reference_lib layer_params_without_optimizers))
    as [msg Hmsg]; [split; reflexivity|].
  vm_compute in Hmsg. discriminate Hmsg.
Qed.

Lemma C9_layer_optimizer_witness :
  ∃ layer,
    TPUEmbeddingLayer_init (H := reference_lib) example_layer_params = Ok layer
    ∧ Forall (λ t, optimizer t ≠ None) (tables (layer_params layer)).
Proof.
  assert (leading_assertions example_layer_params) as Hlead.
  { repeat split; try done.
    intros t Ht. apply list_elem_of_singleton in Ht as ->. reflexivity. }
  destruct (C9_layer_optimizer_check (lib := reference_lib)
              example_layer_params Hlead) as (_ & _ & Hok).
  destruct (TPUEmbeddingLayer_init (H := reference_lib) example_layer_params)
    as [layer|e] eqn:Hinit; [|vm_compute in Hinit; discriminate Hinit].
  exists layer. split; [reflexivity|]. by apply Hok.
Defined.

(** ** The layer's variables: registration in the graph collections *)

Lemma M_bind_Ok_inv {S A B} (m : M S A) (k : A → M S B) (s s'' : S) (b : B) :
  (m ≫= k) s = (Ok b, s'') →
  ∃ a s', m s = (Ok a, s') ∧ k a s' = (Ok b, s'').
Proof.
  unfold mbind, M_bind. destruct (m s) as [[a|e] s']; [eauto|discriminate].
Qed.

Lemma lift_res_Ok_inv {S A} (r : Res A) (s s' : S) (a : A) :
  lift_res r s = (Ok a, s') → r = Ok a ∧ s' = s.
Proof. unfold lift_res. by intros [= -> ->]. Qed.

Section LayerVariables.
Context `{lib : TpuEmbeddingLib}.

Lemma layer_loop_feature_ops (table : TPUEmbeddingTable) (l : list string)
  (acc acc' : LayerLoop) :
  for_each (layer_loop_feature table) l acc = Ok acc' →
  load_op_list acc' = load_op_list acc
  ∧ retrieve_op_list acc' = retrieve_op_list acc.
Proof.
  revert acc. induction l as [|f l IH]; intros acc H; simpl in H.
  - by injection H as <-.
  - apply bind_Ok_inv in H as (acc1 & H1 & H).
    apply IH in H as [-> ->].
    unfold layer_loop_feature in H1. inv_bind H1. by injection H1 as <-.
Qed.

Lemma layer_loop_table_ops (l : list TPUEmbeddingTable) (acc acc' : LayerLoop) :
  for_each layer_loop_table l acc = Ok acc' →
  load_op_list acc' = load_op_list acc ++ concat (map _load_op_list l)
  ∧ retrieve_op_list acc' = retrieve_op_list acc ++ concat (map _retrieve_op_list l).
Proof.
  revert acc. induction l as [|t l IH]; intros acc H; simpl in H.
  - injection H as <-. simpl. by rewrite !app_nil_r.
  - apply bind_Ok_inv in H as (acc1 & H1 & H).
    apply IH in H as [-> ->].
    apply layer_loop_feature_ops in H1 as [-> ->]. simpl.
    by rewrite <- !app_assoc.
Qed.

(** C7: with [use_tpu()] true, [TPUEmbeddingLayer._CreateLayerVariables]
    adds to the collections [TPU_EMBEDDING_LOAD_OPS] and
    [TPU_EMBEDDING_RETRIEVE_OPS] the concatenation, in table order, of the
    tables' load op lists and retrieve op lists, and leaves exactly one
    TPUEmbedding object in the collection [TPU_EMBEDDING]: the collection
    held at most one before; an object that was there is kept and becomes
    the layer's, and only into an empty collection a new one is added. *)
Theorem C7_collections_of_the_layer (c : Cluster) (self self' : TPUEmbeddingLayer)
  (g g' : Graph) :
  use_tpu c = true →
  Layer_CreateLayerVariables c self g = (Ok self', g') →
  g' TPU_EMBEDDING_LOAD_OPS
  = g TPU_EMBEDDING_LOAD_OPS
    ++ [item_ops (concat (map _load_op_list (self_tables self)))]
  ∧ g' TPU_EMBEDDING_RETRIEVE_OPS
    = g TPU_EMBEDDING_RETRIEVE_OPS
      ++ [item_ops (concat (map _retrieve_op_list (self_tables self)))]
  ∧ (length (g TPU_EMBEDDING) ≤ 1)%nat
  ∧ length (g' TPU_EMBEDDING) = 1%nat
  ∧ (∀ api, g TPU_EMBEDDING = [api] →
            g' TPU_EMBEDDING = [api] ∧ _tpu_embedding self' = Some api)
  ∧ (g TPU_EMBEDDING = [] →
     ∃ api, g' TPU_EMBEDDING = [item_tpu_embedding api]
            ∧ _tpu_embedding self' = Some (item_tpu_embedding api))
  ∧ g' TPU_EMBEDDING_ACTIVATIONS = g TPU_EMBEDDING_ACTIVATIONS
  ∧ g' TPU_EMBEDDING_SUMMARY_TENSORS = g TPU_EMBEDDING_SUMMARY_TENSORS.
Proof.
  intros Hu H. unfold Layer_CreateLayerVariables in H. rewrite Hu in H.
  apply M_bind_Ok_inv in H as (acc & g0 & Hacc & H).
  apply lift_res_Ok_inv in Hacc as [Hacc ->].
  apply layer_loop_table_ops in Hacc as [Hload Hretr]. simpl in Hload, Hretr.
  apply M_bind_Ok_inv in H as ([] & g1 & Hg1 & H).
  injection Hg1 as <-.
  apply M_bind_Ok_inv in H as ([] & g2 & Hg2 & H).
  injection Hg2 as <-.
  apply M_bind_Ok_inv in H as (coll & g3 & Hg3 & H).
  injection Hg3 as <- <-. simpl in H.
  apply M_bind_Ok_inv in H as ([] & g4 & Hlen & H).
  apply lift_res_Ok_inv in Hlen as [Hlen ->].
  apply py_assert_Ok, Nat.leb_le in Hlen.
  destruct (g TPU_EMBEDDING) as [|x [|y coll]] eqn:Hcoll; simpl in Hlen, H;
    [| |lia].
  - apply M_bind_Ok_inv in H as (hosts & g5 & Hg5 & H).
    apply lift_res_Ok_inv in Hg5 as [_ ->].
    apply M_bind_Ok_inv in H as ([] & g6 & Hg6 & H).
    apply lift_res_Ok_inv in Hg6 as [_ ->].
    apply M_bind_Ok_inv in H as ([] & g7 & Hg7 & H).
    apply lift_res_Ok_inv in Hg7 as [_ ->].
    apply M_bind_Ok_inv in H as ([] & g8 & Hg8 & H).
    injection Hg8 as <-. injection H as <- <-.
    simpl. rewrite Hcoll, Hload, Hretr.
    repeat split; try done. eauto.
  - injection H as <- <-. simpl. rewrite Hcoll, Hload, Hretr.
    repeat split; try done; by injection H as ->.
Qed.

End LayerVariables.

Lemma C7_collections_witness :
  length ((Layer_CreateLayerVariables (H := reference_lib) example_cluster
             example_layer empty_graph).2 TPU_EMBEDDING) = 1%nat.
Proof.
  destruct (Layer_CreateLayerVariables (H := reference_lib) example_cluster
              example_layer empty_graph) as [[self'|e] g'] eqn:H.
  - simpl.
    by destruct (C7_collections_of_the_layer (lib := reference_lib)
                   example_cluster example_layer self' empty_graph g' eq_refl H)
      as (_ & _ & _ & Hlen & _).
  - vm_compute in H. discriminate H.
Defined.

(** ** Dictionaries mapped through a function that may raise *)

Lemma mapM_res_Forall2 {A B} (f : A → Res B) (l : list A) (l' : list B) :
  mapM_res f l = Ok l' ↔ Forall2 (λ x y, f x = Ok y) l l'.
Proof.
  revert l'. induction l as [|x l IH]; intros l'; simpl.
  - split; [intros [= <-]; constructor|by inversion 1].
  - split.
    + intros H. apply bind_Ok_inv in H as (y & Hy & H).
      apply bind_Ok_inv in H as (ys & Hys & H). injection H as <-.
      constructor; [done|by apply IH].
    + inversion 1 as [|? y ? ys Hy Hys]; subst. rewrite Hy. simpl.
      apply IH in Hys. by rewrite Hys.
Qed.

Lemma map_mapM_res_lookup {A B} (f : string → A → Res B) (m : gmap string A)
  (r : gmap string B) :
  map_mapM_res f m = Ok r →
  ∀ k, match m !! k with
       | Some a => ∃ b, f k a = Ok b ∧ r !! k = Some b
       | None => r !! k = None
       end.
Proof.
  unfold map_mapM_res. intros H k.
  destruct (mapM_res _ (map_to_list m)) as [l'|e] eqn:Hl; [|discriminate].
  simpl in H. injection H as <-. apply mapM_res_Forall2 in Hl.
  assert (l'.*1 = (map_to_list m).*1) as Hkeys.
  { clear -Hl. induction Hl as [|x y l l' Hx _ IH]; simpl; [done|].
    apply bind_Ok_inv in Hx as (v & _ & Hx). injection Hx as <-.
    simpl. f_equal. exact IH. }
  assert (NoDup l'.*1) as Hnd by (rewrite Hkeys; apply NoDup_fst_map_to_list).
  destruct (m !! k) as [a|] eqn:Hk.
  - apply elem_of_map_to_list in Hk.
    apply list_elem_of_lookup_1 in Hk as [i Hi].
    destruct (Forall2_lookup_l _ _ _ _ _ Hl Hi) as ([k' b] & Hi' & Hx).
    simpl in Hx. apply bind_Ok_inv in Hx as (v & Hv & [= <- <-]).
    exists v. split; [done|].
    apply elem_of_list_to_map; [done|]. by eapply list_elem_of_lookup_2.
  - apply not_elem_of_list_to_map. rewrite Hkeys.
    intros Hin. apply list_elem_of_fmap in Hin as ([k' a] & -> & Hin).
    apply elem_of_map_to_list in Hin. simpl in Hk. congruence.
Qed.

(** The dictionary succeeds when the function succeeds on every entry. *)
Lemma map_mapM_res_is_Ok {A B} (f : string → A → Res B) (m : gmap string A) :
  (∀ k a, m !! k = Some a → is_Ok (f k a)) → is_Ok (map_mapM_res f m).
Proof.
  unfold map_mapM_res. intros Hf.
  assert (is_Ok (mapM_res (λ kv, v ← f kv.1 kv.2; Ok (kv.1, v)) (map_to_list m)))
    as [l' ->]; [|by eexists].
  assert (∀ kv, kv ∈ map_to_list m → is_Ok (f kv.1 kv.2)) as Hall.
  { intros [k a] Hin. apply elem_of_map_to_list in Hin. by apply Hf. }
  induction (map_to_list m) as [|kv l IH]; simpl; [by eexists|].
  destruct (Hall kv) as [v ->]; [by left|]. simpl.
  destruct IH as [l' ->]; [intros; apply Hall; by right|]. by eexists.
Qed.

(** ** The CPU lookup: padding ids and the shape of the result *)

Lemma ravel_unravel (sh : list nat) (i : nat) :
  (i < numel sh)%nat → ravel sh (unravel sh i) = i.
Proof.
  revert i. induction sh as [|d sh IH]; intros i Hi; simpl in *; [lia|].
  assert (numel sh ≠ 0)%nat as Hn by (intros Hz; rewrite Hz in Hi; lia).
  rewrite IH by (by apply Nat.mod_upper_bound).
  rewrite (Nat.div_mod_eq i (numel sh)) at 3. lia.
Qed.

Lemma unravel_hd (d : nat) (sh : list nat) (i : nat) :
  (i < numel (d :: sh))%nat → (hd 0%nat (unravel (d :: sh) i) < d)%nat.
Proof.
  simpl. intros Hi. apply Nat.Div0.div_lt_upper_bound. lia.
Qed.

Lemma filter_ext_in {A} (P1 P2 : A → Prop) `{!∀ x, Decision (P1 x)}
  `{!∀ x, Decision (P2 x)} (l : list A) :
  (∀ x, x ∈ l → P1 x ↔ P2 x) → filter P1 l = filter P2 l.
Proof.
  induction l as [|x l IH]; intros Hiff; [done|].
  rewrite !filter_cons. rewrite IH by (intros; apply Hiff; by right).
  pose proof (Hiff x ltac:(by left)) as Hx.
  destruct (decide (P1 x)) as [H1|H1], (decide (P2 x)) as [H2|H2]; tauto.
Qed.

(** Reading the elements at the positions that differ from [pad] gives the
    elements that differ from [pad], in order. *)
Lemma where_not_equal_values (l : list Z) (pad : Z) :
  Forall2 (λ i v, l !! i = Some v)
          (filter (λ i, l !! i ≠ Some pad) (seq 0 (length l)))
          (filter (λ v, v ≠ pad) l).
Proof.
  induction l as [|x l IH] using rev_ind; [constructor|].
  rewrite length_app, Nat.add_comm. simpl length.
  rewrite seq_S, !filter_app. simpl.
  apply Forall2_app.
  - assert (filter (λ i, (l ++ [x]) !! i ≠ Some pad) (seq 0 (length l))
            = filter (λ i, l !! i ≠ Some pad) (seq 0 (length l))) as ->.
    { apply filter_ext_in. intros i Hi.
      apply elem_of_seq in Hi. by rewrite lookup_app_l by lia. }
    eapply Forall2_impl; [exact IH|].
    intros i v Hv. simpl in *. rewrite lookup_app_l; [done|].
    by eapply lookup_lt_Some.
  - rewrite !filter_cons, !filter_nil.
    rewrite list_lookup_middle by done.
    destruct (decide (Some x ≠ Some pad)) as [H1|H1],
             (decide (x ≠ pad)) as [H2|H2].
    + constructor; [|constructor]. by rewrite list_lookup_middle.
    + exfalso. apply H2. congruence.
    + exfalso. apply H1. congruence.
    + constructor.
Qed.

Lemma dense_to_sparse_eq (ids : Tensor Z) :
  wf_tensor ids →
  dense_to_sparse ids
  = Ok {| sp_indices := tf_where_not_equal ids (-1);
          sp_values := filter (λ v, v ≠ -1) (data ids);
          sp_dense_shape := shape ids |}.
Proof.
  intros Hwf. unfold dense_to_sparse, tf_gather_nd.
  assert (mapM_res
            (λ idx, match data ids !! ravel (shape ids) idx with
                    | Some v => Ok v
                    | None => Raise (InvalidArgumentError "gather_nd: index out of range")
                    end) (tf_where_not_equal ids (-1))
          = Ok (filter (λ v, v ≠ -1) (data ids))) as ->; [|done].
  apply mapM_res_Forall2. unfold tf_where_not_equal.
  apply Forall2_fmap_l.
  pose proof (where_not_equal_values (data ids) (-1)) as Hval.
  assert (Forall (λ i, i < numel (shape ids))%nat
            (filter (λ i, data ids !! i ≠ Some (-1)) (seq 0 (length (data ids)))))
    as Hlt.
  { apply Forall_forall. intros i Hi. apply list_elem_of_filter in Hi as [_ Hi].
    apply elem_of_seq in Hi. rewrite <- Hwf. lia. }
  revert Hlt. induction Hval as [|i v l l' Hv _ IH]; intros Hlt; [constructor|].
  apply Forall_cons in Hlt as [Hi Hlt].
  constructor; [|by apply IH].
  simpl. rewrite ravel_unravel by done. by rewrite Hv.
Qed.

Lemma row_span_where (ids : Tensor Z) (b : nat) (sh : list nat) :
  wf_tensor ids → shape ids = b :: sh →
  (foldr (λ idx n, Nat.max (S (hd 0%nat idx)) n) 0%nat
         (tf_where_not_equal ids (-1)) ≤ b)%nat.
Proof.
  intros Hwf Hsh. unfold tf_where_not_equal.
  assert (Forall (λ i, i < numel (shape ids))%nat
            (filter (λ i, data ids !! i ≠ Some (-1)) (seq 0 (length (data ids)))))
    as Hlt.
  { apply Forall_forall. intros i Hi. apply list_elem_of_filter in Hi as [_ Hi].
    apply elem_of_seq in Hi. rewrite <- Hwf. lia. }
  induction Hlt as [|i l Hi _ IH]; simpl; [lia|].
  rewrite Hsh in Hi |- *. pose proof (unravel_hd b sh i Hi). 
  rewrite Hsh in IH. lia.
Qed.

Section CpuLookup.
Context `{ops : TfEmbeddingOps}.

(** The combiner case on one input, once the library lookup returned. *)
Lemma cpu_lookup_combined_Ok (self : TPUEmbeddingTable) (ids : Tensor Z)
  (batch seq : nat) (out : Tensor pyfloat) :
  sparse_lookup_shape_law →
  wf_tensor ids → shape ids = [batch; seq] →
  cpu_lookup_combined self ids = Ok out →
  ∃ wm embs,
    theta_wm self = Ok wm
    ∧ tf_nn_embedding_lookup_sparse wm
        {| sp_indices := tf_where_not_equal ids (-1);
           sp_values := filter (λ v, v ≠ -1) (data ids);
           sp_dense_shape := shape ids |} (combiner (params self)) = Ok embs
    ∧ shape out = [batch; 1%nat; params_width wm]
    ∧ data out
      = data embs
        ++ replicate ((batch - foldr (λ idx n, Nat.max (S (hd 0%nat idx)) n) 0%nat
                                 (tf_where_not_equal ids (-1)))
                      * params_width wm) (S754_zero false).
Proof.
  intros Hlaw Hwf Hsh H. unfold cpu_lookup_combined in H.
  rewrite (dense_to_sparse_eq ids Hwf) in H. simpl in H.
  apply bind_Ok_inv in H as (wm & Hwm & H).
  apply bind_Ok_inv in H as (embs & Hembs & H).
  exists wm, embs. split; [done|]. split; [done|].
  pose proof (Hlaw _ _ _ _ Hembs) as Hshape. unfold row_span in Hshape.
  simpl in Hshape.
  pose proof (row_span_where ids batch [seq] Hwf Hsh) as Hspan.
  rewrite Hsh in H. simpl in H. rewrite Hshape in H. simpl in H.
  unfold tf_pad_dim0 in H. rewrite Hshape in H.
  destruct (Z.ltb_spec
              (Z.of_nat batch
               - Z.of_nat (foldr (λ idx n, Nat.max (S (hd 0%nat idx)) n) 0%nat
                             (tf_where_not_equal ids (-1)))) 0) as [Hneg|_];
    [lia|].
  simpl in H. unfold HasShape_dim0 in H. simpl in H.
  rewrite bool_decide_eq_true_2 in H by (f_equal; lia).
  simpl in H. unfold tf_expand_dims in H. simpl in H. injection H as <-.
  simpl. split; [f_equal; lia|]. do 3 f_equal. lia.
Qed.

(** The combiner case returns whenever the table has its shards and the
    library lookup returns. *)
Lemma cpu_lookup_combined_is_Ok (self : TPUEmbeddingTable) (ids : Tensor Z)
  (batch seq : nat) (wm : list (Tensor pyfloat)) :
  sparse_lookup_shape_law →
  wf_tensor ids → shape ids = [batch; seq] →
  theta_wm self = Ok wm →
  is_Ok (tf_nn_embedding_lookup_sparse wm
           {| sp_indices := tf_where_not_equal ids (-1);
              sp_values := filter (λ v, v ≠ -1) (data ids);
              sp_dense_shape := shape ids |} (combiner (params self))) →
  is_Ok (cpu_lookup_combined self ids).
Proof.
  intros Hlaw Hwf Hsh Hwm [embs Hembs]. unfold cpu_lookup_combined.
  rewrite (dense_to_sparse_eq ids Hwf). simpl. rewrite Hwm. simpl.
  rewrite Hembs. simpl.
  pose proof (Hlaw _ _ _ _ Hembs) as Hshape. unfold row_span in Hshape.
  simpl in Hshape.
  pose proof (row_span_where ids batch [seq] Hwf Hsh) as Hspan.
  rewrite Hsh. simpl. rewrite Hshape. simpl.
  unfold tf_pad_dim0. rewrite Hshape.
  destruct (Z.ltb_spec
              (Z.of_nat batch
               - Z.of_nat (foldr (λ idx n, Nat.max (S (hd 0%nat idx)) n) 0%nat
                             (tf_where_not_equal ids (-1)))) 0) as [Hneg|_];
    [lia|].
  simpl. unfold HasShape_dim0. simpl.
  rewrite bool_decide_eq_true_2 by (f_equal; lia).
  simpl. by eexists.
Qed.

(** C10: for a table that is not a sequence table ([max_sequence_length]
    not positive, 0 when none was given) and every input key,
    [CpuEmbLookup] gives the sparse lookup exactly the ids that differ from
    the padding id -1, in order, and pads the combined rows with zero rows
    up to the batch size, so that the tensor returned for the key has the
    shape [[batch, 1, embedding_dim]] also when the last rows of the batch
    hold only padding ids and the lookup gave fewer rows.  The lookup as a
    whole returns whenever the table has its shards and the library lookup
    returns on every key. *)
Theorem C10_cpu_lookup_pads_to_batch (self : TPUEmbeddingTable)
  (ids_map : gmap string (Tensor Z)) :
  sparse_lookup_shape_law →
  shards_have_declared_width self →
  _max_sequence_length self ≤ 0 →
  ids_are_matrices ids_map →
  (∀ key ids, ids_map !! key = Some ids →
     ∃ sparse_ids,
       dense_to_sparse ids = Ok sparse_ids
       ∧ sp_values sparse_ids = filter (λ v, v ≠ -1) (data ids)
       ∧ ((-1) ∉ sp_values sparse_ids)
       ∧ (row_span sparse_ids ≤ hd 0%nat (shape ids))%nat
       ∧ ∀ rets, Table_CpuEmbLookup self ids_map = Ok rets →
           ∃ wm embs out,
             theta_wm self = Ok wm
             ∧ tf_nn_embedding_lookup_sparse wm sparse_ids
                 (combiner (params self)) = Ok embs
             ∧ rets !! key = Some out
             ∧ shape out = [hd 0%nat (shape ids); 1%nat;
                            Z.to_nat (embedding_dim (params self))]
             ∧ data out
               = data embs
                 ++ replicate ((hd 0%nat (shape ids) - row_span sparse_ids)
                               * Z.to_nat (embedding_dim (params self)))
                              (S754_zero false))
  ∧ ((∃ wm, theta_wm self = Ok wm
            ∧ ∀ key ids sparse_ids,
                ids_map !! key = Some ids → dense_to_sparse ids = Ok sparse_ids →
                is_Ok (tf_nn_embedding_lookup_sparse wm sparse_ids
                         (combiner (params self)))) →
     is_Ok (Table_CpuEmbLookup self ids_map)).
Proof.
  intros Hlaw Hwidth Hseq Hids.
  assert (Table_CpuEmbLookup self ids_map
          = map_mapM_res (λ k ids, cpu_lookup_combined self ids) ids_map) as Heq.
  { unfold Table_CpuEmbLookup. by destruct (Z.ltb_spec 0 (_max_sequence_length self));
      [lia|]. }
  split.
  - intros key ids Hkey. destruct (Hids key ids Hkey) as (Hwf & batch & seq & Hsh).
    eexists. split; [by apply dense_to_sparse_eq|]. simpl.
    split; [done|]. split.
    { intros Hin. by apply list_elem_of_filter in Hin as [Hne _]. }
    split.
    { unfold row_span. simpl. rewrite Hsh. simpl.
      by apply (row_span_where ids batch [seq]). }
    intros rets Hrets. rewrite Heq in Hrets.
    pose proof (map_mapM_res_lookup _ _ _ Hrets key) as Hk. rewrite Hkey in Hk.
    destruct Hk as (out & Hout & Hr).
    destruct (cpu_lookup_combined_Ok self ids batch seq out Hlaw Hwf Hsh Hout)
      as (wm & embs & Hwm & Hembs & Hshape & Hdata).
    exists wm, embs, out. rewrite <- (Hwidth wm Hwm), Hsh. simpl.
    unfold row_span. simpl. repeat split; try done. by rewrite <- Hsh.
  - intros (wm & Hwm & Hlookup). rewrite Heq.
    apply map_mapM_res_is_Ok. intros key ids Hkey.
    destruct (Hids key ids Hkey) as (Hwf & batch & seq & Hsh).
    apply (cpu_lookup_combined_is_Ok self ids batch seq wm); try done.
    apply (Hlookup key ids); [done|]. by apply dense_to_sparse_eq.
Qed.

End CpuLookup.

Lemma reference_lookup_sparse_shape :
  sparse_lookup_shape_law (H := reference_ops).
Proof.
  intros wm sp comb embs H. simpl in H.
  unfold reference_embedding_lookup_sparse in H.
  destruct (negb (valid_combiner comb)); [discriminate|].
  apply bind_Ok_inv in H as (rows & _ & H). by injection H as <-.
Qed.

Lemma C10_cpu_lookup_witness :
  ∃ rets out,
    Table_CpuEmbLookup (H := reference_ops) example_cpu_table example_ids_map
    = Ok rets
    ∧ rets !! "ids" = Some out
    ∧ shape out = [2; 1; 4]%nat.
Proof.
  assert (shards_have_declared_width (H := reference_ops) example_cpu_table)
    as Hwidth.
  { intros wm Hwm. vm_compute in Hwm. injection Hwm as <-. reflexivity. }
  assert (ids_are_matrices example_ids_map) as Hids.
  { intros key ids Hkey. unfold example_ids_map in Hkey.
    apply lookup_singleton_Some in Hkey as [_ <-].
    split; [reflexivity|]. by exists 2%nat, 2%nat. }
  destruct (C10_cpu_lookup_pads_to_batch (ops := reference_ops)
              example_cpu_table example_ids_map
              reference_lookup_sparse_shape Hwidth ltac:(vm_compute; discriminate)
              Hids) as [Hkey _].
  destruct (Hkey "ids" example_ids eq_refl) as (sp & _ & _ & _ & _ & Hrets).
  destruct (Table_CpuEmbLookup (H := reference_ops) example_cpu_table
              example_ids_map) as [rets|e] eqn:Hlookup;
    [|vm_compute in Hlookup; discriminate Hlookup].
  destruct (Hrets rets eq_refl) as (wm & embs & out & _ & _ & Hout & Hshape & _).
  exists rets, out. repeat split; [exact Hout|exact Hshape].
Defined.

(** On the example the lookup gives one row, and the second row, which
    holds only padding ids, is the zero row added by the padding. *)
Example cpu_lookup_pads_trailing_row :
  row_span <$> dense_to_sparse example_ids = Ok 1%nat
  ∧ (λ rets, map (λ kv, (kv.1, shape kv.2)) (map_to_list rets))
      <$> Table_CpuEmbLookup (H := reference_ops) example_cpu_table example_ids_map
    = Ok [("ids", [2; 1; 4]%nat)].
Proof. split; vm_compute; reflexivity. Qed.

(** ** The lookup of the layer *)

Section Lookup.
Context `{ops : TfEmbeddingOps}.

(** C2: for every [ids_map], [EmbLookup] returns the result of the CPU
    lookup when [use_tpu()] is false, and then leaves the graph as it is;
    it returns the result of the TPU lookup when [use_tpu()] is true, which
    does not depend on [ids_map], reads the activations of the layer's
    TPUEmbedding object, registers them once in the collection
    [TPU_EMBEDDING_ACTIVATIONS] and returns them, the activations of the
    features that are not sequence features with a dimension 1 inserted. *)
Theorem C2_EmbLookup_takes_one_path (c : Cluster) (self : TPUEmbeddingLayer)
  (ids_map : gmap string (Tensor Z)) (g : Graph) :
  (use_tpu c = false →
     EmbLookup c self ids_map g = (Layer_CpuEmbLookup self ids_map, g))
  ∧ (use_tpu c = true →
     EmbLookup c self ids_map g = Layer_TpuEmbLookup self ids_map g
     ∧ (∀ ids_map', Layer_TpuEmbLookup self ids_map' g
                    = Layer_TpuEmbLookup self ids_map g)
     ∧ ∀ rets g', EmbLookup c self ids_map g = (Ok rets, g') →
         ∃ api activations,
           _tpu_embedding self = Some api
           ∧ get_activations api = Ok activations
           ∧ g' TPU_EMBEDDING_ACTIVATIONS
             = g TPU_EMBEDDING_ACTIVATIONS ++ [item_activations activations]
           ∧ g' ≠ g
           ∧ ∀ k, match activations !! k with
                  | Some v =>
                      ∃ out, rets !! k = Some out
                             ∧ if bool_decide (is_Some (_sequence_features self !! k))
                               then out = v
                               else tf_expand_dims v 1 = Ok out
                  | None => rets !! k = None
                  end).
Proof.
  unfold EmbLookup. split; intros ->; simpl; [done|].
  split; [done|]. split; [done|].
  intros rets g' H. unfold Layer_TpuEmbLookup in H.
  apply M_bind_Ok_inv in H as (api & g1 & Hapi & H).
  apply lift_res_Ok_inv in Hapi as [Hapi ->].
  apply M_bind_Ok_inv in H as (activations & g2 & Hact & H).
  apply lift_res_Ok_inv in Hact as [Hact ->].
  apply M_bind_Ok_inv in H as ([] & g3 & Hadd & H).
  injection Hadd as <-.
  apply lift_res_Ok_inv in H as [Hrets ->].
  exists api, activations.
  destruct (_tpu_embedding self) as [api'|]; [|discriminate].
  injection Hapi as ->.
  split; [done|]. split; [done|]. split; [done|]. split.
  - intros Heq. apply (f_equal (λ f, length (f TPU_EMBEDDING_ACTIVATIONS))) in Heq.
    simpl in Heq. rewrite length_app in Heq. simpl in Heq. lia.
  - intros k. pose proof (map_mapM_res_lookup _ _ _ Hrets k) as Hk.
    destruct (activations !! k) as [v|]; [|done].
    destruct Hk as (out & Hout & Hr). exists out. split; [done|].
    destruct (bool_decide (is_Some (_sequence_features self !! k)));
      [by injection Hout|done].
Qed.

End Lookup.

(** ** The random choice among preprocessors *)

Lemma RandomChoice_transform_agree {A} `{EqDecision A}
  (transform : Preprocessor → gmap string A → Res (gmap string A))
  (p : RandomChoicePreprocessorParams) (x : gmap string A)
  (results : list (gmap string A)) (r : gmap string A) :
  transformed_by transform p x results →
  results ≠ [] → Forall (λ ri, ri = r) results →
  RandomChoice_transform transform p x = Ok r.
Proof.
  unfold transformed_by, RandomChoice_transform. intros -> Hne Hall. simpl.
  destruct results as [|first rest]; [done|].
  apply Forall_cons in Hall as [-> Hall].
  assert (forallb (λ curr, bool_decide (curr = r)) rest = true) as ->; [|done].
  apply forallb_forall. intros ri Hin. apply bool_decide_eq_true_2.
  apply list_elem_of_In in Hin. by apply (proj1 (Forall_forall _ _) Hall).
Qed.

Lemma RandomChoice_transform_differ {A} `{EqDecision A}
  (transform : Preprocessor → gmap string A → Res (gmap string A))
  (p : RandomChoicePreprocessorParams) (x : gmap string A)
  (results : list (gmap string A)) (ri rj : gmap string A) :
  transformed_by transform p x results →
  ri ∈ results → rj ∈ results → ri ≠ rj →
  ∃ msg, RandomChoice_transform transform p x = Raise (ValueError msg).
Proof.
  unfold transformed_by, RandomChoice_transform. intros -> Hi Hj Hne. simpl.
  destruct results as [|first rest]; [by eexists|].
  destruct (forallb (λ curr, bool_decide (curr = first)) rest) eqn:Hall;
    [|by eexists].
  exfalso. apply Hne.
  assert (∀ r, r ∈ first :: rest → r = first) as Hfirst.
  { intros r Hr. apply elem_of_cons in Hr as [->|Hr]; [done|].
    apply list_elem_of_In in Hr.
    pose proof (proj1 (forallb_forall _ _) Hall r Hr) as Hb.
    by apply bool_decide_eq_true_1 in Hb. }
  by rewrite (Hfirst ri Hi), (Hfirst rj Hj).
Qed.

Lemma Qsum_scale (ws : list Q) (s : Q) :
  (Qsum (map (λ w, w / s) ws) == Qsum ws / s)%Q.
Proof.
  induction ws as [|w ws IH]; simpl.
  - unfold Qdiv. by rewrite Qmult_0_l.
  - rewrite IH. unfold Qdiv. by rewrite Qmult_plus_distr_l.
Qed.

(** C5: the random choice among preprocessors.  [TransformShapes] and
    [TransformDTypes] raise [ValueError] as soon as two subprocessors give
    results that differ, be it in the value under a key or in the keys; when
    all subprocessors agree the common result is returned.  In the
    configurations of the tests: four constant preprocessors give the scalar
    shape and [int64] under ["value"]; a scalar and a list of two, the keys
    ["foo"] and ["value"], an integer and a float give [ValueError].
    [TransformFeatures] applies subprocessor [i] with probability
    [weights[i] / sum(weights)]: the probabilities are proportional to the
    weights and sum to one, and with the weights 1, 2, 3, 4 the constants
    1, 2, 3, 4 come out with probabilities 1/10, 2/10, 3/10 and 4/10 (as
    reduced fractions). *)
Theorem C5_random_choice_preprocessor :
  (∀ p shapes results ri rj,
     transformed_by TransformShapes p shapes results →
     ri ∈ results → rj ∈ results →
     (ri ≠ rj ∨ dom ri ≠ dom rj) →
     ∃ msg, RandomChoice_TransformShapes p shapes = Raise (ValueError msg))
  ∧ (∀ p dtypes results ri rj,
       transformed_by TransformDTypes p dtypes results →
       ri ∈ results → rj ∈ results → ri ≠ rj →
       ∃ msg, RandomChoice_TransformDTypes p dtypes = Raise (ValueError msg))
  ∧ (∀ p shapes results r,
       transformed_by TransformShapes p shapes results →
       results ≠ [] → Forall (λ ri, ri = r) results →
       RandomChoice_TransformShapes p shapes = Ok r)
  ∧ (∀ p dtypes results r,
       transformed_by TransformDTypes p dtypes results →
       results ≠ [] → Forall (λ ri, ri = r) results →
       RandomChoice_TransformDTypes p dtypes = Ok r)
  ∧ ((λ new_shapes : gmap string (list Z), new_shapes !! "value")
       <$> RandomChoice_TransformShapes test_choice (test_shapes 4) = Ok (Some [])
     ∧ (λ new_dtypes : gmap string DType, new_dtypes !! "value")
         <$> RandomChoice_TransformDTypes test_choice test_dtypes = Ok (Some tf_int64)
     ∧ (∃ msg, RandomChoice_TransformShapes test_different_shapes (test_shapes 2)
               = Raise (ValueError msg))
     ∧ (∃ msg, RandomChoice_TransformShapes test_different_keys (test_shapes 2)
               = Raise (ValueError msg))
     ∧ (∃ msg, RandomChoice_TransformDTypes test_different_dtypes test_dtypes
               = Raise (ValueError msg)))
  ∧ (∀ p features dist,
       RandomChoice_TransformFeatures p features = Ok dist →
       ∃ w weights,
         features !! weight_tensor_key p = Some w
         ∧ weights_of w = Some weights
         ∧ length weights = length (subprocessors p)
         ∧ length dist = length (subprocessors p)
         ∧ (∀ i wi sub, weights !! i = Some wi → subprocessors p !! i = Some sub →
              ∃ pr, dist !! i = Some (pr, TransformFeatures sub features)
                    ∧ (pr == wi / Qsum weights)%Q
                    ∧ (¬ (Qsum weights == 0)%Q → (pr * Qsum weights == wi)%Q))
         ∧ (¬ (Qsum weights == 0)%Q → (Qsum (map fst dist) == 1)%Q))
  ∧ (λ dist : list (Q * Res (gmap string PyConst)),
       map (λ x, (Qred x.1, (λ fs : gmap string PyConst, fs !! "value") <$> x.2))
           dist)
      <$> RandomChoice_TransformFeatures test_choice test_features
    = Ok [(Qred (1 # 10), Ok (Some (const_scalar (py_int 1))));
          (Qred (2 # 10), Ok (Some (const_scalar (py_int 2))));
          (Qred (3 # 10), Ok (Some (const_scalar (py_int 3))));
          (Qred (4 # 10), Ok (Some (const_scalar (py_int 4))))].
Proof.
  split_and!.
  - intros p shapes results ri rj Hres Hi Hj Hne.
    apply (RandomChoice_transform_differ _ p shapes results ri rj); try done.
    destruct Hne as [Hne|Hne]; [done|]. by intros ->.
  - intros p dtypes results ri rj Hres Hi Hj Hne.
    by apply (RandomChoice_transform_differ _ p dtypes results ri rj).
  - intros p shapes results r. apply RandomChoice_transform_agree.
  - intros p dtypes results r. apply RandomChoice_transform_agree.
  - vm_compute. reflexivity.
  - vm_compute. reflexivity.
  - eexists. vm_compute. reflexivity.
  - eexists. vm_compute. reflexivity.
  - eexists. vm_compute. reflexivity.
  - intros p features dist H. unfold RandomChoice_TransformFeatures in H.
    destruct (features !! weight_tensor_key p) as [w|] eqn:Hw; [|discriminate].
    destruct (weights_of w) as [weights|] eqn:Hweights; [|discriminate].
    destruct (Nat.eqb_spec (length weights) (length (subprocessors p)))
      as [Hlen|]; [|discriminate].
    simpl in H. injection H as <-. exists w, weights.
    split; [done|]. split; [done|]. split; [done|]. split.
    { rewrite length_zip_with. lia. }
    split.
    + intros i wi sub Hwi Hsub. eexists. split.
      { rewrite lookup_zip_with, Hwi. simpl. rewrite Hsub. simpl. reflexivity. }
      split; [reflexivity|]. intros Hnz. unfold Qdiv.
      rewrite <- Qmult_assoc, (Qmult_comm (/ _)), Qmult_inv_r by done.
      apply Qmult_1_r.
    + intros Hnz.
      assert (map fst (zip_with (λ wi sub, ((wi / Qsum weights)%Q,
                                            TransformFeatures sub features))
                         weights (subprocessors p))
              = map (λ w, (w / Qsum weights)%Q) weights) as ->.
      { revert Hlen. generalize (Qsum weights) as total.
        generalize (subprocessors p) as subs. clear.
        induction weights as [|wi ws IH]; intros [|s ss] total Hlen;
          simpl in *; try done. f_equal. apply IH. lia. }
      rewrite Qsum_scale. unfold Qdiv. by apply Qmult_inv_r.
  - vm_compute. reflexivity.
Qed.

(** ** The definitions run on the examples *)

(** On the trainer of a TPU job the example table gets three shards, which
    are not kept in its variables, three Adagrad slot variables, three load
    ops and three retrieve ops, in host order. *)
Example table_variables_on_tpu :
  let r := Table_CreateLayerVariables example_cluster example_table in
  r.1 = Ok ()
  ∧ dom (_private_vars r.2)
    = list_to_set ["var_0/Adagrad"; "var_1/Adagrad"; "var_2/Adagrad"]
  ∧ map op_shard_id (_load_op_list r.2) = [Some 0; Some 1; Some 2]
  ∧ map op_shard_id (_retrieve_op_list r.2) = [Some 0; Some 1; Some 2]
  ∧ r.2 = set_private (_private_vars r.2) (_private_theta r.2) example_loaded_table.
Proof.
  cbv zeta. split_and!; vm_compute; reflexivity.
Qed.

(** On a CPU evaluator the shards are kept under ['wm'], and no slot
    variable and no op is made. *)
Example table_variables_on_cpu :
  (Table_CreateLayerVariables cpu_cluster example_table).1 = Ok ()
  ∧ _private_vars example_cpu_table
    = {[ "wm" := VarList (map (shard_var cpu_cluster example_table) [0; 1; 2]) ]}
  ∧ _load_op_list example_cpu_table = []
  ∧ _retrieve_op_list example_cpu_table = [].
Proof. split_and!; vm_compute; reflexivity. Qed.

(** A table whose optimizer is of the base class cannot be constructed: the
    base class has no optimizer parameters for the accelerator. *)
Example base_optimizer_table :
  TPUEmbeddingTable_init (H := reference_lib)
    (set_optimizer (Some (Optimizer_Params cls_TPUEmbeddingOptimizer))
       example_table_params)
  = Raise (AttributeError "_tpu_embedding_optimizer_parameters").
Proof. vm_compute. reflexivity. Qed.

(** The default parameters of the table and of the layer do not pass the
    assertions of the constructors. *)
Example default_params_are_incomplete :
  TPUEmbeddingTable_init (H := reference_lib) TPUEmbeddingTable_Params
  = Raise AssertionError
  ∧ TPUEmbeddingLayer_init (H := reference_lib) TPUEmbeddingLayer_Params
    = Raise AssertionError.
Proof. split; vm_compute; reflexivity. Qed.

(** The two paths of [EmbLookup] on the example layer: on the CPU the graph
    stays as it is and the batch of two rows comes back as [[2, 1, 4]]; on
    the TPU the activations of the global batch of 32 are registered once and
    come back as [[32, 1, 4]], whatever the ids are. *)
Example EmbLookup_on_the_examples :
  let cpu := EmbLookup (H := reference_ops) cpu_cluster example_cpu_layer
               example_ids_map empty_graph in
  let tpu := EmbLookup (H := reference_ops) example_cluster
               example_tpu_layer_and_graph.1 ∅ example_tpu_layer_and_graph.2 in
  (λ rets : gmap string (Tensor pyfloat), shape <$> rets !! "ids") <$> cpu.1
  = Ok (Some [2; 1; 4]%nat)
  ∧ map (λ k, length (cpu.2 k))
        [TPU_EMBEDDING_LOAD_OPS; TPU_EMBEDDING_RETRIEVE_OPS; TPU_EMBEDDING;
         TPU_EMBEDDING_ACTIVATIONS; TPU_EMBEDDING_SUMMARY_TENSORS]
    = [0; 0; 0; 0; 0]%nat
  ∧ (λ rets : gmap string (Tensor pyfloat), shape <$> rets !! "ids") <$> tpu.1
    = Ok (Some [32; 1; 4]%nat)
  ∧ map (λ k, length (tpu.2 k))
        [TPU_EMBEDDING_LOAD_OPS; TPU_EMBEDDING_RETRIEVE_OPS; TPU_EMBEDDING;
         TPU_EMBEDDING_ACTIVATIONS; TPU_EMBEDDING_SUMMARY_TENSORS]
    = [1; 1; 1; 1; 0]%nat.
Proof. cbv zeta. split_and!; vm_compute; reflexivity. Qed.

(** ** More on [TPUEmbeddingTable._CreateLayerVariables] *)

Lemma set_private_same (t : TPUEmbeddingTable) :
  set_private (_private_vars t) (_private_theta t) t = t.
Proof. by destruct t. Qed.

Lemma store_wm_shards (c : Cluster) (t t1 : TPUEmbeddingTable) :
  store_wm (map (λ i, OneVar (shard_var c t i))
                (py_range (num_tpu_hosts (params t)))) t1
  = (Ok (), set_private (<["wm" := VarList (shard_vars c t)]> (_private_vars t1))
                        (<["wm" := VarList (shard_vars c t)]> (_private_theta t1)) t1).
Proof.
  unfold store_wm, shard_vars.
  assert (∀ l, mapM_res (λ e, match e with
                               | OneVar v => Ok v
                               | VarList _ => Raise (TypeError "variable expected")
                               end) (map (λ i, OneVar (shard_var c t i)) l)
               = Ok (map (shard_var c t) l)) as ->; [|done].
  induction l as [|i l IH]; simpl; [done|]. by rewrite IH.
Qed.

(** [_CreateLayerVariables] of the table, case by case: the shards are made
    and taken out of the variables, kept under ['wm'] off the TPU, and the
    optimizer is asked for its slot variables and ops unless evaluating. *)
Lemma Table_CreateLayerVariables_eq (c : Cluster) (t : TPUEmbeddingTable) :
  Table_CreateLayerVariables c t
  = if do_eval c then (Ok (), with_shards c t)
    else match CreateSlotVariablesAndOps c (self_optimizer t)
                 (map OneVar (shard_vars c t)) (with_shards c t) with
         | (Ok (OpLists load retrieve), t') => (Ok (), set_op_lists load retrieve t')
         | (Ok (ExceptionObject _), t') =>
             (Raise (TypeError "cannot unpack non-iterable object"), t')
         | (Raise e, t') => (Raise e, t')
         end.
Proof.
  unfold Table_CreateLayerVariables.
  unfold mbind at 1, M_bind at 1, get_state at 1.
  unfold mbind at 1, M_bind at 1.
  change ["TPUEmbeddingTable" +:+ "_vars"] with ["TPUEmbeddingTable_vars"].
  rewrite shard_loop. rewrite app_nil_l.
  assert (match py_range (num_tpu_hosts (params t)) with
          | [] => t
          | _ :: _ =>
              set_private
                (foldl (λ m i, delete (GetVariableName i) m) (_private_vars t)
                   (py_range (num_tpu_hosts (params t))))
                (foldl (λ m i, delete (GetVariableName i) m) (_private_theta t)
                   (py_range (num_tpu_hosts (params t)))) t
          end
          = set_private (without_shards (num_tpu_hosts (params t)) (_private_vars t))
                        (without_shards (num_tpu_hosts (params t)) (_private_theta t)) t)
    as ->.
  { unfold without_shards.
    destruct (py_range (num_tpu_hosts (params t))); [|done].
    simpl. by rewrite set_private_same. }
  unfold mbind at 1, M_bind at 1. unfold with_shards.
  assert (map (λ i, OneVar {| var_name := GetVariableName i;
                              var_params := {|
                                wp_shape := [_ids_per_shard t; embedding_dim (params t)];
                                wp_init := params_init (params t);
                                wp_dtype := tbl_dtype (params t);
                                wp_collections := ["TPUEmbeddingTable_vars"] |};
                              var_trainable := true;
                              var_device := GetDeviceName c i |})
              (py_range (num_tpu_hosts (params t)))
          = map (λ i, OneVar (shard_var c t i)) (py_range (num_tpu_hosts (params t))))
    as -> by done.
  assert (map OneVar (shard_vars c t)
          = map (λ i, OneVar (shard_var c t i)) (py_range (num_tpu_hosts (params t))))
    as -> by (unfold shard_vars; by rewrite map_map).
  destruct (use_tpu c) eqn:Hu, (do_eval c) eqn:He; cbn [negb];
    rewrite ?store_wm_shards; unfold mret, M_ret;
    cbn [set_private _private_vars _private_theta]; try done;
    unfold mbind, M_bind;
    destruct (CreateSlotVariablesAndOps c (self_optimizer t) _ _)
      as [[[load retrieve|e]|e] t']; done.
Qed.

(** *** The names of the variables *)

Lemma slash_is_the_slash : String slash EmptyString = "/".
Proof. reflexivity. Qed.

Lemma has_char_app (c : Ascii.ascii) (a b : string) :
  has_char c (a +:+ b) = has_char c a || has_char c b.
Proof.
  induction a as [|x a IH]; simpl; [done|]. by rewrite IH, orb_assoc.
Qed.

Lemma pretty_N_go_no_slash (x : N) (s : string) :
  has_char slash (pretty_N_go x s) = has_char slash s.
Proof.
  revert s. induction (N.lt_wf_0 x) as [x _ IH]. intros s.
  assert (x = 0 ∨ 0 < x)%N as [->|Hx] by lia; [done|].
  rewrite pretty_N_go_step by done.
  rewrite IH by (by apply N.div_lt). simpl.
  unfold pretty_N_char. by repeat case_match.
Qed.

Lemma pretty_Z_no_slash (z : Z) : has_char slash (pretty z) = false.
Proof.
  assert (∀ n : N, has_char slash (pretty n) = false) as HN.
  { intros n. unfold pretty, pretty_N. case_decide; [done|].
    by rewrite pretty_N_go_no_slash. }
  destruct z as [|p|p]; [done|apply (HN (N.pos p))|].
  unfold pretty, pretty_Z. rewrite has_char_app. simpl. apply (HN (N.pos p)).
Qed.

Lemma slot_name_not_shard_name (i j : Z) :
  adagrad_slot_name i ≠ GetVariableName j.
Proof.
  unfold adagrad_slot_name, GetVariableName. intros H.
  apply (f_equal (has_char slash)) in H.
  rewrite !has_char_app, !pretty_Z_no_slash in H. discriminate H.
Qed.

Lemma wm_not_shard_name (i : Z) : "wm" ≠ GetVariableName i.
Proof. unfold GetVariableName. simpl. discriminate. Qed.

Lemma wm_not_slot_name (i : Z) : "wm" ≠ adagrad_slot_name i.
Proof. unfold adagrad_slot_name, GetVariableName. simpl. discriminate. Qed.

(** X1: the names the table gives to its variables never collide:
    different hosts have different shard names, different slot names and,
    outside evaluation, different devices; a slot name is never a shard name,
    and neither is ['wm']. *)
Theorem X1_variable_names_never_collide (i j : Z) :
  (GetVariableName i = GetVariableName j → i = j)
  ∧ (GetVariableName i +:+ "/Adagrad" = GetVariableName j +:+ "/Adagrad" → i = j)
  ∧ GetVariableName i +:+ "/Adagrad" ≠ GetVariableName j
  ∧ GetVariableName i ≠ "wm"
  ∧ GetVariableName i +:+ "/Adagrad" ≠ "wm"
  ∧ (∀ c, do_eval c = false → GetDeviceName c i = GetDeviceName c j → i = j)
  ∧ (∀ c, do_eval c = true → GetDeviceName c i = None).
Proof.
  split_and!.
  - apply GetVariableName_inj.
  - apply adagrad_slot_name_inj.
  - apply slot_name_not_shard_name.
  - intros H. by apply (wm_not_shard_name i).
  - intros H. by apply (wm_not_slot_name i).
  - intros c Hc. unfold GetDeviceName. rewrite Hc. intros [= H].
    apply (inj (String.append (worker_name c))) in H.
    apply (inj (String.append "/replica:0/task:")) in H.
    apply string_app_inj_l in H. by apply (inj pretty) in H.
  - intros c Hc. unfold GetDeviceName. by rewrite Hc.
Qed.

(** *** The shards in the variables of the table *)

Lemma without_shards_lookup (n : Z) (m : gmap string VarEntry) (k : string) :
  without_shards n m !! k
  = if decide (k ∈ map GetVariableName (py_range n)) then None else m !! k.
Proof.
  unfold without_shards. generalize (py_range n) as l. intros l. revert m.
  induction l as [|i l IH]; intros m; cbn [foldl map].
  - case_decide as Hin; [by apply elem_of_nil in Hin|done].
  - rewrite IH. destruct (decide (k = GetVariableName i)) as [->|Hne].
    + rewrite lookup_delete_eq. rewrite (decide_True _ _ (list_elem_of_here _ _)).
      by case_decide.
    + rewrite lookup_delete_ne by done.
      destruct (decide (k ∈ map GetVariableName l)) as [Hin|Hin].
      * by rewrite decide_True by (by right).
      * rewrite decide_False; [done|]. intros Hin'.
        apply elem_of_cons in Hin' as [?|?]; done.
Qed.

Lemma shard_name_in_range (n i : Z) :
  0 <= i < n → GetVariableName i ∈ map GetVariableName (py_range n).
Proof.
  intros Hi. apply list_elem_of_fmap. exists i. split; [done|].
  apply elem_of_seqZ. lia.
Qed.

Lemma shard_vars_lookup (c : Cluster) (t : TPUEmbeddingTable) (i : Z) :
  0 <= i < num_tpu_hosts (params t) →
  shard_vars c t !! Z.to_nat i = Some (shard_var c t i).
Proof.
  intros Hi. unfold shard_vars, py_range. rewrite list_lookup_fmap.
  rewrite lookup_seqZ_lt by lia. simpl. do 2 f_equal. lia.
Qed.

Lemma shard_vars_length (c : Cluster) (t : TPUEmbeddingTable) :
  length (shard_vars c t) = Z.to_nat (num_tpu_hosts (params t)).
Proof. unfold shard_vars, py_range. by rewrite length_map, length_seqZ. Qed.

Lemma hosts_of_shards (c : Cluster) (t t1 : TPUEmbeddingTable) :
  params t1 = params t →
  hosts_of t1 (map OneVar (shard_vars c t))
  = map (λ i, (i, OneVar (shard_var c t i))) (py_range (num_tpu_hosts (params t))).
Proof.
  intros Hp. unfold hosts_of, shard_vars. rewrite Hp.
  generalize (py_range (num_tpu_hosts (params t))) as l.
  induction l as [|i l IH]; simpl; [done|]. by rewrite IH.
Qed.

Lemma with_shards_fields (c : Cluster) (t : TPUEmbeddingTable) :
  params (with_shards c t) = params t
  ∧ _table_name (with_shards c t) = _table_name t
  ∧ _load_op_list (with_shards c t) = _load_op_list t
  ∧ _retrieve_op_list (with_shards c t) = _retrieve_op_list t
  ∧ self_optimizer (with_shards c t) = self_optimizer t.
Proof. unfold with_shards. by destruct (use_tpu c). Qed.

Lemma with_shards_lookup (c : Cluster) (t : TPUEmbeddingTable) (k : string) :
  _private_vars (with_shards c t) !! k
  = (if decide (k = "wm" ∧ use_tpu c = false) then Some (VarList (shard_vars c t))
     else if decide (k ∈ map GetVariableName (py_range (num_tpu_hosts (params t))))
          then None else _private_vars t !! k)
  ∧ _private_theta (with_shards c t) !! k
    = (if decide (k = "wm" ∧ use_tpu c = false) then Some (VarList (shard_vars c t))
       else if decide (k ∈ map GetVariableName (py_range (num_tpu_hosts (params t))))
            then None else _private_theta t !! k).
Proof.
  unfold with_shards.
  destruct (use_tpu c); cbn [set_private _private_vars _private_theta];
    split; destruct (decide (k = "wm" ∧ _)) as [[-> Hb]|Hn];
    try discriminate Hb; rewrite ?lookup_insert_eq; try done;
    try apply without_shards_lookup;
    (rewrite lookup_insert_ne by (intros <-; by apply Hn));
    apply without_shards_lookup.
Qed.

Lemma add_slots_more_fields (c : Cluster) (p : OptimizerParams)
  (l : list (Z * VarEntry)) (t : TPUEmbeddingTable) :
  _private_theta (add_slots c p l t)
  = foldl (λ m x, <[adagrad_slot_name x.1 := OneVar (adagrad_slot_var c p x)]> m)
          (_private_theta t) l
  ∧ _load_op_list (add_slots c p l t) = _load_op_list t
  ∧ _retrieve_op_list (add_slots c p l t) = _retrieve_op_list t.
Proof.
  revert t. induction l as [|x l IH]; intros t; simpl; [done|].
  destruct (IH (set_private
    (<[adagrad_slot_name x.1 := OneVar (adagrad_slot_var c p x)]> (_private_vars t))
    (<[adagrad_slot_name x.1 := OneVar (adagrad_slot_var c p x)]> (_private_theta t))
    t)) as (-> & -> & ->).
  done.
Qed.

(** The variables after [_CreateLayerVariables], slot variables apart, are
    those left by the loop over the hosts and the assignment of ['wm']. *)
Lemma created_variables_lookup (c : Cluster) (t : TPUEmbeddingTable) (k : string) :
  (∀ i, k ≠ adagrad_slot_name i) →
  _private_vars (Table_CreateLayerVariables c t).2 !! k
  = _private_vars (with_shards c t) !! k
  ∧ _private_theta (Table_CreateLayerVariables c t).2 !! k
    = _private_theta (with_shards c t) !! k.
Proof.
  intros Hk. rewrite Table_CreateLayerVariables_eq.
  destruct (do_eval c); [done|].
  unfold CreateSlotVariablesAndOps.
  destruct (opt_cls (optimizer_params (self_optimizer t))).
  - done.
  - rewrite SGD_CreateSlotVariablesAndOps_eq. by destruct (use_tpu c).
  - rewrite Adagrad_CreateSlotVariablesAndOps_eq.
    assert (k ∉ map (λ x : Z * VarEntry, adagrad_slot_name x.1)
                    (hosts_of (with_shards c t) (map OneVar (shard_vars c t))))
      as Hnot.
    { intros Hin. apply list_elem_of_fmap in Hin as (x & -> & _). by apply (Hk x.1). }
    destruct (add_slots_fields c (optimizer_params (self_optimizer t))
                (hosts_of (with_shards c t) (map OneVar (shard_vars c t)))
                (with_shards c t)) as (_ & _ & Hv).
    destruct (add_slots_more_fields c (optimizer_params (self_optimizer t))
                (hosts_of (with_shards c t) (map OneVar (shard_vars c t)))
                (with_shards c t)) as (Hth & _ & _).
    destruct (use_tpu c) eqn:Hu; cbn [snd set_op_lists _private_vars _private_theta];
      rewrite Hv, Hth;
      by rewrite !(foldl_insert_lookup_ne (λ x : Z * VarEntry, adagrad_slot_name x.1)).
Qed.

Lemma created_wm (c : Cluster) (t : TPUEmbeddingTable) :
  _private_vars (Table_CreateLayerVariables c t).2 !! "wm"
  = (if use_tpu c then _private_vars t !! "wm"
     else Some (VarList (shard_vars c t)))
  ∧ _private_theta (Table_CreateLayerVariables c t).2 !! "wm"
    = (if use_tpu c then _private_theta t !! "wm"
       else Some (VarList (shard_vars c t))).
Proof.
  destruct (created_variables_lookup c t "wm") as [-> ->];
    [intros i; apply wm_not_slot_name|].
  destruct (with_shards_lookup c t "wm") as [-> ->].
  assert ("wm" ∉ map GetVariableName (py_range (num_tpu_hosts (params t)))) as Hn.
  { intros Hin. apply list_elem_of_fmap in Hin as (i & Hi & _).
    by apply wm_not_shard_name in Hi. }
  destruct (use_tpu c); repeat case_decide; try done; exfalso; intuition congruence.
Qed.

Lemma created_shard_names (c : Cluster) (t : TPUEmbeddingTable) (i : Z) :
  0 <= i < num_tpu_hosts (params t) →
  _private_vars (Table_CreateLayerVariables c t).2 !! GetVariableName i = None
  ∧ _private_theta (Table_CreateLayerVariables c t).2 !! GetVariableName i = None.
Proof.
  intros Hi.
  destruct (created_variables_lookup c t (GetVariableName i)) as [-> ->].
  { intros j Hj. symmetry in Hj. by apply slot_name_not_shard_name in Hj. }
  destruct (with_shards_lookup c t (GetVariableName i)) as [-> ->].
  pose proof (shard_name_in_range _ i Hi) as Hin.
  pose proof (wm_not_shard_name i) as Hwm.
  repeat case_decide; try done; exfalso; intuition congruence.
Qed.

(** X2: off the TPU, [_CreateLayerVariables] of a table leaves under ['wm'],
    in the variables and in theta, the list of the shard variables it made:
    one per host, in host order, each named [var_<host>], of shape
    [[_ids_per_shard, embedding_dim]], trainable and on the device of its
    host; the names of the shards themselves are no longer keys.  This holds
    whatever the optimizer does afterwards. *)
Theorem X2_wm_holds_the_shards_off_tpu `{TfEmbeddingOps} (c : Cluster)
  (t : TPUEmbeddingTable) :
  use_tpu c = false →
  let t' := (Table_CreateLayerVariables c t).2 in
  let n := num_tpu_hosts (params t) in
  ∃ wm,
    _private_vars t' !! "wm" = Some (VarList wm)
    ∧ _private_theta t' !! "wm" = Some (VarList wm)
    ∧ theta_wm t' = Ok (map read_variable wm)
    ∧ length wm = Z.to_nat n
    ∧ ∀ i, 0 <= i < n →
        ∃ v, wm !! Z.to_nat i = Some v
          ∧ var_name v = GetVariableName i
          ∧ wp_shape (var_params v) = [_ids_per_shard t; embedding_dim (params t)]
          ∧ var_trainable v = true
          ∧ var_device v = GetDeviceName c i
          ∧ _private_vars t' !! GetVariableName i = None
          ∧ _private_theta t' !! GetVariableName i = None.
Proof.
  intros Hu t' n. subst t' n. exists (shard_vars c t).
  destruct (created_wm c t) as [Hv Hth]. rewrite Hu in Hv, Hth.
  split; [done|]. split; [done|].
  split; [unfold theta_wm; by rewrite Hth|].
  split; [apply shard_vars_length|].
  intros i Hi. exists (shard_var c t i).
  split; [by apply shard_vars_lookup|].
  destruct (created_shard_names c t i Hi) as [? ?]. by repeat split.
Qed.

Lemma X2_wm_witness :
  ∃ wm, _private_vars (Table_CreateLayerVariables cpu_cluster example_table).2
          !! "wm" = Some (VarList wm)
        ∧ length wm = 3%nat.
Proof.
  destruct (X2_wm_holds_the_shards_off_tpu (H := reference_ops) cpu_cluster
              example_table eq_refl) as (wm & Hv & _ & _ & Hlen & _).
  exists wm. split; [exact Hv|exact Hlen].
Defined.

(** *** The op lists after [_CreateLayerVariables] *)

Lemma created_ops (c : Cluster) (t : TPUEmbeddingTable) :
  do_eval c = false → concrete_optimizer (self_optimizer t) →
  let r := Table_CreateLayerVariables c t in
  let n := num_tpu_hosts (params t) in
  r.1 = Ok ()
  ∧ _load_op_list r.2
    = (if use_tpu c
       then map (λ i, load_op_for c (self_optimizer t) t (i, OneVar (shard_var c t i)))
                (py_range n)
       else [])
  ∧ _retrieve_op_list r.2
    = (if use_tpu c
       then map (λ i, retrieve_op_for c (self_optimizer t) t
                        (i, OneVar (shard_var c t i)))
                (py_range n)
       else []).
Proof.
  intros Hd Hc. cbv zeta. rewrite Table_CreateLayerVariables_eq, Hd.
  destruct (with_shards_fields c t) as (Hp & Hn & _).
  unfold CreateSlotVariablesAndOps, load_op_for, retrieve_op_for.
  unfold concrete_optimizer in Hc.
  destruct (opt_cls (optimizer_params (self_optimizer t))); [done| |].
  - rewrite SGD_CreateSlotVariablesAndOps_eq.
    rewrite (hosts_of_shards c t (with_shards c t) Hp), Hn, Hp.
    destruct (use_tpu c); cbn [fst snd set_op_lists _load_op_list _retrieve_op_list];
      by rewrite ?map_map.
  - rewrite Adagrad_CreateSlotVariablesAndOps_eq.
    rewrite (hosts_of_shards c t (with_shards c t) Hp), Hn, Hp.
    destruct (use_tpu c); cbn [fst snd set_op_lists _load_op_list _retrieve_op_list];
      by rewrite ?map_map.
Qed.

Lemma load_op_for_shard (c : Cluster) (o : Optimizer) (t : TPUEmbeddingTable)
  (x : Z * VarEntry) :
  op_shard_id (load_op_for c o t x) = Some x.1
  ∧ op_shard_id (retrieve_op_for c o t x) = Some x.1.
Proof.
  unfold load_op_for, retrieve_op_for.
  by destruct (opt_cls (optimizer_params o)).
Qed.

(** X3: in training (not [do_eval]) with an SGD or Adagrad optimizer,
    [_CreateLayerVariables] of a table succeeds and replaces the two op
    lists of the table.  On the TPU each list has one op per host, in host
    order, the op at position [i] being the one of host [i] on the shard
    variable of host [i]; off the TPU (the controller) both lists are
    empty. *)
Theorem X3_table_ops_in_training (c : Cluster) (t : TPUEmbeddingTable) :
  do_eval c = false → concrete_optimizer (self_optimizer t) →
  let r := Table_CreateLayerVariables c t in
  let n := num_tpu_hosts (params t) in
  r.1 = Ok ()
  ∧ (use_tpu c = true →
       length (_load_op_list r.2) = Z.to_nat n
       ∧ length (_retrieve_op_list r.2) = Z.to_nat n
       ∧ ∀ i, 0 <= i < n →
           _load_op_list r.2 !! Z.to_nat i
           = Some (load_op_for c (self_optimizer t) t (i, OneVar (shard_var c t i)))
           ∧ _retrieve_op_list r.2 !! Z.to_nat i
             = Some (retrieve_op_for c (self_optimizer t) t
                       (i, OneVar (shard_var c t i)))
           ∧ (op_shard_id <$> _load_op_list r.2 !! Z.to_nat i) = Some (Some i)
           ∧ (op_shard_id <$> _retrieve_op_list r.2 !! Z.to_nat i) = Some (Some i))
  ∧ (use_tpu c = false → _load_op_list r.2 = [] ∧ _retrieve_op_list r.2 = []).
Proof.
  intros Hd Hc r n. subst r n.
  destruct (created_ops c t Hd Hc) as (Hr & Hl & Hret).
  split; [done|]. rewrite Hl, Hret. split; intros Hu; rewrite Hu; [|done].
  rewrite !length_map. unfold py_range at 1 2. rewrite length_seqZ.
  split; [done|]. split; [done|]. intros i Hi.
  rewrite !list_lookup_fmap. unfold py_range.
  rewrite lookup_seqZ_lt by lia. replace (0 + Z.of_nat (Z.to_nat i)) with i by lia.
  cbn [fmap option_fmap option_map].
  destruct (load_op_for_shard c (self_optimizer t) t (i, OneVar (shard_var c t i)))
    as [-> ->].
  done.
Qed.

Lemma X3_table_ops_witness :
  length (_load_op_list (Table_CreateLayerVariables example_cluster example_table).2)
  = 3%nat
  ∧ length (_retrieve_op_list
              (Table_CreateLayerVariables example_cluster example_table).2)
    = 3%nat.
Proof.
  destruct (X3_table_ops_in_training example_cluster example_table)
    as (_ & Htpu & _).
  - reflexivity.
  - unfold concrete_optimizer. simpl. discriminate.
  - destruct (Htpu eq_refl) as (Hl & Hr & _). split; [exact Hl|exact Hr].
Defined.

(** *** Tables without ['wm'] *)

Lemma map_mapM_res_empty {A B} (f : string → A → Res B) :
  map_mapM_res f ∅ = Ok ∅.
Proof. unfold map_mapM_res. by rewrite map_to_list_empty. Qed.

Lemma map_mapM_res_Raise {A B} (f : string → A → Res B) (m : gmap string A) :
  m ≠ ∅ → (∀ k a, m !! k = Some a → ∃ e, f k a = Raise e) →
  ∃ e, map_mapM_res f m = Raise e.
Proof.
  intros Hm Hf. unfold map_mapM_res.
  destruct (map_to_list m) as [|[k a] l] eqn:Hl.
  - by apply map_to_list_empty_iff in Hl.
  - destruct (Hf k a) as [e He].
    { apply elem_of_map_to_list. rewrite Hl. left. }
    exists e. simpl. by rewrite He.
Qed.

Lemma lookup_without_wm `{TfEmbeddingOps} (t : TPUEmbeddingTable)
  (ids_map : gmap string (Tensor Z)) :
  _private_theta t !! "wm" = None → ids_map ≠ ∅ →
  ∃ e, Table_CpuEmbLookup t ids_map = Raise e.
Proof.
  intros Hwm Hne. unfold Table_CpuEmbLookup.
  assert (theta_wm t = Raise (AttributeError "wm")) as Hth
    by (unfold theta_wm; by rewrite Hwm).
  destruct (0 <? _max_sequence_length t); apply map_mapM_res_Raise; try done.
  - intros k ids _. unfold cpu_lookup_sequence. rewrite Hth. by eexists.
  - intros k ids _. unfold cpu_lookup_combined.
    destruct (dense_to_sparse ids); simpl; [|by eexists].
    rewrite Hth. by eexists.
Qed.

(** X4: on the TPU [_CreateLayerVariables] of a table does not add ['wm']:
    a table without ['wm'] before has none after, whatever the optimizer
    and the mode.  The CPU lookup of such a table then has no weights to
    read: it raises on every dictionary of ids that is not empty, and
    returns the empty dictionary on the empty one. *)
Theorem X4_no_wm_on_tpu `{TfEmbeddingOps} (c : Cluster) (t : TPUEmbeddingTable) :
  use_tpu c = true →
  _private_vars t !! "wm" = None → _private_theta t !! "wm" = None →
  let t' := (Table_CreateLayerVariables c t).2 in
  _private_vars t' !! "wm" = None
  ∧ _private_theta t' !! "wm" = None
  ∧ theta_wm t' = Raise (AttributeError "wm")
  ∧ (∀ ids_map, ids_map ≠ ∅ → ∃ e, Table_CpuEmbLookup t' ids_map = Raise e)
  ∧ Table_CpuEmbLookup t' ∅ = Ok ∅.
Proof.
  intros Hu Hv Hth t'. subst t'.
  destruct (created_wm c t) as [Hv' Hth']. rewrite Hu in Hv', Hth'.
  rewrite Hv in Hv'. rewrite Hth in Hth'.
  split; [done|]. split; [done|].
  split; [unfold theta_wm; by rewrite Hth'|].
  split; [intros ids_map Hne; by apply lookup_without_wm|].
  unfold Table_CpuEmbLookup.
  destruct (0 <? _); apply map_mapM_res_empty.
Qed.

Lemma X4_no_wm_witness :
  theta_wm (H := reference_ops)
    (Table_CreateLayerVariables example_cluster example_table).2
  = Raise (AttributeError "wm").
Proof.
  destruct (X4_no_wm_on_tpu (H := reference_ops) example_cluster example_table)
    as (_ & _ & Hth & _); [reflexivity|reflexivity|reflexivity|exact Hth].
Defined.

(** X5: when evaluating ([do_eval]), [_CreateLayerVariables] of a table
    succeeds whatever the optimizer is, does not ask the optimizer for
    anything: the two op lists stay as they were and no variable other than
    ['wm'] and the shards is added, removed or changed; and the shards are
    not placed on a device. *)
Theorem X5_eval_makes_no_slots_and_no_ops (c : Cluster) (t : TPUEmbeddingTable) :
  do_eval c = true →
  let r := Table_CreateLayerVariables c t in
  r.1 = Ok ()
  ∧ _load_op_list r.2 = _load_op_list t
  ∧ _retrieve_op_list r.2 = _retrieve_op_list t
  ∧ (∀ k, k ≠ "wm" →
          k ∉ map GetVariableName (py_range (num_tpu_hosts (params t))) →
          _private_vars r.2 !! k = _private_vars t !! k
          ∧ _private_theta r.2 !! k = _private_theta t !! k)
  ∧ (∀ i, var_device (shard_var c t i) = None).
Proof.
  intros Hd r. subst r. rewrite Table_CreateLayerVariables_eq, Hd.
  cbn [fst snd]. destruct (with_shards_fields c t) as (_ & _ & Hl & Hr & _).
  split; [done|]. split; [done|]. split; [done|]. split.
  - intros k Hk Hin. destruct (with_shards_lookup c t k) as [-> ->].
    repeat case_decide; try done; exfalso; intuition congruence.
  - intros i. cbn [shard_var var_device]. unfold GetDeviceName. by rewrite Hd.
Qed.

Lemma X5_eval_witness :
  (Table_CreateLayerVariables cpu_cluster example_table).1 = Ok ()
  ∧ _load_op_list (Table_CreateLayerVariables cpu_cluster example_table).2 = [].
Proof.
  destruct (X5_eval_makes_no_slots_and_no_ops cpu_cluster example_table eq_refl)
    as (Hr & Hl & _).
  split; [exact Hr|exact Hl].
Defined.

(** *** The variables of a table fresh from its constructor *)

Lemma foldl_insert_is_Some {A B} (key : A → string) (val : A → B)
  (l : list A) (m : gmap string B) (k : string) :
  is_Some (foldl (λ m x, <[key x := val x]> m) m l !! k)
  ↔ k ∈ map key l ∨ is_Some (m !! k).
Proof.
  revert m. induction l as [|x l IH]; intros m; simpl.
  - split; [by right|]. intros [Hin|?]; [by apply elem_of_nil in Hin|done].
  - rewrite IH, elem_of_cons.
    destruct (decide (k = key x)) as [->|Hne].
    + rewrite lookup_insert_eq. split; [intros _; by left; left|].
      intros _. right. by eexists.
    + rewrite lookup_insert_ne by done. intuition congruence.
Qed.

Lemma fresh_with_shards_lookup (c : Cluster) (t : TPUEmbeddingTable) (k : string) :
  _private_vars t = ∅ →
  is_Some (_private_vars (with_shards c t) !! k) ↔ k = "wm" ∧ use_tpu c = false.
Proof.
  intros Hv. destruct (with_shards_lookup c t k) as [-> _].
  rewrite Hv, lookup_empty.
  repeat case_decide; split; try done; try (by intros []); by eexists.
Qed.

Section FreshTable.
Context `{lib : TpuEmbeddingLib}.

Lemma Optimizer_init_Ok (p : OptimizerParams) (o : Optimizer) :
  Optimizer_init p = Ok o →
  optimizer_params o = p
  ∧ (opt_cls p = cls_TPUEmbeddingOptimizer →
     _tpu_embedding_optimizer_parameters o = None).
Proof.
  unfold Optimizer_init. intros H. inv_bind H.
  destruct (opt_cls p); inv_bind H; injection H as <-; by split.
Qed.

(** A table fresh from [__init__]: no variable, no op, and an optimizer of
    one of the two concrete classes, made from [p.optimizer]. *)
Lemma TPUEmbeddingTable_init_fresh (p : TableParams) (t : TPUEmbeddingTable) :
  TPUEmbeddingTable_init p = Ok t →
  params t = p
  ∧ _private_vars t = ∅ ∧ _private_theta t = ∅
  ∧ _load_op_list t = [] ∧ _retrieve_op_list t = []
  ∧ concrete_optimizer (self_optimizer t)
  ∧ (∃ po, optimizer p = Some po
           ∧ opt_cls (optimizer_params (self_optimizer t)) = opt_cls po)
  ∧ _table_name t = tbl_name p +:+ "_table"
  ∧ _input_keys t = default [] (input_keys p).
Proof.
  unfold TPUEmbeddingTable_init. intros H. inv_bind H.
  injection H as <-. cbn.
  unfold CreateChild_optimizer in *.
  destruct (optimizer p) as [po|] eqn:Hpo; [|discriminate].
  match goal with
  | Ho : Optimizer_init _ = Ok ?o |- _ =>
      apply Optimizer_init_Ok in Ho as [Hop Hbase]
  end.
  match goal with
  | Hp : tpu_embedding_optimizer_parameters ?o = Ok _ |- _ =>
      unfold tpu_embedding_optimizer_parameters in Hp
  end.
  repeat split; try done.
  - unfold concrete_optimizer. intros Hcls. rewrite Hop in Hcls.
    rewrite Hbase in *; [discriminate|].
    by destruct (truthy_str (opt_name (Params_Copy po))).
  - exists po. split; [done|]. rewrite Hop.
    by destruct (truthy_str (opt_name (Params_Copy po))).
Qed.

End FreshTable.

(** X6: on a table fresh from its constructor [_CreateLayerVariables]
    succeeds in every mode, and the variables of the table are then exactly
    these: ['wm'] when not on the TPU, and one Adagrad slot variable
    [var_<host>/Adagrad] per host when training with the Adagrad
    optimizer.  The shards themselves are never among them. *)
Theorem X6_variables_of_a_constructed_table `{TpuEmbeddingLib} (p : TableParams)
  (t : TPUEmbeddingTable) (c : Cluster) :
  TPUEmbeddingTable_init p = Ok t →
  let r := Table_CreateLayerVariables c t in
  r.1 = Ok ()
  ∧ ∀ k, is_Some (_private_vars r.2 !! k)
         ↔ (k = "wm" ∧ use_tpu c = false)
           ∨ (do_eval c = false
              ∧ opt_cls (optimizer_params (self_optimizer t))
                = cls_TPUEmbeddingAdagradOptimizer
              ∧ ∃ i, 0 <= i < num_tpu_hosts p
                     ∧ k = GetVariableName i +:+ "/Adagrad").
Proof.
  intros Hinit r. subst r.
  apply TPUEmbeddingTable_init_fresh in Hinit
    as (Hp & Hv & _ & _ & _ & Hc & _). subst p.
  rewrite Table_CreateLayerVariables_eq.
  destruct (do_eval c) eqn:Hd.
  { split; [done|]. intros k. cbn [snd].
    rewrite fresh_with_shards_lookup by done.
    split; [by left|]. intros [?|(? & _)]; done. }
  unfold CreateSlotVariablesAndOps. unfold concrete_optimizer in Hc.
  destruct (opt_cls (optimizer_params (self_optimizer t))) eqn:Hcls; [done| |].
  - rewrite SGD_CreateSlotVariablesAndOps_eq.
    assert (∀ k, is_Some (_private_vars (with_shards c t) !! k)
                 ↔ k = "wm" ∧ use_tpu c = false) as Hk
      by (intros k; by apply fresh_with_shards_lookup).
    destruct (use_tpu c); cbn [fst snd set_op_lists _private_vars];
      (split; [done|]); intros k; rewrite Hk;
      (split; [by left|]); intros [?|(_ & ? & _)]; done.
  - rewrite Adagrad_CreateSlotVariablesAndOps_eq.
    destruct (with_shards_fields c t) as (Hp & _).
    set (slots := add_slots c (optimizer_params (self_optimizer t))
                    (hosts_of (with_shards c t) (map OneVar (shard_vars c t)))
                    (with_shards c t)).
    assert (∀ k, is_Some (_private_vars slots !! k)
                 ↔ (k = "wm" ∧ use_tpu c = false)
                   ∨ (false = false
                      ∧ cls_TPUEmbeddingAdagradOptimizer
                        = cls_TPUEmbeddingAdagradOptimizer
                      ∧ ∃ i, 0 <= i < num_tpu_hosts (params t)
                             ∧ k = GetVariableName i +:+ "/Adagrad")) as Hk.
    { intros k. subst slots.
      destruct (add_slots_fields c (optimizer_params (self_optimizer t))
                  (hosts_of (with_shards c t) (map OneVar (shard_vars c t)))
                  (with_shards c t)) as (_ & _ & ->).
      rewrite (foldl_insert_is_Some (λ x : Z * VarEntry, adagrad_slot_name x.1)).
      rewrite fresh_with_shards_lookup by done.
      rewrite (hosts_of_shards c t (with_shards c t) Hp), map_map. cbn [fst].
      rewrite list_elem_of_fmap. unfold py_range, adagrad_slot_name.
      split.
      - intros [(i & -> & Hi)|?]; [right|by left].
        apply elem_of_seqZ in Hi. split; [done|]. split; [done|].
        exists i. split; [lia|done].
      - intros [?|(_ & _ & i & Hi & ->)]; [by right|left].
        exists i. split; [done|]. apply elem_of_seqZ. lia. }
    destruct (use_tpu c); cbn [fst snd set_op_lists _private_vars];
      (split; [done|]); exact Hk.
Qed.

Lemma X6_constructed_table_witness :
  (Table_CreateLayerVariables example_cluster example_table).1 = Ok ()
  ∧ is_Some (_private_vars (Table_CreateLayerVariables example_cluster
                              example_table).2 !! "var_2/Adagrad").
Proof.
  destruct (X6_variables_of_a_constructed_table (H := reference_lib)
              example_table_params example_table example_cluster)
    as (Hr & Hk).
  - vm_compute. reflexivity.
  - split; [exact Hr|]. apply Hk. right.
    split; [reflexivity|]. split; [reflexivity|].
    exists 2. split; [simpl; lia|reflexivity].
Defined.

(** ** More on the construction of the table *)

Section TableSizes.
Context `{lib : TpuEmbeddingLib}.

Lemma TPUEmbeddingTable_init_config (p : TableParams) (t : TPUEmbeddingTable) :
  TPUEmbeddingTable_init p = Ok t →
  tc_vocabulary_size (_table_config t) = _padded_vocab_size t
  ∧ tc_dimension (_table_config t) = embedding_dim p
  ∧ _max_sequence_length t = default 0 (max_sequence_length p).
Proof.
  unfold TPUEmbeddingTable_init. intros H. inv_bind H.
  injection H as <-. cbn. repeat split.
  destruct (max_sequence_length p) as [n|]; [|done].
  unfold truthy_int. simpl. by destruct (Z.eqb_spec n 0).
Qed.

(** X7: for a vocabulary and a number of hosts below [2^53], a constructed
    table has the ceiling of [vocab_size / num_tpu_hosts] as its shard size:
    the shards together are the least multiple of the number of hosts that
    holds the vocabulary, and that padded size is the vocabulary size given
    to the table configuration. *)
Theorem X7_shards_cover_the_vocabulary (p : TableParams) (t : TPUEmbeddingTable) :
  TPUEmbeddingTable_init p = Ok t →
  vocab_size p < 2 ^ 53 → num_tpu_hosts p < 2 ^ 53 →
  _ids_per_shard t = ceil_div (vocab_size p) (num_tpu_hosts p)
  ∧ 0 < _ids_per_shard t
  ∧ (_ids_per_shard t - 1) * num_tpu_hosts p < vocab_size p
  ∧ vocab_size p <= _ids_per_shard t * num_tpu_hosts p
  ∧ _padded_vocab_size t = _ids_per_shard t * num_tpu_hosts p
  ∧ tc_vocabulary_size (_table_config t) = _padded_vocab_size t.
Proof.
  intros Hinit Hv Hh.
  destruct (TPUEmbeddingTable_init_config p t Hinit) as (Hcfg & _).
  apply TPUEmbeddingTable_init_Ok in Hinit
    as (Hv0 & _ & Hh0 & _ & _ & _ & _ & Hids & Hpad & _).
  rewrite ids_per_shard_exact in Hids by lia. injection Hids as Hids.
  rewrite <- Hids in *. rewrite Hpad in Hcfg.
  unfold ceil_div in *.
  pose proof (Z.div_mod (- vocab_size p) (num_tpu_hosts p) ltac:(lia)) as Hdiv.
  pose proof (Z.mod_pos_bound (- vocab_size p) (num_tpu_hosts p) ltac:(lia)) as Hmod.
  repeat split; try done; nia.
Qed.

(** X8: the table takes the sequence path of its CPU lookup exactly when
    [p.max_sequence_length] is positive, and then it has no combiner.  The
    assertions of the constructor leave one way to be on the combiner path
    without a combiner: a negative [max_sequence_length], which the table
    keeps as it is. *)
Theorem X8_sequence_length_of_a_constructed_table (p : TableParams)
  (t : TPUEmbeddingTable) :
  TPUEmbeddingTable_init p = Ok t →
  _max_sequence_length t = default 0 (max_sequence_length p)
  ∧ (0 < _max_sequence_length t → combiner p = None)
  ∧ (combiner p = None → _max_sequence_length t ≠ 0)
  ∧ (combiner p = None → ¬ 0 < _max_sequence_length t →
     max_sequence_length p = Some (_max_sequence_length t)
     ∧ _max_sequence_length t < 0).
Proof.
  intros Hinit.
  destruct (TPUEmbeddingTable_init_config p t Hinit) as (_ & _ & Hm).
  apply TPUEmbeddingTable_init_Ok in Hinit
    as (_ & _ & _ & _ & _ & Hc & _).
  apply assert_combiner_Ok in Hc as [H1 H2].
  rewrite Hm. unfold truthy_opt, truthy_int in H1.
  destruct (max_sequence_length p) as [n|]; simpl.
  - split; [done|]. split; [by apply H2|].
    split.
    + intros Hn. specialize (H1 Hn). by destruct (Z.eqb_spec n 0).
    + intros Hn Hle. specialize (H1 Hn). destruct (Z.eqb_spec n 0); [done|].
      split; [done|lia].
  - split; [done|]. split; [lia|].
    split; intros Hn; by specialize (H1 Hn).
Qed.

End TableSizes.

Lemma X7_shards_cover_witness :
  _ids_per_shard example_table = 4 ∧ _padded_vocab_size example_table = 12.
Proof.
  destruct (X7_shards_cover_the_vocabulary (lib := reference_lib)
              example_table_params example_table)
    as (Hids & _ & _ & _ & Hpad & _).
  - vm_compute. reflexivity.
  - reflexivity.
  - reflexivity.
  - split; [exact Hids|]. rewrite Hpad, Hids. reflexivity.
Defined.

Lemma X8_sequence_length_witness :
  ∃ t, TPUEmbeddingTable_init (H := reference_lib) negative_length_table_params
       = Ok t
       ∧ _max_sequence_length t = -1
       ∧ combiner (params t) = None.
Proof.
  destruct (TPUEmbeddingTable_init (H := reference_lib)
              negative_length_table_params) as [t|e] eqn:Hinit;
    [|vm_compute in Hinit; discriminate Hinit].
  exists t. split; [reflexivity|].
  destruct (X8_sequence_length_of_a_constructed_table (lib := reference_lib)
              negative_length_table_params t Hinit) as (Hm & _).
  split; [exact Hm|].
  vm_compute in Hinit. injection Hinit as <-. reflexivity.
Defined.

(** ** The sequence case of the CPU lookup *)

(** X9: the CPU lookup of a sequence table ([max_sequence_length] positive)
    gives the library lookup every id of the input, padding ids included, as
    one flat vector, and returns for each key of [ids_map], and for no
    other key, the rows it got back in the shape of the ids followed by
    [embedding_dim]: the sequence dimension of the result is that of the
    ids, whatever [max_sequence_length] is. *)
Theorem X9_sequence_lookup_follows_the_ids `{TfEmbeddingOps}
  (self : TPUEmbeddingTable) (ids_map : gmap string (Tensor Z))
  (rets : gmap string (Tensor pyfloat)) :
  0 < _max_sequence_length self →
  Table_CpuEmbLookup self ids_map = Ok rets →
  ∀ key,
    match ids_map !! key with
    | Some ids =>
        ∃ wm embs out,
          theta_wm self = Ok wm
          ∧ tf_nn_embedding_lookup wm
              {| shape := [length (data ids)]; data := data ids |} = Ok embs
          ∧ rets !! key = Some out
          ∧ shape out = shape ids ++ [Z.to_nat (embedding_dim (params self))]
          ∧ data out = data embs
          ∧ wf_tensor out
    | None => rets !! key = None
    end.
Proof.
  intros Hseq Hrets key. unfold Table_CpuEmbLookup in Hrets.
  apply Z.ltb_lt in Hseq. rewrite Hseq in Hrets.
  pose proof (map_mapM_res_lookup _ _ _ Hrets key) as Hkey.
  destruct (ids_map !! key) as [ids|]; [|done].
  destruct Hkey as (out & Hout & Hr).
  unfold cpu_lookup_sequence in Hout.
  apply bind_Ok_inv in Hout as (wm & Hwm & Hout).
  apply bind_Ok_inv in Hout as (embs & Hembs & Hout).
  exists wm, embs, out. split; [done|]. split; [done|]. split; [done|].
  unfold tf_reshape in Hout.
  destruct (Nat.eqb_spec
              (numel (shape ids ++ [Z.to_nat (embedding_dim (params self))]))
              (length (data embs))) as [Hn|]; [|discriminate].
  injection Hout as <-. by repeat split.
Qed.

Lemma X9_sequence_lookup_witness :
  ∃ out, example_sequence_rets !! "ids" = Some out
         ∧ shape out = [2; 2; 4]%nat.
Proof.
  pose proof (X9_sequence_lookup_follows_the_ids (H := reference_ops)
                example_sequence_table example_sequence_ids
                example_sequence_rets) as Hx.
  destruct Hx with (key := "ids") as (wm & embs & out & _ & _ & Hr & Hsh & _).
  - vm_compute. reflexivity.
  - vm_compute. reflexivity.
  - exists out. split; [exact Hr|exact Hsh].
Defined.

(** ** The CPU lookup of the layer *)

Lemma table_id_map_Ok (ids_map : gmap string (Tensor Z)) (keys : list string)
  (acc m : gmap string (Tensor Z)) :
  for_each (λ table_id_map key,
              match ids_map !! key with
              | Some ids => Ok (<[key := ids]> table_id_map)
              | None => Raise (KeyError key)
              end) keys acc = Ok m →
  (∀ k, k ∈ keys → is_Some (ids_map !! k))
  ∧ ∀ k, m !! k = if decide (k ∈ keys) then ids_map !! k else acc !! k.
Proof.
  revert acc. induction keys as [|key keys IH]; intros acc H; simpl in H.
  - injection H as <-. split; [by intros k Hk; apply elem_of_nil in Hk|].
    intros k. by rewrite decide_False by apply not_elem_of_nil.
  - destruct (ids_map !! key) as [ids|] eqn:Hkey; [|discriminate]. simpl in H.
    apply IH in H as [Hin Hm]. split.
    + intros k Hk. apply elem_of_cons in Hk as [->|Hk]; [by eexists|by apply Hin].
    + intros k. rewrite Hm.
      destruct (decide (k ∈ keys)) as [Hk|Hk].
      * by rewrite decide_True by by right.
      * destruct (decide (k = key)) as [->|Hne].
        -- rewrite decide_True by left. by rewrite lookup_insert_eq.
        -- rewrite lookup_insert_ne by done.
           rewrite decide_False; [done|].
           intros Hk'. apply elem_of_cons in Hk' as [?|?]; done.
Qed.

Lemma table_id_map_ext (ids_map ids_map' : gmap string (Tensor Z))
  (keys : list string) (acc : gmap string (Tensor Z)) :
  (∀ k, k ∈ keys → ids_map' !! k = ids_map !! k) →
  for_each (λ table_id_map key,
              match ids_map' !! key with
              | Some ids => Ok (<[key := ids]> table_id_map)
              | None => Raise (KeyError key)
              end) keys acc
  = for_each (λ table_id_map key,
                match ids_map !! key with
                | Some ids => Ok (<[key := ids]> table_id_map)
                | None => Raise (KeyError key)
                end) keys acc.
Proof.
  revert acc. induction keys as [|key keys IH]; intros acc Hext; simpl; [done|].
  rewrite Hext by left. destruct (ids_map !! key); simpl; [|done].
  apply IH. intros k Hk. apply Hext. by right.
Qed.

Lemma table_id_map_KeyError (ids_map : gmap string (Tensor Z))
  (keys : list string) (acc : gmap string (Tensor Z)) (k : string) :
  k ∈ keys → ids_map !! k = None →
  ∃ key, key ∈ keys ∧ ids_map !! key = None
         ∧ for_each (λ table_id_map key,
                       match ids_map !! key with
                       | Some ids => Ok (<[key := ids]> table_id_map)
                       | None => Raise (KeyError key)
                       end) keys acc = Raise (KeyError key).
Proof.
  revert acc. induction keys as [|key keys IH]; intros acc Hk Hnone;
    [by apply elem_of_nil in Hk|].
  simpl. destruct (ids_map !! key) as [ids|] eqn:Hkey.
  - apply elem_of_cons in Hk as [->|Hk]; [congruence|].
    destruct (IH (<[key := ids]> acc) Hk Hnone) as (key' & Hin & Hn & Heq).
    exists key'. split; [by right|]. split; [done|]. exact Heq.
  - exists key. split; [left|]. by split.
Qed.

Section LayerCpuLookup.
Context `{ops : TfEmbeddingOps}.

Lemma Table_CpuEmbLookup_keys (t : TPUEmbeddingTable)
  (m : gmap string (Tensor Z)) (r : gmap string (Tensor pyfloat)) (k : string) :
  Table_CpuEmbLookup t m = Ok r → (is_Some (r !! k) ↔ is_Some (m !! k)).
Proof.
  unfold Table_CpuEmbLookup. intros H.
  assert (match m !! k with
          | Some a => ∃ b : Tensor pyfloat, r !! k = Some b
          | None => r !! k = None
          end) as Hk.
  { destruct (0 <? _max_sequence_length t);
      pose proof (map_mapM_res_lookup _ _ _ H k) as Hk;
      destruct (m !! k); try done; destruct Hk as (b & _ & Hb); by exists b. }
  destruct (m !! k).
  - destruct Hk as [b ->]. split; by eexists.
  - rewrite Hk. split; by intros [? ?].
Qed.

Lemma Layer_CpuEmbLookup_loop (tables : list TPUEmbeddingTable)
  (ids_map : gmap string (Tensor Z)) (acc rets : gmap string (Tensor pyfloat)) :
  for_each (λ rets table,
      table_id_map ← for_each (λ table_id_map key,
          match ids_map !! key with
          | Some ids => Ok (<[key := ids]> table_id_map)
          | None => Raise (KeyError key)
          end) (_input_keys table) ∅;
      table_rets ← Table_CpuEmbLookup table table_id_map;
      Ok (table_rets ∪ rets)) tables acc = Ok rets →
  (∀ table k, table ∈ tables → k ∈ _input_keys table → is_Some (ids_map !! k))
  ∧ ∀ k, is_Some (rets !! k)
         ↔ is_Some (acc !! k) ∨ ∃ table, table ∈ tables ∧ k ∈ _input_keys table.
Proof.
  revert acc. induction tables as [|t tables IH]; intros acc H; simpl in H.
  - injection H as <-. split; [by intros t k Ht; apply elem_of_nil in Ht|].
    intros k. split; [by left|]. intros [?|(t & Ht & _)]; [done|].
    by apply elem_of_nil in Ht.
  - apply bind_Ok_inv in H as (acc1 & H1 & H).
    apply bind_Ok_inv in H1 as (m & Hm & H1).
    apply bind_Ok_inv in H1 as (table_rets & Htr & H1). injection H1 as <-.
    apply table_id_map_Ok in Hm as [Hin Hm].
    apply IH in H as [Hall Hrets]. split.
    + intros t' k Ht' Hk. apply elem_of_cons in Ht' as [->|Ht'];
        [by apply Hin|by eapply Hall].
    + intros k. rewrite Hrets, lookup_union_is_Some.
      rewrite (Table_CpuEmbLookup_keys _ _ _ k Htr), Hm, lookup_empty.
      split.
      * intros [[Hk|?]|(t' & Ht' & Hk)].
        -- right. exists t. split; [left|]. by case_decide; [|destruct Hk].
        -- by left.
        -- right. exists t'. split; [by right|done].
      * intros [?|(t' & Ht' & Hk)]; [by left; right|].
        apply elem_of_cons in Ht' as [->|Ht'].
        -- left. left. rewrite decide_True by done. by apply Hin.
        -- right. by exists t'.
Qed.

Lemma Layer_CpuEmbLookup_ext (tables : list TPUEmbeddingTable)
  (ids_map ids_map' : gmap string (Tensor Z)) (acc : gmap string (Tensor pyfloat)) :
  (∀ table k, table ∈ tables → k ∈ _input_keys table →
              ids_map' !! k = ids_map !! k) →
  for_each (λ rets table,
      table_id_map ← for_each (λ table_id_map key,
          match ids_map' !! key with
          | Some ids => Ok (<[key := ids]> table_id_map)
          | None => Raise (KeyError key)
          end) (_input_keys table) ∅;
      table_rets ← Table_CpuEmbLookup table table_id_map;
      Ok (table_rets ∪ rets)) tables acc
  = for_each (λ rets table,
      table_id_map ← for_each (λ table_id_map key,
          match ids_map !! key with
          | Some ids => Ok (<[key := ids]> table_id_map)
          | None => Raise (KeyError key)
          end) (_input_keys table) ∅;
      table_rets ← Table_CpuEmbLookup table table_id_map;
      Ok (table_rets ∪ rets)) tables acc.
Proof.
  revert acc. induction tables as [|t tables IH]; intros acc Hext; [done|].
  cbn [for_each].
  rewrite (table_id_map_ext ids_map ids_map')
    by (intros k Hk; apply (Hext t); [left|done]).
  destruct (for_each _ (_input_keys t) ∅ ≫= _) as [acc1|e]; [|done].
  cbn [mbind Res_bind]. apply IH. intros t' k Ht'. apply (Hext t'). by right.
Qed.

(** X10: the CPU lookup of the layer reads from [ids_map] the input keys of
    its tables and nothing else.  When it returns, every input key of every
    table was in [ids_map], the result has an entry for exactly these keys,
    and any [ids_map] that agrees on these keys gives the same result,
    further keys being ignored.  When an input key of the first table is
    missing, it raises the [KeyError] of a missing key of that table. *)
Theorem X10_layer_cpu_lookup_keys (self : TPUEmbeddingLayer)
  (ids_map : gmap string (Tensor Z)) :
  (∀ rets, Layer_CpuEmbLookup self ids_map = Ok rets →
     (∀ k, is_Some (rets !! k)
           ↔ ∃ table, table ∈ self_tables self ∧ k ∈ _input_keys table)
     ∧ (∀ table k, table ∈ self_tables self → k ∈ _input_keys table →
                   is_Some (ids_map !! k))
     ∧ (∀ ids_map',
          (∀ table k, table ∈ self_tables self → k ∈ _input_keys table →
                      ids_map' !! k = ids_map !! k) →
          Layer_CpuEmbLookup self ids_map' = Ok rets))
  ∧ (∀ table rest k,
       self_tables self = table :: rest →
       k ∈ _input_keys table → ids_map !! k = None →
       ∃ key, key ∈ _input_keys table ∧ ids_map !! key = None
              ∧ Layer_CpuEmbLookup self ids_map = Raise (KeyError key)).
Proof.
  split.
  - intros rets H. unfold Layer_CpuEmbLookup in *.
    pose proof (Layer_CpuEmbLookup_loop _ _ _ _ H) as [Hall Hrets].
    split; [|split; [done|]].
    + intros k. rewrite Hrets, lookup_empty. split.
      * intros [[? ?]|?]; done.
      * intros ?. by right.
    + intros ids_map' Hext. by rewrite (Layer_CpuEmbLookup_ext _ ids_map ids_map').
  - intros table rest k Htables Hk Hnone. unfold Layer_CpuEmbLookup.
    rewrite Htables. cbn [for_each].
    destruct (table_id_map_KeyError ids_map (_input_keys table) ∅ k Hk Hnone)
      as (key & Hin & Hn & Heq).
    exists key. split; [done|]. split; [done|]. by rewrite Heq.
Qed.

End LayerCpuLookup.

Lemma X10_layer_cpu_lookup_witness :
  is_Some (example_cpu_rets !! "ids") ∧ example_cpu_rets !! "other" = None.
Proof.
  destruct (X10_layer_cpu_lookup_keys (ops := reference_ops) example_cpu_layer
              example_ids_map) as [Hok _].
  destruct (Hok example_cpu_rets) as (Hkeys & _).
  - vm_compute. reflexivity.
  - split.
    + apply Hkeys. exists example_cpu_table. split; [left|left].
    + destruct (example_cpu_rets !! "other") as [out|] eqn:Hout; [|reflexivity].
      exfalso.
      assert (is_Some (example_cpu_rets !! "other")) as Hsome
        by (rewrite Hout; by eexists).
      apply Hkeys in Hsome as (table & Ht & Hk).
      apply list_elem_of_singleton in Ht as ->.
      apply list_elem_of_singleton in Hk. discriminate Hk.
Defined.

(** ** More on [TPUEmbeddingLayer._CreateLayerVariables] *)

Section LayerLoops.
Context `{lib : TpuEmbeddingLib}.

Lemma layer_loop_feature_spec (table : TPUEmbeddingTable) (l : list string)
  (acc acc' : LayerLoop) :
  for_each (layer_loop_feature table) l acc = Ok acc' →
  table_to_config_dict acc' = table_to_config_dict acc
  ∧ (∀ k, sequence_features acc' !! k
          = if decide (k ∈ l ∧ 0 < _max_sequence_length table) then Some true
            else sequence_features acc !! k)
  ∧ (∀ k, feature_to_config_dict acc' !! k
          = if decide (k ∈ l) then Some (feature_config_of table)
            else feature_to_config_dict acc !! k).
Proof.
  revert acc. induction l as [|f l IH]; intros acc H; simpl in H.
  - injection H as <-. split; [done|].
    split; intros k; rewrite decide_False; try done.
    + intros [Hk _]. by apply elem_of_nil in Hk.
    + apply not_elem_of_nil.
  - apply bind_Ok_inv in H as (acc1 & H1 & H).
    apply IH in H as (-> & Hseq & Hfc).
    unfold layer_loop_feature in H1. inv_bind H1. injection H1 as <-.
    cbn [table_to_config_dict sequence_features feature_to_config_dict] in *.
    split; [done|]. split; intros k.
    + rewrite Hseq. destruct (Z.ltb_spec 0 (_max_sequence_length table)).
      * destruct (decide (k = f)) as [->|Hne].
        -- rewrite lookup_insert_eq.
           rewrite (decide_True (P := f ∈ f :: l ∧ _)) by (split; [left|done]).
           by destruct (decide _).
        -- rewrite lookup_insert_ne by done.
           repeat case_decide; try done; exfalso;
             repeat match goal with
                    | H : _ ∧ _ |- _ => destruct H
                    | H : _ ∈ _ :: _ |- _ => apply elem_of_cons in H as [?|?]
                    end; try done;
             match goal with
             | H : ¬ _ |- _ => apply H; split; [by right || done|done]
             end.
      * rewrite !decide_False by (intros [_ ?]; lia). done.
    + rewrite Hfc. fold (feature_config_of table).
      destruct (decide (k = f)) as [->|Hne].
      * rewrite lookup_insert_eq. rewrite (decide_True (P := f ∈ f :: l)) by left.
        by destruct (decide _).
      * rewrite lookup_insert_ne by done.
        repeat case_decide; try done; exfalso;
          repeat match goal with
                 | H : _ ∈ _ :: _ |- _ => apply elem_of_cons in H as [?|?]
                 end; try done;
          match goal with
          | H : ¬ _ |- _ => apply H; by right
          end.
Qed.

Lemma is_Some_if_decide {A} (P : Prop) `{Decision P} (x : A) (o : option A) :
  is_Some (if decide P then Some x else o) ↔ P ∨ is_Some o.
Proof.
  destruct (decide P) as [HP|HP].
  - split; [by left|by eexists].
  - split; [by right|]. by intros [?|?].
Qed.

Lemma Some_if_decide {A} (P : Prop) `{Decision P} (x v : A) (o : option A) :
  (if decide P then Some x else o) = Some v → (P ∧ v = x) ∨ o = Some v.
Proof. destruct (decide P); [intros [= <-]; by left|by right]. Qed.

Lemma exists_elem_of_cons {A} (P : A → Prop) (x : A) (l : list A) :
  (∃ t, t ∈ x :: l ∧ P t) ↔ P x ∨ ∃ t, t ∈ l ∧ P t.
Proof.
  split.
  - intros (t & Ht & HP). apply elem_of_cons in Ht as [->|Ht]; [by left|].
    right. by exists t.
  - intros [HP|(t & Ht & HP)]; [exists x; split; [left|done]|].
    exists t. split; [by right|done].
Qed.

Lemma layer_loop_table_spec (l : list TPUEmbeddingTable) (acc acc' : LayerLoop) :
  for_each layer_loop_table l acc = Ok acc' →
  (∀ k, is_Some (sequence_features acc' !! k)
        ↔ is_Some (sequence_features acc !! k)
          ∨ ∃ t, t ∈ l ∧ k ∈ _input_keys t ∧ 0 < _max_sequence_length t)
  ∧ (∀ k v, sequence_features acc' !! k = Some v →
            v = true ∨ sequence_features acc !! k = Some v)
  ∧ (∀ k, is_Some (feature_to_config_dict acc' !! k)
          ↔ is_Some (feature_to_config_dict acc !! k)
            ∨ ∃ t, t ∈ l ∧ k ∈ _input_keys t)
  ∧ (∀ k fc, feature_to_config_dict acc' !! k = Some fc →
             feature_to_config_dict acc !! k = Some fc
             ∨ ∃ t, t ∈ l ∧ k ∈ _input_keys t ∧ fc = feature_config_of t)
  ∧ (∀ n, is_Some (table_to_config_dict acc' !! n)
          ↔ is_Some (table_to_config_dict acc !! n)
            ∨ ∃ t, t ∈ l ∧ _table_name t = n)
  ∧ (∀ n cfg, table_to_config_dict acc' !! n = Some cfg →
              table_to_config_dict acc !! n = Some cfg
              ∨ ∃ t, t ∈ l ∧ _table_name t = n ∧ cfg = _table_config t).
Proof.
  revert acc. induction l as [|t l IH]; intros acc H; simpl in H.
  - injection H as <-.
    repeat split; intros; try (by left); try (by right);
      match goal with
      | H : _ ∨ _ |- _ => destruct H as [?|(? & Hnil & _)];
                          [done|by apply elem_of_nil in Hnil]
      end.
  - apply bind_Ok_inv in H as (acc1 & H1 & H).
    apply IH in H as (S1 & S2 & F1 & F2 & T1 & T2).
    unfold layer_loop_table in H1.
    apply layer_loop_feature_spec in H1 as (Ht & Hs & Hf).
    cbn [table_to_config_dict sequence_features feature_to_config_dict] in *.
    split; [|split; [|split; [|split; [|split]]]].
    + intros k. rewrite S1, Hs, is_Some_if_decide, exists_elem_of_cons. tauto.
    + intros k v Hv. apply S2 in Hv as [?|Hv]; [by left|].
      rewrite Hs in Hv. apply Some_if_decide in Hv as [[_ ->]|?]; [by left|by right].
    + intros k. rewrite F1, Hf, is_Some_if_decide, exists_elem_of_cons. tauto.
    + intros k fc Hfc. apply F2 in Hfc as [Hfc|(t' & Ht' & Hk & ->)].
      * rewrite Hf in Hfc. apply Some_if_decide in Hfc as [[Hk ->]|?]; [|by left].
        right. exists t. split; [left|done].
      * right. exists t'. split; [by right|done].
    + intros n. rewrite T1, Ht, lookup_insert_is_Some, exists_elem_of_cons.
      destruct (decide (_table_name t = n)); tauto.
    + intros n cfg Hcfg. apply T2 in Hcfg as [Hcfg|(t' & Ht' & Hn & ->)].
      * rewrite Ht in Hcfg. apply lookup_insert_Some in Hcfg as [[Hn <-]|[_ ?]];
          [|by left].
        right. exists t. split; [left|done].
      * right. exists t'. split; [by right|done].
Qed.

(** What a successful [_CreateLayerVariables] of the layer went through on
    the TPU. *)
Lemma Layer_CreateLayerVariables_Ok_inv (c : Cluster)
  (self self' : TPUEmbeddingLayer) (g g' : Graph) :
  use_tpu c = true →
  Layer_CreateLayerVariables c self g = (Ok self', g') →
  ∃ acc api,
    for_each layer_loop_table (self_tables self) empty_layer_loop = Ok acc
    ∧ self' = set_tpu_embedding (sequence_features acc) (Some api) self
    ∧ (g TPU_EMBEDDING = [api]
       ∨ g TPU_EMBEDDING = []
         ∧ ∃ tp, head (tables (layer_params self)) = Some tp
                 ∧ api = item_tpu_embedding
                           (new_tpu_embedding c self acc (num_tpu_hosts tp))).
Proof.
  intros Hu H. unfold Layer_CreateLayerVariables in H. rewrite Hu in H.
  apply M_bind_Ok_inv in H as (acc & g0 & Hacc & H).
  apply lift_res_Ok_inv in Hacc as [Hacc ->].
  apply M_bind_Ok_inv in H as ([] & g1 & Hg1 & H).
  injection Hg1 as <-.
  apply M_bind_Ok_inv in H as ([] & g2 & Hg2 & H).
  injection Hg2 as <-.
  apply M_bind_Ok_inv in H as (coll & g3 & Hg3 & H).
  injection Hg3 as <- <-. simpl in H.
  apply M_bind_Ok_inv in H as ([] & g4 & Hlen & H).
  apply lift_res_Ok_inv in Hlen as [Hlen ->].
  apply py_assert_Ok, Nat.leb_le in Hlen.
  exists acc.
  destruct (g TPU_EMBEDDING) as [|x [|y coll]] eqn:Hcoll; simpl in Hlen, H;
    [| |lia].
  - apply M_bind_Ok_inv in H as (hosts & g5 & Hg5 & H).
    apply lift_res_Ok_inv in Hg5 as [Hhosts ->].
    apply M_bind_Ok_inv in H as ([] & g6 & Hg6 & H).
    apply lift_res_Ok_inv in Hg6 as [_ ->].
    apply M_bind_Ok_inv in H as ([] & g7 & Hg7 & H).
    apply lift_res_Ok_inv in Hg7 as [_ ->].
    apply M_bind_Ok_inv in H as ([] & g8 & Hg8 & H).
    injection Hg8 as <-. injection H as <- <-.
    eexists. split; [done|]. split; [reflexivity|]. right. split; [done|].
    destruct (tables (layer_params self)) as [|tp tps]; [discriminate|].
    injection Hhosts as <-. by exists tp.
  - injection H as <- <-. exists x. split; [done|]. split; [done|]. by left.
Qed.

(** X11: after [_CreateLayerVariables] of the layer on the TPU, a feature
    is among the sequence features exactly when some table that lists it as
    an input key has a positive [max_sequence_length], and it is then
    mapped to [True]; the flag of a feature is never taken back by a later
    table that lists the same key without a sequence length.  The tables
    and the parameters of the layer are as before.  Off the TPU the method
    always succeeds, leaves the graph as it is and the layer has no
    sequence feature. *)
Theorem X11_sequence_features_of_the_layer (c : Cluster)
  (self : TPUEmbeddingLayer) (g : Graph) :
  (use_tpu c = true →
   ∀ self' g', Layer_CreateLayerVariables c self g = (Ok self', g') →
     (∀ k, is_Some (_sequence_features self' !! k)
           ↔ ∃ t, t ∈ self_tables self ∧ k ∈ _input_keys t
                  ∧ 0 < _max_sequence_length t)
     ∧ (∀ k v, _sequence_features self' !! k = Some v → v = true)
     ∧ self_tables self' = self_tables self
     ∧ layer_params self' = layer_params self)
  ∧ (use_tpu c = false →
     ∃ self', Layer_CreateLayerVariables c self g = (Ok self', g)
              ∧ _sequence_features self' = ∅
              ∧ self_tables self' = self_tables self
              ∧ _tpu_embedding self' = _tpu_embedding self).
Proof.
  split; intros Hu.
  - intros self' g' H.
    apply Layer_CreateLayerVariables_Ok_inv in H as (acc & api & Hacc & -> & _);
      [|done].
    apply layer_loop_table_spec in Hacc as (S1 & S2 & _).
    cbn [set_tpu_embedding _sequence_features self_tables layer_params
         empty_layer_loop sequence_features] in *.
    split; [|split; [|done]].
    + intros k. rewrite S1, lookup_empty. split.
      * intros [[? ?]|?]; done.
      * intros ?. by right.
    + intros k v Hv. apply S2 in Hv as [?|Hv]; [done|].
      by rewrite lookup_empty in Hv.
  - unfold Layer_CreateLayerVariables. rewrite Hu. by eexists.
Qed.

(** X12: when the collection [TPU_EMBEDDING] is empty, the TPUEmbedding
    object the layer makes has a feature configuration for exactly the
    input keys of the tables, each naming a table that lists the key
    together with that table's sequence length; a table configuration under
    exactly the names of the tables, each the configuration of a table of
    that name; the global batch size
    [batch_size * num_splits_per_client]; and a device configuration with
    the cores of the replica, the number of hosts of the first table of
    [p.tables] and the name of the worker job. *)
Theorem X12_new_tpu_embedding_configuration (c : Cluster)
  (self self' : TPUEmbeddingLayer) (g g' : Graph) :
  use_tpu c = true → g TPU_EMBEDDING = [] →
  Layer_CreateLayerVariables c self g = (Ok self', g') →
  ∃ api tp,
    _tpu_embedding self' = Some (item_tpu_embedding api)
    ∧ head (tables (layer_params self)) = Some tp
    ∧ (∀ k, is_Some (te_feature_to_config_dict api !! k)
            ↔ ∃ t, t ∈ self_tables self ∧ k ∈ _input_keys t)
    ∧ (∀ k fc, te_feature_to_config_dict api !! k = Some fc →
               ∃ t, t ∈ self_tables self ∧ k ∈ _input_keys t
                    ∧ fc_table_id fc = _table_name t
                    ∧ fc_max_sequence_length fc = _max_sequence_length t)
    ∧ (∀ n, is_Some (te_table_to_config_dict api !! n)
            ↔ ∃ t, t ∈ self_tables self ∧ _table_name t = n)
    ∧ (∀ n cfg, te_table_to_config_dict api !! n = Some cfg →
                ∃ t, t ∈ self_tables self ∧ _table_name t = n
                     ∧ cfg = _table_config t)
    ∧ te_batch_size api = batch_size (layer_params self) * num_splits_per_client c
    ∧ te_pipeline_execution_with_tensor_core api
      = pipeline_execution_with_tensor_core (layer_params self)
    ∧ te_device_config api
      = {| dc_num_cores := tpus_per_replica c;
           dc_num_hosts := num_tpu_hosts tp;
           dc_job_name := worker_name c |}.
Proof.
  intros Hu Hg H.
  apply Layer_CreateLayerVariables_Ok_inv in H
    as (acc & api & Hacc & -> & [Hone|(_ & tp & Htp & ->)]); [congruence| |done].
  exists (new_tpu_embedding c self acc (num_tpu_hosts tp)), tp.
  apply layer_loop_table_spec in Hacc as (_ & _ & F1 & F2 & T1 & T2).
  cbn [set_tpu_embedding _tpu_embedding new_tpu_embedding
       te_feature_to_config_dict te_table_to_config_dict te_batch_size
       te_pipeline_execution_with_tensor_core te_device_config
       empty_layer_loop feature_to_config_dict table_to_config_dict] in *.
  split; [done|]. split; [done|].
  split; [|split; [|split; [|split; [|done]]]].
  - intros k. rewrite F1, lookup_empty. split.
    + intros [[? ?]|?]; done.
    + intros ?. by right.
  - intros k fc Hfc. apply F2 in Hfc as [Hfc|(t & Ht & Hk & ->)];
      [by rewrite lookup_empty in Hfc|].
    by exists t.
  - intros n. rewrite T1, lookup_empty. split.
    + intros [[? ?]|?]; done.
    + intros ?. by right.
  - intros n cfg Hcfg. apply T2 in Hcfg as [Hcfg|?];
      [by rewrite lookup_empty in Hcfg|done].
Qed.

(** X13: a graph whose collection [TPU_EMBEDDING] already holds two or
    more objects makes [_CreateLayerVariables] of the layer fail with an
    [AssertionError] on the TPU; by then the load ops and the retrieve ops
    of the tables are already added to their collections, and they stay
    there. *)
Theorem X13_crowded_collection_is_refused (c : Cluster)
  (self : TPUEmbeddingLayer) (g : Graph) (acc : LayerLoop) :
  use_tpu c = true → (2 ≤ length (g TPU_EMBEDDING))%nat →
  for_each layer_loop_table (self_tables self) empty_layer_loop = Ok acc →
  ∃ g', Layer_CreateLayerVariables c self g = (Raise AssertionError, g')
        ∧ g' TPU_EMBEDDING_LOAD_OPS
          = g TPU_EMBEDDING_LOAD_OPS
            ++ [item_ops (concat (map _load_op_list (self_tables self)))]
        ∧ g' TPU_EMBEDDING_RETRIEVE_OPS
          = g TPU_EMBEDDING_RETRIEVE_OPS
            ++ [item_ops (concat (map _retrieve_op_list (self_tables self)))]
        ∧ g' TPU_EMBEDDING = g TPU_EMBEDDING.
Proof.
  intros Hu Hlen Hacc. unfold Layer_CreateLayerVariables. rewrite Hu.
  unfold mbind at 1, M_bind at 1, lift_res at 1.
  change {| table_to_config_dict := ∅; feature_to_config_dict := ∅;
            load_op_list := []; retrieve_op_list := [];
            sequence_features := ∅ |} with empty_layer_loop.
  rewrite Hacc.
  apply layer_loop_table_ops in Hacc as [Hload Hretr]. simpl in Hload, Hretr.
  unfold mbind, M_bind, tf_add_to_collection, modify_state, tf_get_collection,
    lift_res.
  cbn [decide decide_rel CollectionKey_eq_dec].
  destruct (g TPU_EMBEDDING) as [|x [|y coll]] eqn:Hcoll; simpl in Hlen; try lia.
  eexists. split; [simpl; reflexivity|].
  simpl. by rewrite Hload, Hretr.
Qed.

End LayerLoops.

Lemma X12_new_tpu_embedding_witness :
  ∃ api, _tpu_embedding example_tpu_layer_and_graph.1
         = Some (item_tpu_embedding api)
         ∧ te_batch_size api = 32
         ∧ dc_num_hosts (te_device_config api) = 3.
Proof.
  destruct (X12_new_tpu_embedding_configuration (lib := reference_lib)
              example_cluster example_layer example_tpu_layer_and_graph.1
              empty_graph example_tpu_layer_and_graph.2)
    as (api & tp & Hapi & Htp & _ & _ & _ & _ & Hb & _ & Hd).
  - reflexivity.
  - reflexivity.
  - vm_compute. reflexivity.
  - exists api. split; [exact Hapi|]. split; [exact Hb|].
    rewrite Hd. injection Htp as <-. reflexivity.
Defined.

Lemma X13_crowded_collection_witness :
  ∃ g', Layer_CreateLayerVariables (H := reference_lib) example_cluster
          example_layer crowded_graph = (Raise AssertionError, g')
        ∧ length (g' TPU_EMBEDDING_LOAD_OPS) = 1%nat.
Proof.
  destruct (for_each (layer_loop_table (H := reference_lib))
              (self_tables example_layer) empty_layer_loop) as [acc|e] eqn:Hacc;
    [|vm_compute in Hacc; discriminate Hacc].
  destruct (X13_crowded_collection_is_refused (lib := reference_lib)
              example_cluster example_layer crowded_graph acc)
    as (g' & Hg' & Hload & _).
  - reflexivity.
  - vm_compute. lia.
  - exact Hacc.
  - exists g'. split; [exact Hg'|]. rewrite Hload. reflexivity.
Defined.

(** ** More on the construction of the layer *)

Section LayerChildren.
Context `{lib : TpuEmbeddingLib}.

Lemma TPUEmbeddingLayer_init_Ok (p : LayerParams) (layer : TPUEmbeddingLayer) :
  TPUEmbeddingLayer_init p = Ok layer →
  leading_assertions p
  ∧ ∃ children,
      CreateChildren_tables (map (fill_optimizer (layer_optimizer p)) (tables p))
      = Ok children
      ∧ layer = {| layer_params := {|
                     layer_name := layer_name p;
                     tables := map (fill_optimizer (layer_optimizer p)) (tables p);
                     pipeline_execution_with_tensor_core :=
                       pipeline_execution_with_tensor_core p;
                     batch_size := batch_size p;
                     layer_optimizer := layer_optimizer p |};
                   self_tables := children;
                   _sequence_features := ∅;
                   _tpu_embedding := None |}.
Proof.
  unfold TPUEmbeddingLayer_init. intros H.
  apply bind_Ok_inv in H as ([] & H1 & H).
  apply bind_Ok_inv in H as ([] & H2 & H).
  apply bind_Ok_inv in H as ([] & H3 & H).
  apply bind_Ok_inv in H as (h0 & H4 & H).
  apply bind_Ok_inv in H as ([] & H5 & H).
  apply bind_Ok_inv in H as (tables' & H6 & H).
  apply bind_Ok_inv in H as (children & H7 & H).
  injection H as <-.
  apply py_assert_Ok in H1, H2, H3, H5. apply Z.ltb_lt in H2.
  rewrite resolve_table_optimizers_eq in H6.
  destruct (table_optimizer_missing p && is_None (layer_optimizer p));
    [discriminate|]. injection H6 as <-.
  split; [|by exists children].
  unfold leading_assertions.
  destruct (tables p) as [|t0 l] eqn:Htables; [done|]. injection H4 as <-.
  split; [done|]. split; [done|]. split.
  - unfold truthy_str in H3. apply negb_true_iff, String.eqb_neq in H3. done.
  - intros t Ht. simpl. f_equal.
    rewrite forallb_forall in H5. apply Z.eqb_eq, H5.
    by apply list_elem_of_In.
Qed.

Lemma zip_range_lookup {A} (l : list A) (i : nat) (x : A) :
  l !! i = Some x →
  zip (py_range (Z.of_nat (length l))) l !! i = Some (Z.of_nat i, x).
Proof.
  intros Hi. apply lookup_zip_with_Some. exists (Z.of_nat i), x.
  split; [done|]. split; [|done].
  unfold py_range. apply lookup_lt_Some in Hi as Hlt.
  rewrite lookup_seqZ_lt by lia. f_equal; lia.
Qed.

(** X14: a layer that was constructed passed the assertions at the head of
    [__init__] and has one child table per entry of [p.tables], in order.
    The child at position [i] is made from [p.tables[i]]: it has its
    vocabulary size, embedding dimension and input keys, the optimizer
    parameters of the table when it had some and the layer's otherwise, an
    optimizer of a concrete class, and the number of hosts of the first
    table, which is positive; it has no variables and no ops yet. *)
Theorem X14_tables_of_a_constructed_layer (p : LayerParams)
  (layer : TPUEmbeddingLayer) :
  TPUEmbeddingLayer_init p = Ok layer →
  leading_assertions p
  ∧ length (self_tables layer) = length (tables p)
  ∧ _sequence_features layer = ∅
  ∧ _tpu_embedding layer = None
  ∧ ∀ i tp, tables p !! i = Some tp →
      ∃ child,
        self_tables layer !! i = Some child
        ∧ vocab_size (params child) = vocab_size tp
        ∧ embedding_dim (params child) = embedding_dim tp
        ∧ _input_keys child = default [] (input_keys tp)
        ∧ optimizer (params child)
          = match optimizer tp with
            | Some o => Some o
            | None => layer_optimizer p
            end
        ∧ concrete_optimizer (self_optimizer child)
        ∧ Some (num_tpu_hosts (params child)) = num_tpu_hosts <$> head (tables p)
        ∧ 0 < num_tpu_hosts (params child)
        ∧ _private_vars child = ∅
        ∧ _load_op_list child = [] ∧ _retrieve_op_list child = [].
Proof.
  intros H. apply TPUEmbeddingLayer_init_Ok in H as (Hlead & children & Hch & ->).
  cbn [self_tables _sequence_features _tpu_embedding].
  unfold CreateChildren_tables in Hch. apply mapM_res_Forall2 in Hch.
  split; [done|]. split.
  { apply Forall2_length in Hch. rewrite <- Hch.
    rewrite length_zip_with, !length_map. unfold py_range.
    rewrite length_seqZ. lia. }
  split; [done|]. split; [done|].
  intros i tp Hi.
  assert (map (fill_optimizer (layer_optimizer p)) (tables p) !! i
          = Some (fill_optimizer (layer_optimizer p) tp)) as Hi'
    by (by rewrite list_lookup_fmap, Hi).
  apply zip_range_lookup in Hi'.
  destruct (Forall2_lookup_l _ _ _ _ _ Hch Hi') as (child & Hchild & Hinit).
  exists child. split; [done|].
  cbn beta iota in Hinit.
  pose proof (TPUEmbeddingTable_init_Ok _ _ Hinit)
    as (_ & _ & Hhosts & _ & _ & _ & Hp & _).
  pose proof (TPUEmbeddingTable_init_fresh _ _ Hinit)
    as (_ & Hv & _ & Hl & Hr & Hc & _ & _ & Hkeys).
  destruct Hlead as (_ & _ & _ & Hsame).
  assert (tp ∈ tables p) as Hin by (by eapply list_elem_of_lookup_2).
  specialize (Hsame tp Hin).
  rewrite Hp, Hkeys.
  assert (∀ q : TableParams,
            vocab_size (fill_optimizer (layer_optimizer p) q) = vocab_size q
            ∧ embedding_dim (fill_optimizer (layer_optimizer p) q) = embedding_dim q
            ∧ input_keys (fill_optimizer (layer_optimizer p) q) = input_keys q
            ∧ num_tpu_hosts (fill_optimizer (layer_optimizer p) q) = num_tpu_hosts q
            ∧ optimizer (fill_optimizer (layer_optimizer p) q)
              = match optimizer q with
                | Some o => Some o
                | None => layer_optimizer p
                end) as Hfill.
  { intros q. unfold fill_optimizer, Params_Copy.
    destruct (optimizer q) eqn:Hq; simpl; rewrite ?Hq; repeat split.
    by destruct (layer_optimizer p). }
  destruct (Hfill tp) as (Hf1 & Hf2 & Hf3 & Hf4 & Hf5).
  destruct (truthy_str (tbl_name (fill_optimizer (layer_optimizer p) tp)));
    unfold Params_Copy in *; cbn [set_tbl_name vocab_size embedding_dim
      input_keys num_tpu_hosts optimizer] in *;
    rewrite ?Hf1, ?Hf2, ?Hf3, ?Hf4, ?Hf5 in *; repeat split; done.
Qed.

End LayerChildren.

Lemma X14_constructed_layer_witness :
  ∃ layer,
    TPUEmbeddingLayer_init (H := reference_lib) example_layer_params = Ok layer
    ∧ length (self_tables layer) = 1%nat.
Proof.
  destruct (TPUEmbeddingLayer_init (H := reference_lib) example_layer_params)
    as [layer|e] eqn:Hinit; [|vm_compute in Hinit; discriminate Hinit].
  exists layer. split; [reflexivity|].
  destruct (X14_tables_of_a_constructed_layer (lib := reference_lib)
              example_layer_params layer Hinit) as (_ & Hlen & _).
  exact Hlen.
Defined.

(** ** The load ops and the retrieve ops correspond *)

Lemma Forall2_map_same {A B C} (R : B → C → Prop) (f : A → B) (g : A → C)
  (l : list A) :
  (∀ x, R (f x) (g x)) → Forall2 R (map f l) (map g l).
Proof. intros HR. induction l; simpl; constructor; auto. Qed.

(** X15: whenever [CreateSlotVariablesAndOps] of an optimizer returns its
    two op lists, they have the same length and the retrieve op at each
    position mirrors the load op at that position: it writes back, to the
    same variables, the parameters (and for Adagrad the accumulators) of the
    same table and the same shard that the load op loads from them. *)
Theorem X15_retrieve_ops_mirror_load_ops (c : Cluster) (self : Optimizer)
  (table_vars : list VarEntry) (t t' : TPUEmbeddingTable)
  (loads retrieves : list Op) :
  CreateSlotVariablesAndOps c self table_vars t
  = (Ok (OpLists loads retrieves), t') →
  Forall2 mirrors loads retrieves ∧ length loads = length retrieves.
Proof.
  intros H.
  assert (Forall2 mirrors loads retrieves) as HF;
    [|split; [done|by eapply Forall2_length]].
  unfold CreateSlotVariablesAndOps in H.
  destruct (opt_cls (optimizer_params self)).
  - discriminate H.
  - rewrite SGD_CreateSlotVariablesAndOps_eq in H.
    destruct (use_tpu c); injection H as <- <- <-; [|constructor].
    apply Forall2_map_same. intros [i v]. constructor.
  - rewrite Adagrad_CreateSlotVariablesAndOps_eq in H.
    destruct (use_tpu c); injection H as <- <- <-; [|constructor].
    apply Forall2_map_same. intros [i v]. constructor.
Qed.

Lemma X15_retrieve_ops_witness :
  Forall2 mirrors
    (map (load_op_for example_cluster example_adagrad example_table)
         (hosts_of example_table example_table_vars))
    (map (retrieve_op_for example_cluster example_adagrad example_table)
         (hosts_of example_table example_table_vars)).
Proof.
  apply (X15_retrieve_ops_mirror_load_ops example_cluster example_adagrad
           example_table_vars example_table
           (CreateSlotVariablesAndOps example_cluster example_adagrad
              example_table_vars example_table).2).
  vm_compute. reflexivity.
Defined.

(** ** The constant preprocessor of the tests *)



(** ** From the construction of the layer to the registered ops *)

Section LayerEndToEnd.
Context `{lib : TpuEmbeddingLib}.

Lemma children_of_constructed_layer (p : LayerParams) (layer : TPUEmbeddingLayer) :
  TPUEmbeddingLayer_init p = Ok layer →
  length (self_tables layer) = length (tables p)
  ∧ Forall (λ child,
              ∃ q, TPUEmbeddingTable_init q = Ok child
                   ∧ Some (num_tpu_hosts q) = num_tpu_hosts <$> head (tables p))
           (self_tables layer).
Proof.
  intros H. apply TPUEmbeddingLayer_init_Ok in H as (Hlead & children & Hch & ->).
  cbn [self_tables]. unfold CreateChildren_tables in Hch.
  apply mapM_res_Forall2 in Hch. split.
  { apply Forall2_length in Hch. rewrite <- Hch.
    rewrite length_zip_with, !length_map. unfold py_range.
    rewrite length_seqZ. lia. }
  apply Forall_forall. intros child Hin.
  apply list_elem_of_lookup_1 in Hin as [i Hi].
  destruct (Forall2_lookup_r _ _ _ _ _ Hch Hi) as ([j tp'] & Hz & Hinit).
  apply lookup_zip_with_Some in Hz as (j' & tp'' & [= <- <-] & _ & Htp).
  rewrite list_lookup_fmap in Htp.
  destruct (tables p !! i) as [tp|] eqn:Htpi; [|discriminate].
  injection Htp as <-.
  eexists. split; [exact Hinit|].
  destruct Hlead as (_ & _ & _ & Hsame).
  rewrite <- (Hsame tp) by (by eapply list_elem_of_lookup_2).
  f_equal. unfold fill_optimizer, Params_Copy.
  by destruct (truthy_str _), (is_None (optimizer tp)).
Qed.

Lemma instantiate_tables_in_training (c : Cluster) (ts : list TPUEmbeddingTable)
  (n : Z) :
  do_eval c = false →
  Forall (λ t, concrete_optimizer (self_optimizer t)
               ∧ num_tpu_hosts (params t) = n) ts →
  ∃ ts', instantiate_tables c ts = (Ok (), ts')
         ∧ length (concat (map _load_op_list ts'))
           = (if use_tpu c then (length ts * Z.to_nat n)%nat else 0%nat)
         ∧ length (concat (map _retrieve_op_list ts'))
           = (if use_tpu c then (length ts * Z.to_nat n)%nat else 0%nat).
Proof.
  intros Hd. induction 1 as [|t ts [Hc Hn] _ (ts' & Hts & Hl & Hr)]; simpl.
  - exists []. by destruct (use_tpu c).
  - destruct (created_ops c t Hd Hc) as (Hok & Hload & Hretr).
    destruct (Table_CreateLayerVariables c t) as [r t'] eqn:Ht.
    cbn [fst snd] in *. subst r. rewrite Hts.
    exists (t' :: ts'). split; [done|]. simpl.
    rewrite !length_app, Hl, Hr, Hload, Hretr.
    destruct (use_tpu c); [|done].
    rewrite !length_map. unfold py_range. rewrite length_seqZ, Hn. lia.
Qed.

(** X17: a constructed layer, taken through [_CreateChildrenVariables] and
    [_CreateLayerVariables] on the trainer of a TPU job: the variables of
    all its tables are created without error, and the layer then adds to
    [TPU_EMBEDDING_LOAD_OPS] and to [TPU_EMBEDDING_RETRIEVE_OPS] one list
    each that holds one op per table and host, that is
    [len(p.tables) * num_tpu_hosts] ops, the number of hosts being that of
    the first table. *)
Theorem X17_ops_registered_by_a_constructed_layer (c : Cluster)
  (p : LayerParams) (layer layer' : TPUEmbeddingLayer) (g g' : Graph) :
  use_tpu c = true → do_eval c = false →
  TPUEmbeddingLayer_init p = Ok layer →
  (Layer_CreateChildrenVariables c layer).1 = Ok ()
  ∧ (Layer_CreateLayerVariables c (Layer_CreateChildrenVariables c layer).2 g
     = (Ok layer', g') →
     ∃ loads retrieves tp,
       head (tables p) = Some tp
       ∧ g' TPU_EMBEDDING_LOAD_OPS
         = g TPU_EMBEDDING_LOAD_OPS ++ [item_ops loads]
       ∧ g' TPU_EMBEDDING_RETRIEVE_OPS
         = g TPU_EMBEDDING_RETRIEVE_OPS ++ [item_ops retrieves]
       ∧ length loads = (length (tables p) * Z.to_nat (num_tpu_hosts tp))%nat
       ∧ length retrieves = (length (tables p) * Z.to_nat (num_tpu_hosts tp))%nat).
Proof.
  intros Hu Hd Hinit.
  destruct (children_of_constructed_layer p layer Hinit) as [Hlen Hall].
  apply TPUEmbeddingLayer_init_Ok in Hinit as ((Hne & _) & _).
  destruct (tables p) as [|tp tps] eqn:Htables; [done|]. clear Hne.
  destruct (instantiate_tables_in_training c (self_tables layer)
              (num_tpu_hosts tp) Hd) as (ts' & Hts & Hl & Hr).
  { eapply Forall_impl; [exact Hall|]. intros child (q & Hq & Hhosts).
    apply TPUEmbeddingTable_init_fresh in Hq as (Hp & _ & _ & _ & _ & Hc & _).
    split; [done|]. rewrite Hp. simpl in Hhosts. by injection Hhosts. }
  unfold Layer_CreateChildrenVariables. rewrite Hts. cbn [fst snd].
  split; [done|]. intros H.
  unfold Layer_CreateLayerVariables in H. rewrite Hu in H.
  apply M_bind_Ok_inv in H as (acc & g0 & Hacc & H).
  apply lift_res_Ok_inv in Hacc as [Hacc ->].
  apply layer_loop_table_ops in Hacc as [Hload Hretr].
  cbn [set_tables self_tables load_op_list retrieve_op_list app] in Hload, Hretr.
  apply M_bind_Ok_inv in H as ([] & g1 & Hg1 & H). injection Hg1 as <-.
  apply M_bind_Ok_inv in H as ([] & g2 & Hg2 & H). injection Hg2 as <-.
  assert (g' TPU_EMBEDDING_LOAD_OPS
          = g TPU_EMBEDDING_LOAD_OPS ++ [item_ops (load_op_list acc)]
          ∧ g' TPU_EMBEDDING_RETRIEVE_OPS
            = g TPU_EMBEDDING_RETRIEVE_OPS ++ [item_ops (retrieve_op_list acc)])
    as [Hgl Hgr].
  { apply M_bind_Ok_inv in H as (coll & g3 & Hg3 & H).
    injection Hg3 as <- <-. simpl in H.
    apply M_bind_Ok_inv in H as ([] & g4 & Hassert & H).
    apply lift_res_Ok_inv in Hassert as [_ ->].
    destruct (length (g TPU_EMBEDDING) =? 1)%nat.
    - destruct (g TPU_EMBEDDING) as [|x ?]; simpl in H; [discriminate|].
      by injection H as <- <-.
    - apply M_bind_Ok_inv in H as (hosts & g5 & Hg5 & H).
      apply lift_res_Ok_inv in Hg5 as [_ ->].
      apply M_bind_Ok_inv in H as ([] & g6 & Hg6 & H).
      apply lift_res_Ok_inv in Hg6 as [_ ->].
      apply M_bind_Ok_inv in H as ([] & g7 & Hg7 & H).
      apply lift_res_Ok_inv in Hg7 as [_ ->].
      apply M_bind_Ok_inv in H as ([] & g8 & Hg8 & H).
      injection Hg8 as <-. by injection H as <- <-. }
  exists (load_op_list acc), (retrieve_op_list acc), tp.
  split; [done|]. split; [done|]. split; [done|].
  rewrite Hload, Hretr, Hl, Hr, Hu, Hlen. done.
Qed.

End LayerEndToEnd.

Lemma X17_ops_registered_witness :
  ∃ layer g' loads,
    TPUEmbeddingLayer_init (H := reference_lib) example_layer_params = Ok layer
    ∧ g' TPU_EMBEDDING_LOAD_OPS = [item_ops loads]
    ∧ length loads = 3%nat.
Proof.
  destruct (TPUEmbeddingLayer_init (H := reference_lib) example_layer_params)
    as [layer|e] eqn:Hinit; [|vm_compute in Hinit; discriminate Hinit].
  destruct (Layer_CreateLayerVariables (H := reference_lib) example_cluster
              (Layer_CreateChildrenVariables example_cluster layer).2 empty_graph)
    as [[layer'|e] g'] eqn:Hv.
  - destruct (X17_ops_registered_by_a_constructed_layer (lib := reference_lib)
                example_cluster example_layer_params layer layer' empty_graph g'
                eq_refl eq_refl Hinit) as [_ Hops].
    destruct (Hops Hv) as (loads & retrieves & tp & Htp & Hgl & _ & Hll & _).
    exists layer, g', loads. split; [reflexivity|]. split; [exact Hgl|].
    injection Htp as <-. exact Hll.
  - vm_compute in Hinit. injection Hinit as <-.
    vm_compute in Hv. discriminate Hv.
Defined.

(** ** What reaches the table configuration *)

Section TableConfiguration.
Context `{lib : TpuEmbeddingLib}.

Lemma Optimizer_init_parameters (po : OptimizerParams) (o : Optimizer) :
  Optimizer_init po = Ok o →
  optimizer_params o = po
  ∧ _tpu_embedding_optimizer_parameters o = optimization_parameters_of po.
Proof.
  unfold Optimizer_init, optimization_parameters_of. intros H. inv_bind H.
  destruct (opt_cls po); inv_bind H; injection H as <-; by split.
Qed.

(** X18: the table configuration that a constructed table hands to the
    accelerator library carries the padded vocabulary size, the embedding
    dimension, the combiner, the learning rate and the schedule of the
    table, and the optimization parameters built from [p.optimizer]: for
    SGD and for Adagrad the learning rate, the clipping bounds and the
    weight decay of the optimizer, and for Adagrad the initial accumulator
    as well. *)
Theorem X18_table_configuration (p : TableParams) (t : TPUEmbeddingTable) :
  TPUEmbeddingTable_init p = Ok t →
  ∃ po,
    optimizer p = Some po
    ∧ optimization_parameters_of po
      = Some (tc_optimization_parameters (_table_config t))
    ∧ tc_vocabulary_size (_table_config t) = _ids_per_shard t * num_tpu_hosts p
    ∧ tc_dimension (_table_config t) = embedding_dim p
    ∧ tc_combiner (_table_config t) = combiner p
    ∧ tc_learning_rate (_table_config t) = learning_rate p
    ∧ tc_learning_rate_fn (_table_config t) = lr_schedule p.
Proof.
  unfold TPUEmbeddingTable_init. intros H. inv_bind H.
  injection H as <-. cbn.
  unfold CreateChild_optimizer in *.
  destruct (optimizer p) as [po|] eqn:Hpo; [|discriminate].
  exists po. split; [done|].
  match goal with
  | Ho : Optimizer_init _ = Ok ?o |- _ =>
      apply Optimizer_init_parameters in Ho as [_ Hop]
  end.
  match goal with
  | Hp : tpu_embedding_optimizer_parameters ?o = Ok _ |- _ =>
      unfold tpu_embedding_optimizer_parameters in Hp; rewrite Hop in Hp
  end.
  match goal with
  | Hl : GetLearningRateFn p = Ok _ |- _ =>
      unfold GetLearningRateFn in Hl;
      destruct (lr_schedule p) as [sch|]; inv_bind Hl; injection Hl as <-
  end.
  all: match goal with
       | Hp : match ?x with Some _ => _ | None => _ end = Ok _ |- _ =>
           destruct x eqn:Hx; [|discriminate]; injection Hp as <-
       end.
  all: split; [|done].
  all: rewrite <- Hx; unfold optimization_parameters_of, Params_Copy;
    by destruct (truthy_str (opt_name po)).
Qed.

End TableConfiguration.

Lemma X18_table_configuration_witness :
  optimization_parameters_of example_adagrad_params
  = Some (tc_optimization_parameters (_table_config example_table)).
Proof.
  destruct (X18_table_configuration (lib := reference_lib) example_table_params
              example_table) as (po & Hpo & Hop & _).
  - vm_compute. reflexivity.
  - injection Hpo as <-. exact Hop.
Defined.

Section GradientAccumulation.
Context `{lib : TpuEmbeddingLib}.

Lemma Optimizer_init_use_gradient_accumulation (b : bool) (po : OptimizerParams) :
  Optimizer_init (set_use_gradient_accumulation b po)
  = (λ o, {| optimizer_params := set_use_gradient_accumulation b po;
             _tpu_embedding_optimizer_parameters :=
               _tpu_embedding_optimizer_parameters o |}) <$> Optimizer_init po.
Proof.
  unfold Optimizer_init. cbn [set_use_gradient_accumulation opt_name opt_cls
    opt_learning_rate opt_clip_weight_min opt_clip_weight_max
    opt_weight_decay_factor opt_multiply_weight_decay_factor_by_learning_rate
    opt_initial_accumulator].
  destruct (py_assert (truthy_str (opt_name po))) as [[]|e]; simpl; [|done].
  destruct (opt_cls po); simpl; [done| |];
    by destruct (check_optimization_parameters _).
Qed.

(** X19: the parameter [use_gradient_accumulation] of the Adagrad optimizer
    is defined but never read: whatever it is set to, the optimizer builds
    the same optimization parameters, a table with this optimizer is
    constructed with the same table configuration or fails with the same
    exception, and [CreateSlotVariablesAndOps] makes the same slot
    variables and the same ops. *)
Theorem X19_use_gradient_accumulation_is_never_read (b : bool)
  (po : OptimizerParams) :
  (_tpu_embedding_optimizer_parameters
     <$> Optimizer_init (set_use_gradient_accumulation b po))
  = (_tpu_embedding_optimizer_parameters <$> Optimizer_init po)
  ∧ (∀ p : TableParams,
       (_table_config
          <$> TPUEmbeddingTable_init
                (set_optimizer (Some (set_use_gradient_accumulation b po)) p))
       = (_table_config <$> TPUEmbeddingTable_init (set_optimizer (Some po) p)))
  ∧ (∀ c o table_vars t,
       optimizer_params o = po →
       CreateSlotVariablesAndOps c
         {| optimizer_params := set_use_gradient_accumulation b po;
            _tpu_embedding_optimizer_parameters :=
              _tpu_embedding_optimizer_parameters o |} table_vars t
       = CreateSlotVariablesAndOps c o table_vars t).
Proof.
  split; [|split].
  - rewrite Optimizer_init_use_gradient_accumulation.
    by destruct (Optimizer_init po).
  - intros p. unfold TPUEmbeddingTable_init.
    cbn [set_optimizer vocab_size embedding_dim input_keys tbl_name
         num_tpu_hosts optimizer combiner learning_rate max_sequence_length].
    repeat match goal with
           | |- context [py_assert ?x] => destruct (py_assert x) as [[]|?]; simpl; [|done]
           end.
    assert (assert_combiner
              (set_optimizer (Some (set_use_gradient_accumulation b po)) p)
            = assert_combiner (set_optimizer (Some po) p)) as -> by done.
    destruct (assert_combiner _) as [[]|?]; simpl; [|done].
    destruct (ids_per_shard_of _ _) as [ids|?]; simpl; [|done].
    unfold Params_Copy.
    cbn [set_use_gradient_accumulation opt_name opt_cls opt_dtype
         opt_learning_rate opt_clip_weight_min opt_clip_weight_max
         opt_weight_decay_factor opt_multiply_weight_decay_factor_by_learning_rate
         opt_initial_accumulator opt_use_gradient_accumulation].
    assert (GetLearningRateFn
              (set_optimizer (Some (set_use_gradient_accumulation b po)) p)
            = GetLearningRateFn (set_optimizer (Some po) p)) as -> by done.
    destruct (truthy_str (opt_name po)).
    + rewrite Optimizer_init_use_gradient_accumulation.
      destruct (Optimizer_init po) as [o|?]; simpl; [|done].
      destruct (GetLearningRateFn _) as [fn|?]; simpl; [|done].
      unfold tpu_embedding_optimizer_parameters. simpl.
      destruct (_tpu_embedding_optimizer_parameters o); simpl; [|done].
      by destruct (check_table_config _).
    + change {| opt_cls := opt_cls po; opt_name := "optimizer";
                opt_dtype := opt_dtype po;
                opt_learning_rate := opt_learning_rate po;
                opt_clip_weight_min := opt_clip_weight_min po;
                opt_clip_weight_max := opt_clip_weight_max po;
                opt_weight_decay_factor := opt_weight_decay_factor po;
                opt_multiply_weight_decay_factor_by_learning_rate :=
                  opt_multiply_weight_decay_factor_by_learning_rate po;
                opt_initial_accumulator := opt_initial_accumulator po;
                opt_use_gradient_accumulation := b |}
        with (set_use_gradient_accumulation b
                {| opt_cls := opt_cls po; opt_name := "optimizer";
                   opt_dtype := opt_dtype po;
                   opt_learning_rate := opt_learning_rate po;
                   opt_clip_weight_min := opt_clip_weight_min po;
                   opt_clip_weight_max := opt_clip_weight_max po;
                   opt_weight_decay_factor := opt_weight_decay_factor po;
                   opt_multiply_weight_decay_factor_by_learning_rate :=
                     opt_multiply_weight_decay_factor_by_learning_rate po;
                   opt_initial_accumulator := opt_initial_accumulator po;
                   opt_use_gradient_accumulation :=
                     opt_use_gradient_accumulation po |}).
      rewrite Optimizer_init_use_gradient_accumulation.
      destruct (Optimizer_init _) as [o|?]; simpl; [|done].
      destruct (GetLearningRateFn _) as [fn|?]; simpl; [|done].
      unfold tpu_embedding_optimizer_parameters. simpl.
      destruct (_tpu_embedding_optimizer_parameters o); simpl; [|done].
      by destruct (check_table_config _).
  - intros c o table_vars t <-. unfold CreateSlotVariablesAndOps.
    cbn [optimizer_params set_use_gradient_accumulation opt_cls].
    destruct (opt_cls (optimizer_params o)); try reflexivity.
Qed.

End GradientAccumulation.

(** ** The weights the CPU lookup reads *)

Lemma created_params (c : Cluster) (t : TPUEmbeddingTable) :
  params (Table_CreateLayerVariables c t).2 = params t.
Proof.
  rewrite Table_CreateLayerVariables_eq.
  destruct (with_shards_fields c t) as (Hp & _).
  destruct (do_eval c); [done|].
  unfold CreateSlotVariablesAndOps.
  destruct (opt_cls (optimizer_params (self_optimizer t))).
  - done.
  - rewrite SGD_CreateSlotVariablesAndOps_eq. by destruct (use_tpu c).
  - rewrite Adagrad_CreateSlotVariablesAndOps_eq.
    destruct (add_slots_fields c (optimizer_params (self_optimizer t))
                (hosts_of (with_shards c t) (map OneVar (shard_vars c t)))
                (with_shards c t)) as (Hp' & _).
    destruct (use_tpu c); cbn [snd set_op_lists params]; congruence.
Qed.

(** X20: when a session gives every variable a value of its declared
    shape, the weights that the CPU lookup reads from a table whose
    variables were created off the TPU are one matrix per host, each of
    shape [[_ids_per_shard, embedding_dim]]; with at least one host their
    width is the embedding dimension of the table, which is what the
    lookup relies on for the shape of its result. *)
Theorem X20_weights_read_by_the_cpu_lookup `{TfEmbeddingOps} (c : Cluster)
  (t : TPUEmbeddingTable) :
  variables_have_declared_shape →
  use_tpu c = false →
  let t' := (Table_CreateLayerVariables c t).2 in
  ∃ wm,
    theta_wm t' = Ok wm
    ∧ length wm = Z.to_nat (num_tpu_hosts (params t))
    ∧ Forall (λ w, shape w = [Z.to_nat (_ids_per_shard t);
                              Z.to_nat (embedding_dim (params t))]) wm
    ∧ (0 < num_tpu_hosts (params t) → shards_have_declared_width t').
Proof.
  intros Hshape Hu t'. subst t'.
  destruct (created_wm c t) as [_ Hth]. rewrite Hu in Hth.
  assert (theta_wm (Table_CreateLayerVariables c t).2
          = Ok (map read_variable (shard_vars c t))) as Hwm
    by (unfold theta_wm; by rewrite Hth).
  exists (map read_variable (shard_vars c t)). split; [done|].
  split; [by rewrite length_map, shard_vars_length|].
  split.
  - apply Forall_forall. intros w Hw.
    apply list_elem_of_fmap in Hw as (v & -> & Hv).
    unfold shard_vars in Hv. apply list_elem_of_fmap in Hv as (i & -> & _).
    by rewrite Hshape.
  - intros Hn wm Hwm'. rewrite Hwm in Hwm'. injection Hwm' as <-.
    rewrite created_params. unfold shard_vars, py_range.
    rewrite seqZ_cons by lia. simpl. by rewrite Hshape.
Qed.

Lemma reference_variables_have_declared_shape :
  variables_have_declared_shape (H := reference_ops).
Proof. intros v. reflexivity. Qed.

Lemma X20_weights_witness :
  ∃ wm, theta_wm (H := reference_ops)
          (Table_CreateLayerVariables cpu_cluster example_table).2 = Ok wm
        ∧ length wm = 3%nat.
Proof.
  destruct (X20_weights_read_by_the_cpu_lookup (H := reference_ops) cpu_cluster
              example_table reference_variables_have_declared_shape eq_refl)
    as (wm & Hwm & Hlen & _).
  exists wm. split; [exact Hwm|exact Hlen].
Defined.
